(** * ECC batch processing: extraction, ledger batches and reconciliation

    A shallow embedding of [ecc_batch/views.py].

    - Text is [string]; the character predicates and case mapping are the
      ones Python applies to ASCII text (code points below 128).
    - A PDF table cell is [option string] ([None] or a [str]).
    - A cheque amount is a binary64 value, carried as the Standard Library's
      [spec_float]; [float(...)] on text is the correctly rounded value of
      Python's decimal syntax.
    - [xlwt] and [xlrd] worksheets are finite maps from (row, column) to a
      cell value; the limits of the .xls container (65536 rows, 256 columns)
      are those libraries' concern and are not part of the model.
    - A view that answers with an error response returns the matching
      [failure]; an uncaught Python exception inside the view's [try] is
      [Crashed], the HTTP 500 answer. *)

From Stdlib Require Import ZArith List String Ascii Bool Lia DecimalString.
From Stdlib Require Import Floats.SpecFloat.
From stdpp Require Import gmap strings.

Open Scope string_scope.
Open Scope Z_scope.

(* ===================================================================== *)
(** ** Python text primitives (ASCII) *)
(* ===================================================================== *)

Module PyStr.

Definition code (c : ascii) : nat := nat_of_ascii c.

Definition between (lo hi : nat) (c : ascii) : bool :=
  (lo <=? code c)%nat && (code c <=? hi)%nat.

(** [str.isspace] on one character: TAB..CR, FS..US and SPACE. *)
Definition isspace_c (c : ascii) : bool := between 9 13 c || between 28 32 c.
Definition isdigit_c (c : ascii) : bool := between 48 57 c.
Definition isupper_c (c : ascii) : bool := between 65 90 c.
Definition islower_c (c : ascii) : bool := between 97 122 c.
Definition isalpha_c (c : ascii) : bool := isupper_c c || islower_c c.

Definition upper_c (c : ascii) : ascii :=
  if islower_c c then ascii_of_nat (code c - 32) else c.

Fixpoint all_c (p : ascii -> bool) (s : string) : bool :=
  match s with
  | EmptyString => true
  | String c s' => p c && all_c p s'
  end.

Fixpoint any_c (p : ascii -> bool) (s : string) : bool :=
  match s with
  | EmptyString => false
  | String c s' => p c || any_c p s'
  end.

Definition nonempty (s : string) : bool :=
  match s with EmptyString => false | String _ _ => true end.

(** [s.isdigit()], [s.isalpha()]: false on the empty string. These are
    Python's predicates on ASCII text; on other text Python's accept more
    characters ([str.isdigit] accepts the superscript digits, for one). *)
Definition isdigit (s : string) : bool := nonempty s && all_c isdigit_c s.
Definition isalpha (s : string) : bool := nonempty s && all_c isalpha_c s.

(** [s.isupper()]: some cased character, and no lower-case one. *)
Definition isupper (s : string) : bool :=
  any_c isupper_c s && negb (any_c islower_c s).

Fixpoint upper (s : string) : string :=
  match s with
  | EmptyString => EmptyString
  | String c s' => String (upper_c c) (upper s')
  end.

Fixpoint lstrip (s : string) : string :=
  match s with
  | EmptyString => EmptyString
  | String c s' => if isspace_c c then lstrip s' else s
  end.

Fixpoint rstrip (s : string) : string :=
  match s with
  | EmptyString => EmptyString
  | String c s' =>
      match rstrip s' with
      | EmptyString => if isspace_c c then EmptyString else String c EmptyString
      | r => String c r
      end
  end.

(** [s.strip()] *)
Definition strip (s : string) : string := lstrip (rstrip s).

(** [s.replace(c, '')] for a one-character [c]. *)
Fixpoint remove_char (d : ascii) (s : string) : string :=
  match s with
  | EmptyString => EmptyString
  | String c s' =>
      if Ascii.eqb c d then remove_char d s' else String c (remove_char d s')
  end.

(** [c in s] for a one-character [c]. *)
Definition has_char (d : ascii) (s : string) : bool := any_c (Ascii.eqb d) s.

(** [sub in s] *)
Fixpoint contains (sub s : string) : bool :=
  String.prefix sub s ||
  match s with
  | EmptyString => false
  | String _ s' => contains sub s'
  end.

(** [s.split()]: the maximal runs of non-whitespace characters. [acc] is the
    run being read. *)
Fixpoint split_go (acc s : string) : list string :=
  match s with
  | EmptyString => if nonempty acc then [acc] else []
  | String c s' =>
      if isspace_c c
      then (if nonempty acc then acc :: split_go EmptyString s'
            else split_go EmptyString s')
      else split_go (acc ++ String c EmptyString) s'
  end.

Definition split (s : string) : list string := split_go EmptyString s.

(** [s.split(d)] for a one-character separator: never empty. *)
Fixpoint split_on (d : ascii) (s : string) : list string :=
  match s with
  | EmptyString => [EmptyString]
  | String c s' =>
      if Ascii.eqb c d then EmptyString :: split_on d s'
      else match split_on d s' with
           | [] => [String c EmptyString]
           | w :: ws => String c w :: ws
           end
  end.

(** [''.join(l)] *)
Definition join (l : list string) : string := String.concat EmptyString l.

(** [' '.join(l)] *)
Definition join_sp (l : list string) : string := String.concat " " l.

(** [s[:n]] *)
Fixpoint take (n : nat) (s : string) : string :=
  match n, s with
  | O, _ => EmptyString
  | _, EmptyString => EmptyString
  | S n', String c s' => String c (take n' s')
  end.

(** [x in l] for a list of strings. *)
Definition mem (x : string) (l : list string) : bool :=
  existsb (String.eqb x) l.

(** [str(n)] for an [int]. *)
Definition str_int (z : Z) : string := NilZero.string_of_int (Z.to_int z).

End PyStr.

(* ===================================================================== *)
(** ** Python floats (binary64) *)
(* ===================================================================== *)

Module PyFloat.

Definition prec : Z := 53.
Definition emax : Z := 1024.

Definition zero : spec_float := S754_zero false.

(** [float(n)] for an [int] (round to nearest, ties to even). *)
Definition of_Z (n : Z) : spec_float := binary_normalize prec emax n 0 false.

(** The binary64 value nearest to [m * 10^e], [m > 0]. *)
Definition of_decimal (neg : bool) (m : positive) (e : Z) : spec_float :=
  match e with
  | Zneg k =>
      let '(q, e', l) :=
        SFdiv_core_binary prec emax (Zpos m) 0 (Z.pow 10 (Zpos k)) 0 in
      binary_round_aux prec emax neg q e' l
  | _ => binary_round prec emax neg (m * Z.to_pos (Z.pow 10 e))%positive 0
  end.

(** [x < y], [x > y] on floats; false when either side is a NaN. *)
Definition ltb (x y : spec_float) : bool := SFltb x y.
Definition gtb (x y : spec_float) : bool := SFltb y x.

(** [-x] *)
Definition neg (x : spec_float) : spec_float := SFopp x.

(** [bool(x)]: every float but the two zeros. *)
Definition truthy (x : spec_float) : bool :=
  match x with S754_zero _ => false | _ => true end.

(** [int(x)]: truncation; [None] is the [OverflowError] on an infinity and
    the [ValueError] on a NaN. *)
Definition to_int (x : spec_float) : option Z :=
  match x with
  | S754_zero _ => Some 0
  | S754_finite s m e =>
      let v := match e with
               | Zneg k => Zpos m / Z.pow 2 (Zpos k)
               | _ => Zpos m * Z.pow 2 e
               end in
      Some (if s then - v else v)
  | _ => None
  end.

(** [x == n] for a float [x] and an [int] [n]: exact comparison. *)
Definition eq_int (x : spec_float) (n : Z) : bool :=
  match x with
  | S754_zero _ => n =? 0
  | S754_finite s m e =>
      match e with
      | Zneg k => ((if s then Zneg m else Zpos m) =? n * Z.pow 2 (Zpos k))
      | _ => ((if s then Zneg m else Zpos m) * Z.pow 2 e =? n)
      end
  | _ => false
  end.

(** *** [float(s)] on text *)

(** The whitespace [float] strips from ASCII text: TAB..CR and SPACE. *)
Definition isspace_c (c : ascii) : bool :=
  PyStr.between 9 13 c || Ascii.eqb c " ".

Fixpoint lstrip (s : string) : string :=
  match s with
  | EmptyString => EmptyString
  | String c s' => if isspace_c c then lstrip s' else s
  end.

Fixpoint rstrip (s : string) : string :=
  match s with
  | EmptyString => EmptyString
  | String c s' =>
      match rstrip s' with
      | EmptyString => if isspace_c c then EmptyString else String c EmptyString
      | r => String c r
      end
  end.

(** Underscores are allowed only between two digits, and are dropped.
    [prev] is the character before [s], if any. *)
Fixpoint drop_underscores (prev : option ascii) (s : string) : option string :=
  let prev_digit := match prev with Some p => PyStr.isdigit_c p | None => false end in
  let prev_us := match prev with Some p => Ascii.eqb p "_" | None => false end in
  match s with
  | EmptyString => if prev_us then None else Some EmptyString
  | String c s' =>
      if Ascii.eqb c "_"
      then (if prev_digit then drop_underscores (Some c) s' else None)
      else if prev_us && negb (PyStr.isdigit_c c) then None
      else option_map (String c) (drop_underscores (Some c) s')
  end.

Definition digit_val (c : ascii) : Z := Z.of_nat (PyStr.code c) - 48.

(** Reads the longest run of digits: the number read after [acc], how many
    digits, and the rest. *)
Fixpoint digits (acc : Z) (n : nat) (s : string) : Z * nat * string :=
  match s with
  | String c s' =>
      if PyStr.isdigit_c c then digits (10 * acc + digit_val c) (S n) s'
      else (acc, n, s)
  | EmptyString => (acc, n, s)
  end.

Definition sign (s : string) : bool * string :=
  match s with
  | String "-" s' => (true, s')
  | String "+" s' => (false, s')
  | _ => (false, s)
  end.

(** The exponent part [e[+-]ddd] up to the end of the text. *)
Definition exponent (s : string) : option Z :=
  match s with
  | EmptyString => Some 0
  | String c s' =>
      if Ascii.eqb c "e" || Ascii.eqb c "E" then
        let '(sg, s1) := sign s' in
        match digits 0 0 s1 with
        | (_, O, _) => None
        | (v, _, EmptyString) => Some (if sg then - v else v)
        | _ => None
        end
      else None
  end.

(** [sign digits [. digits] [exponent]] with a digit before or after the
    point: the sign, the digits read as one integer, and the power of ten. *)
Definition decimal (s : string) : option (bool * Z * Z) :=
  let '(sg, s0) := sign s in
  let '(ip, ni, s1) := digits 0 0 s0 in
  let '(m, nf, s2) :=
    match s1 with
    | String "." s1' => digits ip 0 s1'
    | _ => (ip, O, s1)
    end in
  match (ni + nf)%nat with
  | O => None
  | _ => option_map (fun e => (sg, m, e - Z.of_nat nf)) (exponent s2)
  end.

Definition inf_or_nan (s : string) : option spec_float :=
  let '(sg, s0) := sign s in
  let w := PyStr.upper s0 in
  if String.eqb w "INF" || String.eqb w "INFINITY" then Some (S754_infinity sg)
  else if String.eqb w "NAN" then Some S754_nan
  else None.

(** [float(s)]; [None] is the [ValueError]. *)
Definition of_string (s : string) : option spec_float :=
  match drop_underscores None (lstrip (rstrip s)) with
  | None => None
  | Some t =>
      match inf_or_nan t with
      | Some x => Some x
      | None =>
          match decimal t with
          | Some (sg, Zpos m, e) => Some (of_decimal sg m e)
          | Some (sg, _, _) => Some (S754_zero sg)
          | None => None
          end
      end
  end.

End PyFloat.

Import PyStr.

(* ===================================================================== *)
(** ** Cheque records and the bank-name table *)
(* ===================================================================== *)

(** The dict built by [_extract_from_table] and [_extract_from_text]. *)
Record cheque := mk_cheque {
  bfd_account : string;
  cheque_amount : spec_float;
  pay_bank_name : string;
  pay_account : string;
  cheque_number : string;
  branch_code : string;
  reason : string
}.

Definition BANK_NAME_FIXES : list (string * string) :=
  [ ("CITIZE", "CITIZENS"); ("KUMARI", "KUMARI"); ("KUMA", "KUMARI");
    ("SIDDHA", "SIDDHARTHA"); ("SIDDH", "SIDDHARTHA");
    ("MACHI", "MACHAPUCHARE"); ("MACHA", "MACHAPUCHARE");
    ("SUNRI", "SUNRISE"); ("EXCEL", "EXCEL") ].

(** [d[k]] when [k in d]. *)
Fixpoint dict_get (d : list (string * string)) (k : string) : option string :=
  match d with
  | [] => None
  | (k', v) :: d' => if String.eqb k k' then Some v else dict_get d' k
  end.

(** [d[k] if k in d else k] *)
Definition dict_fix (d : list (string * string)) (k : string) : string :=
  match dict_get d k with Some v => v | None => k end.

Definition dict_values (d : list (string * string)) : list string := map snd d.

(* ===================================================================== *)
(** ** Generic list helpers for the Python loops *)
(* ===================================================================== *)

(** [enumerate(l)] *)
Definition enumerate {A} (l : list A) : list (nat * A) :=
  combine (seq 0 (length l)) l.

(** A [for] loop that returns at the first element for which the body
    returns. *)
Fixpoint first_map {A B} (f : A -> option B) (l : list A) : option B :=
  match l with
  | [] => None
  | x :: l' => match f x with Some y => Some y | None => first_map f l' end
  end.

(** [l.sort(key=..., reverse=True)]: stable, descending. [gt y x] says that
    the key of [y] is strictly above the key of [x]. *)
Fixpoint insert_desc {A} (gt : A -> A -> bool) (x : A) (l : list A) : list A :=
  match l with
  | [] => [x]
  | y :: l' => if gt y x then y :: insert_desc gt x l' else x :: l
  end.

Definition sort_desc {A} (gt : A -> A -> bool) (l : list A) : list A :=
  fold_right (insert_desc gt) [] l.

(* ===================================================================== *)
(** ** Field extraction, table mode *)
(* ===================================================================== *)

(** A table cell as [pdfplumber] returns it: [None] or a [str]. *)
Definition cell : Type := option string.

(** [str(c)] when [c] is truthy (neither [None] nor [''']). *)
Definition text (c : cell) : option string :=
  match c with
  | Some s => if nonempty s then Some s else None
  | None => None
  end.

(** [str(row[i])] when [len(row) > i and row[i]]. *)
Definition text_at (row : list cell) (i : nat) : option string :=
  match row !! i with Some c => text c | None => None end.

Definition len_in (lo hi : nat) (s : string) : bool :=
  (lo <=? String.length s)%nat && (String.length s <=? hi)%nat.

Definition is_account (s : string) : bool := isdigit s && len_in 12 17 s.
Definition is_cheque_no (s : string) : bool := isdigit s && len_in 6 10 s.

(** The sort key [(x[0], -abs(x[1] - 9))] of a candidate [(len, i, s)]. *)
Definition account_key (x : nat * nat * string) : nat * Z :=
  let '(l, i, _) := x in (l, - Z.abs (Z.of_nat i - 9)).

Definition key_gt (a b : nat * Z) : bool :=
  (fst b <? fst a)%nat || ((fst a =? fst b)%nat && (snd b <? snd a)).

Definition account_candidate (ic : nat * cell) : list (nat * nat * string) :=
  match text (snd ic) with
  | None => []
  | Some c =>
      let s := strip c in
      if is_account s then [(String.length s, fst ic, s)] else []
  end.

Definition _extract_bfd_account (row : list cell) : option string :=
  let primary :=
    match text_at row 9 with
    | Some c => let cell_str := strip c in
                if is_account cell_str then Some cell_str else None
    | None => None
    end in
  match primary with
  | Some s => Some s
  | None =>
      let candidates := flat_map account_candidate (enumerate row) in
      match sort_desc (fun a b => key_gt (account_key a) (account_key b)) candidates with
      | (_, _, s) :: _ => Some s
      | [] => None
      end
  end.

Definition _extract_cheque_number (row : list cell) : option string :=
  let primary :=
    match text_at row 6 with
    | Some c => let s := strip c in if is_cheque_no s then Some s else None
    | None => None
    end in
  match primary with
  | Some s => Some s
  | None =>
      first_map (fun c => match text c with
                          | Some c => let s := strip c in
                                      if is_cheque_no s then Some s else None
                          | None => None
                          end) row
  end.

(** [amount_str.replace('.', '').replace('-', '').isdigit()] *)
Definition amount_shape (amount_str : string) : bool :=
  isdigit (remove_char "-" (remove_char "." amount_str)).

Definition hundred_million : spec_float := PyFloat.of_Z 100000000.

(** [0 < amt < 100000000] *)
Definition in_range (amt : spec_float) : bool :=
  PyFloat.ltb PyFloat.zero amt && PyFloat.ltb amt hundred_million.

(** The [try] block on col[13]; a [ValueError] of [float] leaves it. *)
Definition amount_primary (c : string) : option spec_float :=
  let s := strip c in
  if has_char "," s || has_char "." s || isdigit s then
    let amount_str := remove_char "," s in
    if amount_shape amount_str then
      match PyFloat.of_string amount_str with
      | Some amt => if PyFloat.gtb amt PyFloat.zero then Some amt else None
      | None => None
      end
    else None
  else None.

(** The body of the fallback loop for one cell; [None] goes on to the next
    cell (also after a [ValueError]). *)
Definition amount_scan (c : cell) : option spec_float :=
  match text c with
  | None => None
  | Some c =>
      let s := strip c in
      if has_char "," s || has_char "." s then
        let amount_str := remove_char "," s in
        if amount_shape amount_str then
          match PyFloat.of_string amount_str with
          | Some amt => if in_range amt then Some amt else None
          | None => None
          end
        else None
      else if isdigit s && (3 <=? String.length s)%nat then
        match PyFloat.of_string s with
        | Some amt => if in_range amt then Some amt else None
        | None => None
        end
      else None
  end.

Definition _extract_amount (row : list cell) : option spec_float :=
  let primary :=
    match text_at row 13 with
    | Some c => amount_primary c
    | None => None
    end in
  match primary with
  | Some amt => Some amt
  | None => first_map amount_scan row
  end.

Definition _extract_branch_code (row : list cell) : option string :=
  let primary :=
    match text_at row 7 with
    | Some c => let s := strip c in
                if isdigit s && (String.length s =? 3)%nat then Some s else None
    | None => None
    end in
  match primary with
  | Some s => Some s
  | None =>
      first_map (fun c => match text c with
                          | Some c =>
                              let s := strip c in
                              if isdigit s && (String.length s =? 3)%nat
                                 && negb (String.eqb s "201")
                              then Some s else None
                          | None => None
                          end) row
  end.

(** [bool(x)] for a value that is [None] or a [str]. *)
Definition truthy (x : option string) : bool :=
  match x with Some s => nonempty s | None => false end.

Definition newline : ascii := ascii_of_nat 10.

Definition is_pay_account (s : string) : bool :=
  isdigit s && (8 <=? String.length s)%nat.

(** The body of the scanning loop of [_extract_bank_info] at cell [i];
    [Some] is the [break], with the two results. *)
Definition bank_scan (row : list cell) (bank_name_fixes : list (string * string))
    (pay_account : option string) (ic : nat * cell)
    : option (option string * option string) :=
  let i := fst ic in
  match text (snd ic) with
  | None => None
  | Some c =>
      let s := strip c in
      if isdigit s && len_in 3 4 s && (i + 2 <? length row)%nat then
        match text_at row (i + 1) with
        | None => None
        | Some c1 =>
            let next_cell := strip c1 in
            if nonempty next_cell && (isalpha next_cell || has_char newline next_cell) then
              let name :=
                if has_char newline next_cell
                then strip (join (split_on newline next_cell))
                else upper next_cell in
              let name := dict_fix bank_name_fixes name in
              let acc :=
                match text_at row (i + 2) with
                | Some c2 => let acc_cell := strip c2 in
                             if is_pay_account acc_cell then Some acc_cell
                             else pay_account
                | None => pay_account
                end in
              Some (Some name, acc)
            else None
        end
      else None
  end.

Definition _extract_bank_info (row : list cell)
    (bank_name_fixes : list (string * string)) : option string * option string :=
  let pay_bank_name :=
    match text_at row 11 with
    | Some c =>
        let cell_str := strip c in
        let name :=
          if has_char newline cell_str
          then Some (strip (join (split_on newline cell_str)))
          else if isalpha cell_str || (nonempty cell_str && negb (isdigit cell_str))
          then Some (upper cell_str)
          else None in
        match name with
        | Some n => if nonempty n then Some (dict_fix bank_name_fixes n) else Some n
        | None => None
        end
    | None => None
    end in
  let pay_account :=
    match text_at row 12 with
    | Some c => let acc_cell := strip c in
                if is_pay_account acc_cell then Some acc_cell else None
    | None => None
    end in
  if truthy pay_bank_name then (pay_bank_name, pay_account)
  else
    match first_map (bank_scan row bank_name_fixes pay_account) (enumerate row) with
    | Some r => r
    | None => (pay_bank_name, pay_account)
    end.

Definition reason_keywords_table : list string :=
  [ "INSUFFICIENT"; "SIGNATURE"; "ACCOUNT"; "CLOSED"; "STOP";
    "PAYMENT"; "DRAWER"; "IRREGUL"; "FUNDS"; "REFER"; "EXCEEDS";
    "AMOUNT"; "WORDS"; "FIGURES"; "DIFFER"; "POST"; "DATED";
    "STALE"; "MUTILATED"; "CLEARING"; "ENDORSEMENT"; "ACCEPTED";
    "INVALID"; "WRONG" ].

(** [s.replace(',', '').replace('.', '').isdigit()] *)
Definition numeric_text (s : string) : bool :=
  isdigit (remove_char "." (remove_char "," s)).

(** The body of the backward loop of [_extract_reason] for one cell. *)
Definition reason_scan (c : cell) : option string :=
  match text c with
  | None => None
  | Some c =>
      let s := upper (strip c) in
      if numeric_text s then None
      else if (String.length s <? 3)%nat then None
      else if mem s ["CLG"; "BANK"; "ENDORSEMENT"; "BFD"; "PAY"; "ACCOUNT"] then None
      else if existsb (fun k => contains k s) reason_keywords_table then Some s
      else if has_char " " s && any_c isalpha_c s then Some s
      else None
  end.

Definition _extract_reason (row : list cell) : option string :=
  let primary :=
    match text_at row 13 with
    | Some c =>
        let s := upper (strip c) in
        if (3 <=? String.length s)%nat && negb (numeric_text s) then Some s else None
    | None => None
    end in
  match primary with
  | Some s => Some s
  | None => first_map reason_scan (rev row)
  end.

(* ===================================================================== *)
(** ** Table-mode extraction *)
(* ===================================================================== *)

Definition header_labels : list string :=
  ["SESSION"; "SN"; "S.N"; "S.N."; "SR"; "NO"; "SERIAL"; "DATE"; "SEQUENCE"].

Definition or_default (x : option string) (d : string) : string :=
  match x with
  | Some s => if nonempty s then s else d
  | None => d
  end.

(** The record appended when the three mandatory fields are truthy. *)
Definition make_record (bfd : option string) (amount : option spec_float)
    (number : option string) (bank acc branch rsn : option string)
    : option cheque :=
  match bfd, amount, number with
  | Some b, Some a, Some n =>
      if nonempty b && PyFloat.truthy a && nonempty n then
        Some {| bfd_account := b;
                cheque_amount := a;
                pay_bank_name := or_default bank "CLG";
                pay_account := or_default acc EmptyString;
                cheque_number := n;
                branch_code := or_default branch "255";
                reason := or_default rsn EmptyString |}
      else None
  | _, _, _ => None
  end.

(** One iteration of the row loop: the record appended, if any. *)
Definition table_row (bank_name_fixes : list (string * string))
    (row : list cell) : option cheque :=
  if (length row <? 9)%nat then None
  else
    let first_cell :=
      match row !! 0%nat with
      | Some c => match text c with Some s => upper (strip s) | None => EmptyString end
      | None => EmptyString
      end in
    if mem first_cell header_labels then None
    else if contains "TOTAL" first_cell || contains "END OF REPORT" first_cell then None
    else
      let bfd := _extract_bfd_account row in
      let number := _extract_cheque_number row in
      let amount := _extract_amount row in
      let '(bank, acc) := _extract_bank_info row bank_name_fixes in
      let branch := _extract_branch_code row in
      let rsn := _extract_reason row in
      make_record bfd amount number bank acc branch rsn.

Definition _extract_from_table (tables : list (list (list cell)))
    (bank_name_fixes : list (string * string)) : list cheque :=
  flat_map (fun table =>
    flat_map (fun row => match table_row bank_name_fixes row with
                         | Some r => [r]
                         | None => []
                         end) table) tables.

(* ===================================================================== *)
(** ** Field extraction, text mode *)
(* ===================================================================== *)

(** Tuple order on [(len(p), p)]: strictly greater. *)
Definition len_str_gt (a b : nat * string) : bool :=
  (fst b <? fst a)%nat ||
  ((fst a =? fst b)%nat &&
   match String.compare (snd a) (snd b) with Gt => true | _ => false end).

Definition _extract_bfd_account_from_parts (parts : list string) : option string :=
  let candidates :=
    flat_map (fun p => if is_account p then [(String.length p, p)] else []) parts in
  match sort_desc len_str_gt candidates with
  | (_, p) :: _ => Some p
  | [] => None
  end.

Definition bank_word (part : string) : bool :=
  isalpha part && len_in 2 12 part && isupper part
  && negb (mem part ["ACCEPTED"; "Bank"; "Endorsement"; "Irregular"; "Fund"; "BFD"; "PAY"]).

(** The body of the loop of [_extract_bank_info_from_parts] once a bank word
    is met at [part_idx]: the name kept. *)
Definition bank_name_of_part (part : string) (line_idx : nat)
    (all_lines : list string) (bank_name_fixes : list (string * string)) : string :=
  let plain := dict_fix bank_name_fixes part in
  if (line_idx + 1 <? length all_lines)%nat && (String.length part <? 6)%nat then
    match all_lines !! (line_idx + 1)%nat with
    | Some next_line =>
        match split next_line with
        | w :: _ =>
            if isalpha w && (String.length w <=? 6)%nat then
              let combined := part ++ w in
              if mem combined (dict_values bank_name_fixes)
                 || (4 <=? String.length combined)%nat
              then combined else plain
            else plain
        | [] => plain
        end
    | None => plain
    end
  else plain.

Definition _extract_bank_info_from_parts (parts : list string) (line_idx : nat)
    (all_lines : list string) (bank_name_fixes : list (string * string))
    : option string * option string :=
  match first_map (fun ip => if bank_word (snd ip) then Some ip else None)
                  (enumerate parts) with
  | None => (None, None)
  | Some (pay_bank_idx, part) =>
      let pay_bank_name := bank_name_of_part part line_idx all_lines bank_name_fixes in
      let pay_account :=
        match parts !! (pay_bank_idx + 1)%nat with
        | Some next_part => if is_pay_account next_part then Some next_part else None
        | None => None
        end in
      (Some pay_bank_name, pay_account)
  end.

Definition _extract_cheque_number_from_parts (parts : list string) : option string :=
  first_map (fun p => if is_cheque_no p then Some p else None) parts.

Definition amount_part_sep (p : string) : option spec_float :=
  if has_char "," p || has_char "." p then
    let s := remove_char "," p in
    if amount_shape s then
      match PyFloat.of_string s with
      | Some amt => if in_range amt then Some amt else None
      | None => None
      end
    else None
  else None.

Definition amount_part_bare (p : string) : option spec_float :=
  if isdigit p && (3 <=? String.length p)%nat then
    match PyFloat.of_string p with
    | Some amt => if in_range amt then Some amt else None
    | None => None
    end
  else None.

Definition _extract_amount_from_parts (parts : list string) : option spec_float :=
  match first_map amount_part_sep (rev parts) with
  | Some amt => Some amt
  | None => first_map amount_part_bare (rev parts)
  end.

Definition _extract_branch_code_from_parts (parts : list string) : option string :=
  first_map (fun p => if isdigit p && (String.length p =? 3)%nat
                         && negb (String.eqb p "201")
                      then Some p else None) parts.

Definition reason_keywords_text : list string :=
  [ "INSUFFICIENT"; "SIGNATURE"; "ACCOUNT"; "CLOSED"; "STOP";
    "PAYMENT"; "DRAWER"; "IRREGUL"; "FUNDS"; "REFER"; "EXCEEDS";
    "AMOUNT"; "WORDS"; "FIGURES"; "DIFFER"; "POST"; "DATED";
    "STALE"; "MUTILATED"; "CLEARING"; "ENDORSEMENT"; "ACCEPTED" ].

(** The loop of [_extract_reason_from_parts] over [reversed(parts)];
    [reason_parts.insert(0, p)] is the cons. [found_amount] is only set
    right before the [break], so it is [False] wherever the body tests it. *)
Fixpoint reason_loop (ps : list string) (reason_parts : list string) : list string :=
  match ps with
  | [] => reason_parts
  | p :: ps' =>
      let pu := upper p in
      let found_amount := false in
      if has_char "," p && any_c isdigit_c p then reason_parts
      else if existsb (fun k => contains k pu) reason_keywords_text
      then reason_loop ps' (p :: reason_parts)
      else if found_amount || (String.length p <? 3)%nat
      then reason_loop ps' reason_parts
      else if negb (isdigit p) && isalpha p
              && negb (mem pu ["CLG"; "BANK"; "BFD"; "PAY"])
      then reason_loop ps' (p :: reason_parts)
      else reason_loop ps' reason_parts
  end.

Definition _extract_reason_from_parts (parts : list string) : option string :=
  match reason_loop (rev parts) [] with
  | [] => None
  | reason_parts => Some (join_sp reason_parts)
  end.

(* ===================================================================== *)
(** ** Text-mode extraction and the page loop *)
(* ===================================================================== *)

(** One iteration of the line loop of [_extract_from_text]. *)
Definition text_line (bank_name_fixes : list (string * string))
    (lines : list string) (idx : nat) (line : string) : option cheque :=
  let parts := split line in
  if (length parts <? 9)%nat then None
  else
    let has_cheque_number := existsb is_cheque_no parts in
    let has_amount :=
      existsb (fun p => has_char "," p || (has_char "." p && any_c isdigit_c p)) parts in
    if negb (has_cheque_number && has_amount) then None
    else
      let bfd := _extract_bfd_account_from_parts parts in
      let '(bank, acc) := _extract_bank_info_from_parts parts idx lines bank_name_fixes in
      let number := _extract_cheque_number_from_parts parts in
      let amount := _extract_amount_from_parts parts in
      let branch := _extract_branch_code_from_parts parts in
      let rsn := _extract_reason_from_parts parts in
      make_record bfd amount number bank acc branch rsn.

(** [page_text] is [page.extract_text()]: [None] or a [str]. *)
Definition _extract_from_text (page_text : option string)
    (bank_name_fixes : list (string * string)) : list cheque :=
  match text page_text with
  | None => []
  | Some t =>
      let lines := split_on newline t in
      flat_map (fun il => match text_line bank_name_fixes lines (fst il) (snd il) with
                          | Some r => [r]
                          | None => []
                          end) (enumerate lines)
  end.

(** What the decoder gives for a page: its tables and its text. *)
Record page := mk_page {
  extract_tables : list (list (list cell));
  extract_text : option string
}.

(** The page loop of [extract_pdf_data]. *)
Definition extract_pdf_data (pages : list page) : list cheque :=
  flat_map (fun p =>
    match extract_tables p with
    | [] => _extract_from_text (extract_text p) BANK_NAME_FIXES
    | tables => _extract_from_table tables BANK_NAME_FIXES
    end) pages.

(* ===================================================================== *)
(** ** Record filters *)
(* ===================================================================== *)

(** ['ACCEPTED' in str(record.get('reason', ''')).upper().strip()] *)
Definition is_accepted (record : cheque) : bool :=
  contains "ACCEPTED" (strip (upper (reason record))).

Definition filter_accepted_cheques (data : list cheque) : list cheque :=
  List.filter is_accepted data.

(* ===================================================================== *)
(** ** Worksheets *)
(* ===================================================================== *)

(** A cell value: [str], [float] or [int]. *)
Inductive value :=
| VText (s : string)
| VNum (x : spec_float)
| VInt (n : Z).

(** The style a cell is written with: none, [header_style] (bold) or
    [num_style] (number format 0.00). *)
Inductive style := Plain | Bold | Num2.

Abbreviation sheet := (gmap (nat * nat) (value * style)).

(** [worksheet.write(r, c, v, st)] *)
Definition write (ws : sheet) (r c : nat) (v : value) (st : style) : sheet :=
  <[(r, c) := (v, st)]> ws.

(** [for col_idx, h in enumerate(headers): ws.write(0, col_idx, h, header_style)] *)
Definition write_headers (ws : sheet) (headers : list value) : sheet :=
  fold_left (fun ws ch => write ws 0 (fst ch) (snd ch) Bold) (enumerate headers) ws.

(* ===================================================================== *)
(** ** The full / accepted batch *)
(* ===================================================================== *)

Definition batch_headers : list value :=
  map VText ["BRANCHCODE"; "MAINCODE"; "TRANCODE"; "AMOUNT"; "LCYAMOUNT"; "DESC1"; "DESC2"].

(** [str(record['pay_bank_name']).upper().replace(' ', ''')] *)
Definition bank_tag (record : cheque) : string :=
  remove_char " " (upper (pay_bank_name record)).

(** The body of the loop of [_write_debit_entries]. *)
Definition debit_entry (ws : sheet) (row_idx : nat) (record : cheque) : sheet :=
  let maincode := bfd_account record in
  let branch_code :=
    if (3 <=? String.length maincode)%nat then take 3 maincode else maincode in
  let ws := write ws row_idx 0 (VText branch_code) Plain in
  let ws := write ws row_idx 1 (VText maincode) Plain in
  let ws := write ws row_idx 2 (VText "555") Plain in
  let amount := cheque_amount record in
  let ws := write ws row_idx 3 (VNum amount) Num2 in
  let ws := write ws row_idx 4 (VNum amount) Num2 in
  let ws := write ws row_idx 5 (VText EmptyString) Plain in
  let pay_bank := bank_tag record in
  let cheque_num := cheque_number record in
  write ws row_idx 6 (VText ("CLG " ++ pay_bank ++ " " ++ cheque_num)) Plain.

Fixpoint _write_debit_entries (ws : sheet) (data : list cheque) (start_row : nat)
    : sheet * nat :=
  match data with
  | [] => (ws, start_row)
  | record :: data' =>
      _write_debit_entries (debit_entry ws start_row record) data' (S start_row)
  end.

(** The body of the loop of [_write_credit_entries]. *)
Definition credit_entry (clearing_account clearing_branch : string)
    (ws : sheet) (row_idx : nat) (record : cheque) : sheet :=
  let maincode := bfd_account record in
  let ws := write ws row_idx 0 (VText clearing_branch) Plain in
  let ws := write ws row_idx 1 (VText clearing_account) Plain in
  let ws := write ws row_idx 2 (VText "055") Plain in
  let amount := cheque_amount record in
  let ws := write ws row_idx 3 (VNum (PyFloat.neg amount)) Num2 in
  let ws := write ws row_idx 4 (VNum (PyFloat.neg amount)) Num2 in
  let ws := write ws row_idx 5 (VText ("CLG TFR " ++ maincode)) Plain in
  let pay_bank := bank_tag record in
  let pay_account := strip (pay_account record) in
  write ws row_idx 6 (VText (strip (pay_bank ++ " " ++ pay_account))) Plain.

Fixpoint _write_credit_entries (ws : sheet) (data : list cheque)
    (clearing_account clearing_branch : string) (start_row : nat) : sheet * nat :=
  match data with
  | [] => (ws, start_row)
  | record :: data' =>
      _write_credit_entries
        (credit_entry clearing_account clearing_branch ws start_row record)
        data' clearing_account clearing_branch (S start_row)
  end.

(** The workbook saved by [generate_excel_batch]: its one sheet. *)
Definition generate_excel_batch (data : list cheque)
    (clearing_account clearing_branch : string) : sheet :=
  let ws := write_headers ∅ batch_headers in
  let row_idx := 1%nat in
  let '(ws, row_idx) := _write_debit_entries ws data row_idx in
  let '(ws, row_idx) :=
    _write_credit_entries ws data clearing_account clearing_branch row_idx in
  ws.

(* ===================================================================== *)
(** ** The views' answers *)
(* ===================================================================== *)

Inductive failure :=
| NoDataExtracted                     (* No data extracted from PDF *)
| NoAcceptedInPdf                     (* No ACCEPTED cheques found in the PDF. *)
| StructureError (n555 n055 : nat)    (* XLS structure error: n debit rows vs m credit rows. *)
| NoMatches                           (* No matching ACCEPTED cheques found between PDF and XLS. *)
| NoEligible                          (* No ACCEPTED cheques with amount greater than ... found. *)
| Crashed.                            (* except Exception: status 500 *)

Inductive answer :=
| Batch (ws : sheet)
| Fail (f : failure).

(** The batch views up to the HTTP wrapping: [generate_batch] with
    [batch_type] full or accepted. *)
Definition generate_batch (pages : list page) (accepted_only : bool)
    (clearing_account clearing_branch : string) : answer :=
  let extracted_data := extract_pdf_data pages in
  match extracted_data with
  | [] => Fail NoDataExtracted
  | _ =>
      if accepted_only then
        match filter_accepted_cheques extracted_data with
        | [] => Fail NoAcceptedInPdf
        | data => Batch (generate_excel_batch data clearing_account clearing_branch)
        end
      else Batch (generate_excel_batch extracted_data clearing_account clearing_branch)
  end.

(* ===================================================================== *)
(** ** Reconciliation: [generate_final_batch] *)
(* ===================================================================== *)

(** A row as [xlrd]'s [row_values] gives it. *)
Abbreviation xrow := (list value).

(** [float(v)]; [None] is the [ValueError]. *)
Definition py_float (v : value) : option spec_float :=
  match v with
  | VText s => PyFloat.of_string s
  | VNum x => Some x
  | VInt n => Some (PyFloat.of_Z n)
  end.

(** The set of [str(record['cheque_number']).strip()] over the accepted
    records. *)
Definition accepted_numbers (extracted_data : list cheque) : gset string :=
  fold_left (fun acc record =>
               if is_accepted record
               then acc ∪ {[ strip (cheque_number record) ]}
               else acc) extracted_data ∅.

(** The writing of one data row: columns 3 and 4 go through [float]. *)
Fixpoint write_row_out (ws : sheet) (row_idx : nat) (cells : list (nat * value))
    : option sheet :=
  match cells with
  | [] => Some ws
  | (col_idx, val) :: cells' =>
      if (col_idx =? 3)%nat || (col_idx =? 4)%nat then
        match py_float val with
        | Some x => write_row_out (write ws row_idx col_idx (VNum x) Num2) row_idx cells'
        | None => None
        end
      else write_row_out (write ws row_idx col_idx val Plain) row_idx cells'
  end.

Fixpoint write_rows_out (ws : sheet) (rows : list xrow) (row_idx : nat)
    : option (sheet * nat) :=
  match rows with
  | [] => Some (ws, row_idx)
  | r :: rows' =>
      match write_row_out ws row_idx (enumerate r) with
      | Some ws' => write_rows_out ws' rows' (S row_idx)
      | None => None
      end
  end.

Section Views.

(** Python's [str] of a [float] (the shortest text that reads back as the
    same binary64 value), a built-in the views rely on. *)
Variable float_repr : spec_float -> string.

(** [str(v)] *)
Definition py_str (v : value) : string :=
  match v with
  | VText s => s
  | VNum x => float_repr x
  | VInt n => str_int n
  end.

(** The loop over [range(1, ws_in.nrows)]; [None] is the [IndexError] of
    [r[2]]. *)
Fixpoint split_by_trancode (rows : list xrow) (rows_555 rows_055 : list xrow)
    : option (list xrow * list xrow) :=
  match rows with
  | [] => Some (rows_555, rows_055)
  | r :: rows' =>
      match r !! 2%nat with
      | None => None
      | Some v =>
          let trancode := strip (py_str v) in
          if String.eqb trancode "555"
          then split_by_trancode rows' (rows_555 ++ [r]) rows_055
          else if String.eqb trancode "055"
          then split_by_trancode rows' rows_555 (rows_055 ++ [r])
          else split_by_trancode rows' rows_555 rows_055
      end
  end.

(** [parts[-1] if parts else '''] with [parts = str(row_555[6]).strip().split()] *)
Definition cheque_of_desc2 (v : value) : string :=
  let desc2 := strip (py_str v) in
  let parts := split desc2 in
  List.last parts EmptyString.

(** The matching loop over [enumerate(rows_555)]; [None] is an
    [IndexError]. *)
Fixpoint keep_loop (accepted_cheque_numbers : gset string)
    (todo : list (nat * xrow)) (rows_055 kept_555 kept_055 : list xrow)
    : option (list xrow * list xrow) :=
  match todo with
  | [] => Some (kept_555, kept_055)
  | (idx, row_555) :: todo' =>
      match row_555 !! 6%nat with
      | None => None
      | Some v =>
          let cheque_num := cheque_of_desc2 v in
          if bool_decide (cheque_num ∈ accepted_cheque_numbers) then
            match rows_055 !! idx with
            | Some row_055 =>
                keep_loop accepted_cheque_numbers todo' rows_055
                          (kept_555 ++ [row_555]) (kept_055 ++ [row_055])
            | None => None
            end
          else keep_loop accepted_cheque_numbers todo' rows_055 kept_555 kept_055
      end
  end.

(** The end of [generate_final_batch]: the empty-result answer, or the
    output sheet with the header row, the kept 555 rows and the kept 055
    rows. *)
Definition write_final (headers : xrow) (kept_555 kept_055 : list xrow) : answer :=
  match kept_555 with
  | [] => Fail NoMatches
  | _ =>
      let ws_out := write_headers ∅ headers in
      match write_rows_out ws_out kept_555 1 with
      | None => Fail Crashed
      | Some (ws_out, row_idx) =>
          match write_rows_out ws_out kept_055 row_idx with
          | None => Fail Crashed
          | Some (ws_out, _) => Batch ws_out
          end
      end
  end.

(** [generate_final_batch] from the reading of the ledger on. [ledger] is
    the first sheet, row by row; an empty sheet has no row 0. *)
Definition final_batch (accepted_cheque_numbers : gset string)
    (ledger : list xrow) : answer :=
  match ledger with
  | [] => Fail Crashed
  | headers :: rows =>
      match split_by_trancode rows [] [] with
      | None => Fail Crashed
      | Some (rows_555, rows_055) =>
          if negb (length rows_555 =? length rows_055)%nat
          then Fail (StructureError (length rows_555) (length rows_055))
          else
            match keep_loop accepted_cheque_numbers (enumerate rows_555)
                            rows_055 [] [] with
            | None => Fail Crashed
            | Some (kept_555, kept_055) => write_final headers kept_555 kept_055
            end
      end
  end.

Definition generate_final_batch (pages : list page) (ledger : list xrow) : answer :=
  let extracted_data := extract_pdf_data pages in
  match extracted_data with
  | [] => Fail NoDataExtracted
  | _ =>
      let accepted_cheque_numbers := accepted_numbers extracted_data in
      if bool_decide (accepted_cheque_numbers = ∅) then Fail NoAcceptedInPdf
      else final_batch accepted_cheque_numbers ledger
  end.

(* ===================================================================== *)
(** ** The commission batch: [generate_commission_batch] *)
(* ===================================================================== *)

(** The eligibility loop: [amount > amount_threshold]. The [reason] it
    reads is not used. *)
Definition commission_eligible (extracted_data : list cheque)
    (amount_threshold : spec_float) : list cheque :=
  List.filter (fun record => PyFloat.gtb (cheque_amount record) amount_threshold)
              extracted_data.

(** [desc1]: the amount as an [int] when it is whole; [None] when
    [int(cheque_amt)] raises. *)
Definition charge_text (cheque_amt : spec_float) : option string :=
  match PyFloat.to_int cheque_amt with
  | None => None
  | Some n =>
      Some ("Ecc Charge Rs." ++
            (if PyFloat.eq_int cheque_amt n then str_int n else float_repr cheque_amt))
  end.

(** The body of the debit loop (055). *)
Definition commission_debit_entry (clearing_branch : string)
    (commission_amount : spec_float) (ws : sheet) (row_idx : nat)
    (record : cheque) : option sheet :=
  let bfd_account := bfd_account record in
  let branch_code :=
    if (3 <=? String.length bfd_account)%nat then take 3 bfd_account
    else clearing_branch in
  let cheque_amt := cheque_amount record in
  let pay_bank := bank_tag record in
  let cheque_num := cheque_number record in
  match charge_text cheque_amt with
  | None => None
  | Some desc1 =>
      let desc2 := "CLG " ++ pay_bank ++ " " ++ cheque_num in
      let ws := write ws row_idx 0 (VText branch_code) Plain in
      let ws := write ws row_idx 1 (VText bfd_account) Plain in
      let ws := write ws row_idx 2 (VText "055") Plain in
      let ws := write ws row_idx 3 (VNum (PyFloat.neg commission_amount)) Num2 in
      let ws := write ws row_idx 4 (VNum (PyFloat.neg commission_amount)) Num2 in
      let ws := write ws row_idx 5 (VText desc1) Plain in
      Some (write ws row_idx 6 (VText desc2) Plain)
  end.

(** The body of the credit loop (555). *)
Definition commission_credit_entry (commission_account clearing_branch : string)
    (commission_amount : spec_float) (ws : sheet) (row_idx : nat)
    (record : cheque) : option sheet :=
  let bfd_account := bfd_account record in
  let cheque_amt := cheque_amount record in
  match charge_text cheque_amt with
  | None => None
  | Some desc1 =>
      let ws := write ws row_idx 0 (VText clearing_branch) Plain in
      let ws := write ws row_idx 1 (VText commission_account) Plain in
      let ws := write ws row_idx 2 (VText "555") Plain in
      let ws := write ws row_idx 3 (VNum commission_amount) Num2 in
      let ws := write ws row_idx 4 (VNum commission_amount) Num2 in
      let ws := write ws row_idx 5 (VText desc1) Plain in
      Some (write ws row_idx 6 (VText bfd_account) Plain)
  end.

(** A [for record in eligible] loop whose body may raise. *)
Fixpoint entries_loop (entry : sheet -> nat -> cheque -> option sheet)
    (ws : sheet) (eligible : list cheque) (row_idx : nat) : option (sheet * nat) :=
  match eligible with
  | [] => Some (ws, row_idx)
  | record :: eligible' =>
      match entry ws row_idx record with
      | Some ws' => entries_loop entry ws' eligible' (S row_idx)
      | None => None
      end
  end.

(** [generate_commission_batch] from the extracted records on. *)
Definition commission_batch (extracted_data : list cheque)
    (commission_account clearing_branch : string)
    (commission_amount amount_threshold : spec_float) : answer :=
  match extracted_data with
  | [] => Fail NoDataExtracted
  | _ =>
      match commission_eligible extracted_data amount_threshold with
      | [] => Fail NoEligible
      | eligible =>
          let row_idx := 0%nat in
          match entries_loop (commission_debit_entry clearing_branch commission_amount)
                             ∅ eligible row_idx with
          | None => Fail Crashed
          | Some (ws, row_idx) =>
              match entries_loop
                      (commission_credit_entry commission_account clearing_branch
                                               commission_amount)
                      ws eligible row_idx with
              | None => Fail Crashed
              | Some (ws, _) => Batch ws
              end
          end
      end
  end.

Definition generate_commission_batch (pages : list page)
    (commission_account clearing_branch : string)
    (commission_amount amount_threshold : spec_float) : answer :=
  commission_batch (extract_pdf_data pages) commission_account clearing_branch
                   commission_amount amount_threshold.

End Views.

(* ===================================================================== *)
(** ** The display views: [display_data_table], [process_upload] *)
(* ===================================================================== *)

(** [x + y] on floats. *)
Definition float_add (x y : spec_float) : spec_float :=
  SFadd PyFloat.prec PyFloat.emax x y.

(** [sorted(extracted_data, key=lambda x: float(x.get('cheque_amount', 0)))]:
    stable and ascending. The insertion is that of [insert_desc] with the
    test reversed: an element stays in front of [x] when its amount is
    strictly below that of [x]. None of the amounts the extraction yields is
    a NaN, so that the comparison orders them. *)
Definition sorted_by_amount (extracted_data : list cheque) : list cheque :=
  sort_desc (fun y x => PyFloat.ltb (cheque_amount y) (cheque_amount x))
            extracted_data.

(** The counters of the summary loop. *)
Record tally := mk_tally {
  total_amount : spec_float;
  accepted_count : Z;
  accepted_amount : spec_float;
  insufficient_funds_count : Z;
  insufficient_funds_amount : spec_float;
  other_reasons_count : Z;
  other_reasons_amount : spec_float
}.

(** The body of the loop [for r in extracted_data]. *)
Definition tally_step (t : tally) (r : cheque) : tally :=
  let reason := strip (upper (reason r)) in
  let amount := cheque_amount r in
  let total_amount := float_add (total_amount t) amount in
  if contains "ACCEPTED" reason then
    mk_tally total_amount
             (accepted_count t + 1) (float_add (accepted_amount t) amount)
             (insufficient_funds_count t) (insufficient_funds_amount t)
             (other_reasons_count t) (other_reasons_amount t)
  else if contains "INSUFFICIENT" reason || contains "FUNDS" reason then
    mk_tally total_amount
             (accepted_count t) (accepted_amount t)
             (insufficient_funds_count t + 1)
             (float_add (insufficient_funds_amount t) amount)
             (other_reasons_count t) (other_reasons_amount t)
  else if nonempty reason then
    mk_tally total_amount
             (accepted_count t) (accepted_amount t)
             (insufficient_funds_count t) (insufficient_funds_amount t)
             (other_reasons_count t + 1) (float_add (other_reasons_amount t) amount)
  else
    mk_tally total_amount
             (accepted_count t) (accepted_amount t)
             (insufficient_funds_count t) (insufficient_funds_amount t)
             (other_reasons_count t) (other_reasons_amount t).

Definition tally_start : tally :=
  mk_tally PyFloat.zero 0 PyFloat.zero 0 PyFloat.zero 0 PyFloat.zero.

(** The template context, without the file name and the clock. *)
Record context := mk_context {
  ctx_data : list cheque;
  total_records : Z;
  ctx_tally : tally;
  no_reason_count : Z
}.

Definition summary_context (extracted_data : list cheque) : context :=
  let total_records := Z.of_nat (length extracted_data) in
  let t := fold_left tally_step extracted_data tally_start in
  let no_reason_count :=
    total_records - (accepted_count t + insufficient_funds_count t
                     + other_reasons_count t) in
  mk_context extracted_data total_records t no_reason_count.

Inductive page_answer :=
| Rendered (ctx : context)
| UploadReportOnly.                   (* Upload ECC Report Only *)

(** [display_data_table] and [process_upload] up to the HTTP wrapping and
    the template: the two views compute the same context. *)
Definition display_data_table (pages : list page) : page_answer :=
  let extracted_data := extract_pdf_data pages in
  match extracted_data with
  | [] => UploadReportOnly
  | _ =>
      let extracted_data := sorted_by_amount extracted_data in
      Rendered (summary_context extracted_data)
  end.

(* ===================================================================== *)
(** ** The display sheet: [generate_display_excel], [download_excel] *)
(* ===================================================================== *)

(** The styles of the display sheet: none, [header_style], [amount_style]
    and [total_style]. *)
Inductive display_style := DPlain | DHeader | DAmount | DTotal.

Abbreviation display_sheet := (gmap (nat * nat) (value * display_style)).

Definition display_headers : list string :=
  ["#"; "BFD Account"; "Pay Bank"; "Pay Account"; "Cheque No."; "Cheque Amount";
   "Remarks"].

(** [total_amount += amount]: the total starts as the [int] 0. *)
Definition add_amount (total_amount : value) (amount : spec_float) : value :=
  match total_amount with
  | VInt n => VNum (float_add (PyFloat.of_Z n) amount)
  | VNum t => VNum (float_add t amount)
  | VText _ => total_amount
  end.

(** The body of the loop [for idx, record in enumerate(data, start=1)]. *)
Definition display_row (ws : display_sheet) (idx : nat) (record : cheque)
    : display_sheet :=
  let row_idx := idx in
  let ws := <[(row_idx, 0%nat) := (VInt (Z.of_nat idx), DPlain)]> ws in
  let ws := <[(row_idx, 1%nat) := (VText (bfd_account record), DPlain)]> ws in
  let ws := <[(row_idx, 2%nat) := (VText (pay_bank_name record), DPlain)]> ws in
  let ws := <[(row_idx, 3%nat) := (VText (pay_account record), DPlain)]> ws in
  let ws := <[(row_idx, 4%nat) := (VText (cheque_number record), DPlain)]> ws in
  let ws := <[(row_idx, 5%nat) := (VNum (cheque_amount record), DAmount)]> ws in
  <[(row_idx, 6%nat) := (VText (reason record), DPlain)]> ws.

Fixpoint display_rows (ws : display_sheet) (total_amount : value)
    (idx : nat) (data : list cheque) : display_sheet * value :=
  match data with
  | [] => (ws, total_amount)
  | record :: data' =>
      display_rows (display_row ws idx record)
                   (add_amount total_amount (cheque_amount record))
                   (S idx) data'
  end.

(** The workbook saved by [generate_display_excel]: its one sheet. *)
Definition generate_display_excel (data : list cheque) : display_sheet :=
  let ws :=
    fold_left (fun ws ch => <[(0%nat, fst ch) := (VText (snd ch), DHeader)]> ws)
              (enumerate display_headers) ∅ in
  let '(ws, total_amount) := display_rows ws (VInt 0) 1 data in
  let total_row := (length data + 1)%nat in
  let ws := <[(total_row, 0%nat) := (VText EmptyString, DTotal)]> ws in
  let ws := <[(total_row, 1%nat) := (VText EmptyString, DTotal)]> ws in
  let ws := <[(total_row, 2%nat) := (VText EmptyString, DTotal)]> ws in
  let ws := <[(total_row, 3%nat) := (VText EmptyString, DTotal)]> ws in
  let ws := <[(total_row, 4%nat) := (VText "Total", DTotal)]> ws in
  let ws := <[(total_row, 5%nat) := (total_amount, DTotal)]> ws in
  <[(total_row, 6%nat) := (VText EmptyString, DTotal)]> ws.

(** [download_excel]: the session holds the data of the last summary, if
    any; [None] is the answer that no data is available. *)
Definition download_excel (display_data : option (list cheque))
    : option display_sheet :=
  match display_data with
  | None | Some [] => None
  | Some extracted_data => Some (generate_display_excel extracted_data)
  end.

(* ===================================================================== *)
(** ** Validation: [validate_data], [generate_excel_batch_safe] *)
(* ===================================================================== *)

(** The values a record may hold for a field: [None], a [bool], a [str],
    [float] or [int], or any other object, given by the text [str] makes of
    it. *)
Inductive pyval :=
| PNone
| PBool (b : bool)
| PVal (v : value)
| POther (text : string).

(** A record of the data: a [dict], by its items, or something else. *)
Inductive pyrecord :=
| NotADict
| ADict (items : list (string * pyval)).

(** The data: a [list] of records, or something else. *)
Inductive pydata :=
| NotAList
| AList (records : list pyrecord).

(** [record.get(field)] *)
Fixpoint record_get (items : list (string * pyval)) (field : string) : option pyval :=
  match items with
  | [] => None
  | (k, v) :: items' => if String.eqb k field then Some v else record_get items' field
  end.

(** [field in record] *)
Definition has_field (items : list (string * pyval)) (field : string) : bool :=
  match record_get items field with Some _ => true | None => false end.

(** The ways [float(v)] ends. *)
Inductive float_result :=
| FloatOk (x : spec_float)
| FloatValueError
| FloatTypeError
| FloatOverflowError.

(** [float(v)]: an [int] too large for a float raises [OverflowError]. *)
Definition float_of (v : pyval) : float_result :=
  match v with
  | PNone => FloatTypeError
  | PBool b => FloatOk (PyFloat.of_Z (if b then 1 else 0))
  | PVal (VText s) =>
      match PyFloat.of_string s with
      | Some x => FloatOk x
      | None => FloatValueError
      end
  | PVal (VNum x) => FloatOk x
  | PVal (VInt n) =>
      match PyFloat.of_Z n with
      | S754_infinity _ => FloatOverflowError
      | x => FloatOk x
      end
  | POther _ => FloatTypeError
  end.

Definition required_fields : list string :=
  ["bfd_account"; "cheque_amount"; "pay_bank_name"; "cheque_number"].

(** [f"Row {idx + 1}: ..."] *)
Definition row_error (idx : nat) (message : string) : string :=
  "Row " ++ str_int (Z.of_nat idx + 1) ++ ": " ++ message.

(** The loop [for field in required_fields]. *)
Definition missing_fields (idx : nat) (items : list (string * pyval))
    (errors : list string) : list string :=
  fold_left (fun errors field =>
               if has_field items field then errors
               else (errors ++
                     [row_error idx ("Missing required field '" ++ field ++ "'")])%list)
            required_fields errors.

(** The loop [for idx, record in enumerate(data)]; [None] is the
    [OverflowError] that the [except] clause does not catch. *)
Fixpoint validate_rows (todo : list (nat * pyrecord)) (errors : list string)
    : option (list string) :=
  match todo with
  | [] => Some errors
  | (idx, record) :: todo' =>
      match record with
      | NotADict =>
          validate_rows todo' (errors ++ [row_error idx "Record must be a dictionary"])
      | ADict items =>
          let errors := missing_fields idx items errors in
          match record_get items "cheque_amount" with
          | Some v =>
              match float_of v with
              | FloatOk _ => validate_rows todo' errors
              | FloatValueError | FloatTypeError =>
                  validate_rows todo'
                    (errors ++ [row_error idx "cheque_amount must be a number"])
              | FloatOverflowError => None
              end
          | None => validate_rows todo' errors
          end
      end
  end.

(** [validate_data]: the pair [(is_valid, errors)], or [None] when it
    raises. *)
Definition validate_data (data : pydata) : option (bool * list string) :=
  match data with
  | NotAList => Some (false, ["Data must be a list"])
  | AList [] => Some (false, ["Data list is empty"])
  | AList records =>
      match validate_rows (enumerate records) [] with
      | Some errors => Some (match errors with [] => true | _ => false end, errors)
      | None => None
      end
  end.

(** The dictionary the extractors build for a record. *)
Definition dict_of_cheque (record : cheque) : pyrecord :=
  ADict [ ("bfd_account", PVal (VText (bfd_account record)));
          ("cheque_amount", PVal (VNum (cheque_amount record)));
          ("pay_bank_name", PVal (VText (pay_bank_name record)));
          ("pay_account", PVal (VText (pay_account record)));
          ("cheque_number", PVal (VText (cheque_number record)));
          ("branch_code", PVal (VText (branch_code record)));
          ("reason", PVal (VText (reason record))) ].

Section Validation.

Variable float_repr : spec_float -> string.

(** [str(v)] *)
Definition str_of (v : pyval) : string :=
  match v with
  | PNone => "None"
  | PBool b => if b then "True" else "False"
  | PVal v => py_str float_repr v
  | POther text => text
  end.

(** What the two writing loops read of a record, through [str] and
    [float]; [None] when a read raises ([KeyError], [TypeError],
    [ValueError], [OverflowError]). The fields the loops do not read are
    left empty. *)
Definition read_record (record : pyrecord) : option cheque :=
  match record with
  | NotADict => None
  | ADict items =>
      match record_get items "bfd_account", record_get items "cheque_amount",
            record_get items "pay_bank_name", record_get items "cheque_number" with
      | Some bfd, Some amount, Some bank, Some number =>
          match float_of amount with
          | FloatOk x =>
              Some {| bfd_account := str_of bfd;
                      cheque_amount := x;
                      pay_bank_name := str_of bank;
                      pay_account :=
                        str_of (default (PVal (VText EmptyString))
                                        (record_get items "pay_account"));
                      cheque_number := str_of number;
                      branch_code := EmptyString;
                      reason := EmptyString |}
          | _ => None
          end
      | _, _, _, _ => None
      end
  end.

Fixpoint read_records (records : list pyrecord) : option (list cheque) :=
  match records with
  | [] => Some []
  | record :: records' =>
      match read_record record, read_records records' with
      | Some r, Some rs => Some (r :: rs)
      | _, _ => None
      end
  end.

(** The answers of [generate_excel_batch_safe]: the workbook, the
    validation message, or the message of a failed generation. *)
Inductive safe_answer :=
| SafeBatch (ws : sheet)
| SafeInvalid (message : string)
| SafeError.

(** [generate_excel_batch_safe] up to the saving of the file; [None] when
    it raises, which it does when [validate_data] does. *)
Definition generate_excel_batch_safe (data : pydata)
    (clearing_account clearing_branch : string) : option safe_answer :=
  match validate_data data with
  | None => None
  | Some (false, errors) =>
      Some (SafeInvalid ("Validation errors:" ++ String newline
                           (String.concat (String newline EmptyString) errors)))
  | Some (true, _) =>
      match data with
      | AList records =>
          match read_records records with
          | Some rs => Some (SafeBatch (generate_excel_batch rs clearing_account
                                                             clearing_branch))
          | None => Some SafeError
          end
      | NotAList => Some SafeError
      end
  end.

End Validation.

(* ===================================================================== *)
(** ** Row-level reading of a sheet *)
(* ===================================================================== *)

(** Writing the cells of one row from column [k] on. *)
Fixpoint write_cells_from (ws : sheet) (r k : nat) (cells : list (value * style))
    : sheet :=
  match cells with
  | [] => ws
  | (v, st) :: cells' => write_cells_from (write ws r k v st) r (S k) cells'
  end.

(** Writing consecutive rows from row [r] on. *)
Fixpoint write_block (ws : sheet) (r : nat) (rows : list (list (value * style)))
    : sheet :=
  match rows with
  | [] => ws
  | cells :: rows' => write_block (write_cells_from ws r 0 cells) (S r) rows'
  end.

(** The cell of a block of rows at [(r', c)], the block starting at row [r]. *)
Definition block_cell (r : nat) (rows : list (list (value * style)))
    (r' c : nat) : option (value * style) :=
  if decide (r ≤ r')%nat then
    match rows !! (r' - r)%nat with
    | Some cells => cells !! c
    | None => None
    end
  else None.

(** [x or y] on optional cells. *)
Definition or_else {A} (x y : option A) : option A :=
  match x with Some _ => x | None => y end.

(** The seven cells [_write_debit_entries] writes for a record. *)
Definition debit_cells (record : cheque) : list (value * style) :=
  [ (VText (take 3 (bfd_account record)), Plain);
    (VText (bfd_account record), Plain);
    (VText "555", Plain);
    (VNum (cheque_amount record), Num2);
    (VNum (cheque_amount record), Num2);
    (VText EmptyString, Plain);
    (VText ("CLG " ++ bank_tag record ++ " " ++ cheque_number record), Plain) ].

(** The seven cells [_write_credit_entries] writes for a record. *)
Definition credit_cells (clearing_account clearing_branch : string)
    (record : cheque) : list (value * style) :=
  [ (VText clearing_branch, Plain);
    (VText clearing_account, Plain);
    (VText "055", Plain);
    (VNum (PyFloat.neg (cheque_amount record)), Num2);
    (VNum (PyFloat.neg (cheque_amount record)), Num2);
    (VText ("CLG TFR " ++ bfd_account record), Plain);
    (VText (strip (bank_tag record ++ " " ++ strip (pay_account record))), Plain) ].

(** The cells the debit loop of the commission batch writes for a record
    whose charge text is [desc1]. *)
Definition commission_debit_cells (clearing_branch : string)
    (commission_amount : spec_float) (desc1 : string) (record : cheque)
    : list (value * style) :=
  [ (VText (if (3 <=? String.length (bfd_account record))%nat
            then take 3 (bfd_account record) else clearing_branch), Plain);
    (VText (bfd_account record), Plain);
    (VText "055", Plain);
    (VNum (PyFloat.neg commission_amount), Num2);
    (VNum (PyFloat.neg commission_amount), Num2);
    (VText desc1, Plain);
    (VText ("CLG " ++ bank_tag record ++ " " ++ cheque_number record), Plain) ].

(** The cells the credit loop of the commission batch writes. *)
Definition commission_credit_cells (commission_account clearing_branch : string)
    (commission_amount : spec_float) (desc1 : string) (record : cheque)
    : list (value * style) :=
  [ (VText clearing_branch, Plain);
    (VText commission_account, Plain);
    (VText "555", Plain);
    (VNum commission_amount, Num2);
    (VNum commission_amount, Num2);
    (VText desc1, Plain);
    (VText (bfd_account record), Plain) ].

(** The charge text of a record; empty when [int] raises. *)
Definition desc1_of (float_repr : spec_float → string) (record : cheque) : string :=
  default EmptyString (charge_text float_repr (cheque_amount record)).

(** The two rows of the commission batch for a record. *)
Definition commission_debit_row (float_repr : spec_float → string)
    (clearing_branch : string) (commission_amount : spec_float)
    (record : cheque) : list (value * style) :=
  commission_debit_cells clearing_branch commission_amount
                         (desc1_of float_repr record) record.

Definition commission_credit_row (float_repr : spec_float → string)
    (commission_account clearing_branch : string) (commission_amount : spec_float)
    (record : cheque) : list (value * style) :=
  commission_credit_cells commission_account clearing_branch commission_amount
                          (desc1_of float_repr record) record.

(** The cell written for the value [v] of column [c] of a kept row. *)
Definition out_cell (c : nat) (v : value) : value * style :=
  if (c =? 3)%nat || (c =? 4)%nat
  then (VNum (default PyFloat.zero (py_float v)), Num2)
  else (v, Plain).

Fixpoint out_cells_from (k : nat) (cells : xrow) : list (value * style) :=
  match cells with
  | [] => []
  | v :: cells' => out_cell k v :: out_cells_from (S k) cells'
  end.

(* ===================================================================== *)
(** ** Notions used in the statements *)
(* ===================================================================== *)

(** A text of [lo] to [hi] characters, all of them decimal digits: the
    texts matched by the pattern of [lo] to [hi] digits. *)
Definition digit_string (lo hi : nat) (s : string) : Prop :=
  (lo ≤ String.length s ≤ hi)%nat ∧
  ∀ c, In c (list_ascii_of_string s) → (48 ≤ nat_of_ascii c ≤ 57)%nat.

(** A text of ASCII characters (code points below 128), on which the
    character predicates of this development are Python's. *)
Definition is_ascii (s : string) : bool :=
  all_c (fun c => (code c <? 128)%nat) s.

(** [x < y] on floats. *)
Definition float_lt (x y : spec_float) : Prop := SFcompare x y = Some Lt.

(** A float that is neither an infinity nor a NaN. *)
Definition finite (x : spec_float) : Prop :=
  match x with
  | S754_zero _ | S754_finite _ _ _ => True
  | _ => False
  end.

(** The amount was read from the fixed amount column of the row. *)
Definition from_primary_column (row : list cell) (amount : spec_float) : Prop :=
  ∃ c, text_at row 13 = Some c ∧ amount_primary c = Some amount.

(** Two records that agree on every field but [reason]. *)
Definition same_but_reason (a b : cheque) : Prop :=
  bfd_account a = bfd_account b ∧
  cheque_amount a = cheque_amount b ∧
  pay_bank_name a = pay_bank_name b ∧
  pay_account a = pay_account b ∧
  cheque_number a = cheque_number b ∧
  branch_code a = branch_code b.

(** Whether the transaction-code field of a ledger row reads [code]. *)
Definition is_coded (float_repr : spec_float → string) (code : string)
    (r : xrow) : bool :=
  match r !! 2%nat with
  | Some v => String.eqb (strip (py_str float_repr v)) code
  | None => false
  end.

(** The rows of the ledger with a given transaction code, in order. *)
Definition rows_coded (float_repr : spec_float → string) (code : string)
    (rows : list xrow) : list xrow :=
  List.filter (is_coded float_repr code) rows.

(** The cheque number recovered from a 555 row: the last
    whitespace-delimited token of its description-2 field. *)
Definition recovered (float_repr : spec_float → string) (r : xrow) : string :=
  match r !! 6%nat with
  | Some v => cheque_of_desc2 float_repr v
  | None => EmptyString
  end.

(** The pairs kept by reconciliation: the positional pairs of the two
    blocks whose recovered cheque number is accepted. *)
Definition kept_pairs (float_repr : spec_float → string) (accepted : gset string)
    (rows : list xrow) : list (xrow * xrow) :=
  List.filter (fun p => bool_decide (recovered float_repr p.1 ∈ accepted))
              (combine (rows_coded float_repr "555" rows)
                       (rows_coded float_repr "055" rows)).

(** The amount fields of a ledger row can be read as floats. *)
Definition amounts_numeric (r : xrow) : Prop :=
  ∀ c v, (c = 3 ∨ c = 4)%nat → r !! c = Some v → is_Some (py_float v).

(* ===================================================================== *)
(** ** Worked inputs *)
(* ===================================================================== *)

(** The record used in the worked examples. *)
Definition sample_cheque : cheque :=
  {| bfd_account := "98765432109876";
     cheque_amount := PyFloat.of_Z 250000;
     pay_bank_name := "Citizens Bank";
     pay_account := "12345678";
     cheque_number := "1234567";
     branch_code := "255";
     reason := "ACCEPTED" |}.

(** The sample record with another disposition. *)
Definition sample_rejected : cheque :=
  {| bfd_account := "98765432109876";
     cheque_amount := PyFloat.of_Z 250000;
     pay_bank_name := "Citizens Bank";
     pay_account := "12345678";
     cheque_number := "1234567";
     branch_code := "255";
     reason := "INSUFFICIENT FUNDS" |}.

(** The full batch of that one record, with the default clearing account
    and branch. *)
Definition sample_batch : sheet :=
  generate_excel_batch [sample_cheque] "9313102000" "255".

(** The built-in [str] of a float is not exercised by the worked inputs,
    whose amounts are whole numbers. *)
Definition no_repr (x : spec_float) : string := EmptyString.


(** A ledger of three pairs, as the full batch writes them, for the cheque
    numbers 111111, 222222 and 333333. *)
Definition row_555 (number : string) : xrow :=
  [ VText "987"; VText "98765432109876"; VText "555";
    VNum (PyFloat.of_Z 5000); VNum (PyFloat.of_Z 5000);
    VText EmptyString; VText ("CLG EBL " ++ number) ].

Definition row_055 (number : string) : xrow :=
  [ VText "255"; VText "9313102000"; VText "055";
    VNum (SFopp (PyFloat.of_Z 5000)); VNum (SFopp (PyFloat.of_Z 5000));
    VText "CLG TFR 98765432109876"; VText ("EBL " ++ number) ].

Definition sample_rows : list xrow :=
  [ row_555 "111111"; row_555 "222222"; row_555 "333333";
    row_055 "11"; row_055 "22"; row_055 "33" ].

Definition sample_ledger : list xrow := batch_headers :: sample_rows.

(** A ledger with one 555 row and no 055 row. *)
Definition lopsided_rows : list xrow := [ row_555 "1234567" ].

(** A table row of the report, with the amount and reason cells given. *)
Definition report_row (amount rsn : string) : list cell :=
  let blank := EmptyString in
  map Some [ "1"; blank; blank; blank; blank; blank; "1234567"; "255"; blank;
             "98765432109876"; blank; "CITIZE"; "12345678"; amount; rsn ].

(** The record extracted from [report_row "50,000.00" "INSUFFICIENT FUNDS"]. *)
Definition report_record : cheque :=
  {| bfd_account := "98765432109876";
     cheque_amount := PyFloat.of_Z 50000;
     pay_bank_name := "CITIZENS";
     pay_account := "12345678";
     cheque_number := "1234567";
     branch_code := "255";
     reason := "INSUFFICIENT FUNDS" |}.

(** A one-row page whose cheque was rejected, and one whose cheque was
    accepted. *)
Definition rejected_page : page :=
  {| extract_tables := [[report_row "50,000.00" "INSUFFICIENT FUNDS"]];
     extract_text := None |}.

Definition accepted_page : page :=
  {| extract_tables := [[report_row "50,000.00" "ACCEPTED"]];
     extract_text := None |}.

(** A text of [n] zeros. *)
Fixpoint zeros (n : nat) : string :=
  match n with
  | O => EmptyString
  | S n' => String "0" (zeros n')
  end.

(** A page whose amount column holds a one followed by 400 zeros. *)
Definition huge_amount_page : page :=
  {| extract_tables := [[report_row (String "1" (zeros 400)) "ACCEPTED"]];
     extract_text := None |}.

(** [str(row[0]).strip().upper() if row[0] else '''] *)
Definition first_cell_of (row : list cell) : string :=
  match row !! 0%nat with
  | Some c => match text c with Some s => upper (strip s) | None => EmptyString end
  | None => EmptyString
  end.

(** A table row that passes the three admission tests: at least 9 cells,
    no header label in the first cell, and neither TOTAL nor END OF REPORT
    in it. *)
Definition admitted (row : list cell) : bool :=
  negb (length row <? 9)%nat
  && negb (mem (first_cell_of row) header_labels)
  && negb (contains "TOTAL" (first_cell_of row)
           || contains "END OF REPORT" (first_cell_of row)).

(** A footer row that holds an account, a cheque number and an amount. *)
Definition footer_row : list cell :=
  map Some [ "Sub Total"; "x"; "x"; "x"; "x"; "x"; "1234567"; "255"; "x";
             "98765432109876"; "x"; "CITIZE"; "12345678"; "50,000.00"; "ACCEPTED" ].


(** [ws_in.row_values(r)] on a sheet of [ncols] columns: the values of the
    cells of the row, the empty text for a cell that was never written. *)
Definition row_values (ws : sheet) (ncols r : nat) : xrow :=
  map (fun c => match ws !! (r, c) with
                | Some (v, _) => v
                | None => VText EmptyString
                end) (seq 0 ncols).

(** The rows [0 .. nrows - 1] of a sheet, as the reconciliation reads
    them. *)
Definition sheet_rows (ws : sheet) (nrows ncols : nat) : list xrow :=
  map (row_values ws ncols) (seq 0 nrows).

(** The full batch of [data] read back as a ledger: the header row and two
    rows per record, seven columns wide. *)
Definition full_batch_ledger (data : list cheque)
    (clearing_account clearing_branch : string) : list xrow :=
  sheet_rows (generate_excel_batch data clearing_account clearing_branch)
             (1 + 2 * length data) 7.

(** A report page with an accepted cheque and a rejected one, of different
    numbers. *)
Definition mixed_page : page :=
  {| extract_tables :=
       [[ report_row "50,000.00" "ACCEPTED";
          map Some [ "2"; "x"; "x"; "x"; "x"; "x"; "7654321"; "255"; "x";
                     "98765432109876"; "x"; "KUMARI"; "12345678"; "75,000.00";
                     "INSUFFICIENT FUNDS" ] ]];
     extract_text := None |}.

(** An amount field (column 3 or 4) of a ledger row that [float] rejects. *)
Definition unreadable_amount (r : xrow) : Prop :=
  ∃ c v, (c = 3 ∨ c = 4)%nat ∧ r !! c = Some v ∧ py_float v = None.

(** The sample ledger with its rows interleaved pair by pair, a blank row
    and a row of totals in between. *)
Definition interleaved_rows : list xrow :=
  [ row_555 "111111"; row_055 "11";
    [ VText EmptyString; VText EmptyString; VText EmptyString ];
    row_555 "222222"; row_055 "22";
    row_555 "333333"; row_055 "33";
    [ VText "TOTAL"; VText EmptyString; VText EmptyString; VNum (PyFloat.of_Z 15000) ] ].

(** The reason as the summary loop reads it. *)
Definition reason_read (r : cheque) : string := strip (upper (reason r)).

(** The three classes of the summary besides the accepted one. *)
Definition is_insufficient (r : cheque) : bool :=
  negb (is_accepted r)
  && (contains "INSUFFICIENT" (reason_read r) || contains "FUNDS" (reason_read r)).

Definition is_other_reason (r : cheque) : bool :=
  negb (is_accepted r)
  && negb (contains "INSUFFICIENT" (reason_read r) || contains "FUNDS" (reason_read r))
  && nonempty (reason_read r).

Definition is_blank_reason (r : cheque) : bool := negb (nonempty (reason_read r)).

(** The number of records of a class. *)
Definition count (p : cheque → bool) (l : list cheque) : Z :=
  Z.of_nat (length (List.filter p l)).

(** Each element of the list stands in [R] to the next one. *)
Fixpoint chain {A} (R : A → A → bool) (l : list A) : bool :=
  match l with
  | [] => true
  | a :: l' => match l' with
               | [] => true
               | b :: _ => R a b && chain R l'
               end
  end.

(** [x <= y] on the amounts of two records. *)
Definition amount_le (a b : cheque) : bool :=
  SFleb (cheque_amount a) (cheque_amount b).

#[global] Instance spec_float_eq_dec : EqDecision spec_float.
Proof. solve_decision. Defined.

(** The records whose amount is [x]. *)
Definition has_amount (x : spec_float) (r : cheque) : bool :=
  bool_decide (cheque_amount r = x).

(** Writing the cells of one row from column [k] on, for any kind of
    cell. *)
Fixpoint put_cells {V} (ws : gmap (nat * nat) V) (r k : nat) (cells : list V)
    : gmap (nat * nat) V :=
  match cells with
  | [] => ws
  | v :: cells' => put_cells (<[(r, k) := v]> ws) r (S k) cells'
  end.

(** The seven cells [generate_display_excel] writes for the record numbered
    [idx]. *)
Definition display_cells (idx : nat) (record : cheque)
    : list (value * display_style) :=
  [ (VInt (Z.of_nat idx), DPlain);
    (VText (bfd_account record), DPlain);
    (VText (pay_bank_name record), DPlain);
    (VText (pay_account record), DPlain);
    (VText (cheque_number record), DPlain);
    (VNum (cheque_amount record), DAmount);
    (VText (reason record), DPlain) ].

(** The seven cells of the total row. *)
Definition total_cells (total_amount : value) : list (value * display_style) :=
  [ (VText EmptyString, DTotal); (VText EmptyString, DTotal);
    (VText EmptyString, DTotal); (VText EmptyString, DTotal);
    (VText "Total", DTotal); (total_amount, DTotal); (VText EmptyString, DTotal) ].

(** The total the loop of [generate_display_excel] ends with. *)
Definition display_total (data : list cheque) : value :=
  fold_left add_amount (map cheque_amount data) (VInt 0).

(** A record that passes every test of [validate_data]: a dictionary with
    the four required fields and an amount that [float] accepts. *)
Definition is_complete (record : pyrecord) : bool :=
  match record with
  | NotADict => false
  | ADict items =>
      forallb (has_field items) required_fields
      && match float_of <$> record_get items "cheque_amount" with
         | Some (FloatOk _) => true
         | _ => false
         end
  end.

(** A record whose amount is an [int] too large for a float. *)
Definition overflows (record : pyrecord) : bool :=
  match record with
  | NotADict => false
  | ADict items =>
      match float_of <$> record_get items "cheque_amount" with
      | Some FloatOverflowError => true
      | _ => false
      end
  end.

(** The errors [validate_data] reports for one record. *)
Definition row_errors (ir : nat * pyrecord) : list string :=
  match ir.2 with
  | NotADict => [row_error ir.1 "Record must be a dictionary"]
  | ADict items =>
      (missing_fields ir.1 items [] ++
       match float_of <$> record_get items "cheque_amount" with
       | Some FloatValueError | Some FloatTypeError =>
           [row_error ir.1 "cheque_amount must be a number"]
       | _ => []
       end)%list
  end.

(** A record whose amount is the integer 10^400. *)
Definition huge_int_record : pyrecord :=
  ADict [ ("bfd_account", PVal (VText "98765432109876"));
          ("cheque_amount", PVal (VInt (10 ^ 400)));
          ("pay_bank_name", PVal (VText "CITIZENS"));
          ("cheque_number", PVal (VText "1234567")) ].

(* ===================================================================== *)
(** * Properties *)
(* ===================================================================== *)

(** ** Sheets *)

Lemma take3_short (s : string) :
  (if (3 <=? String.length s)%nat then take 3 s else s) = take 3 s.
Proof.
  destruct s as [|a [|b [|c s]]]; reflexivity.
Qed.

Lemma lookup_write (ws : sheet) r c v st r' c' :
  write ws r c v st !! (r', c') =
  if decide ((r, c) = (r', c')) then Some (v, st) else ws !! (r', c').
Proof. unfold write. apply lookup_insert. Qed.

Lemma lookup_write_cells_from (cells : list (value * style)) :
  ∀ (ws : sheet) r k r' c,
    write_cells_from ws r k cells !! (r', c) =
    if decide (r' = r) then
      if decide (k ≤ c)%nat
      then or_else (cells !! (c - k)%nat) (ws !! (r', c))
      else ws !! (r', c)
    else ws !! (r', c).
Proof.
  induction cells as [|[v st] cells IH]; intros ws r k r' c; simpl.
  - by repeat destruct (decide _).
  - rewrite IH, lookup_write.
    destruct (decide (r' = r)) as [->|Hr].
    + destruct (decide (S k ≤ c)%nat) as [Hk|Hk].
      * destruct (decide (k ≤ c)%nat); [|lia].
        replace (c - k)%nat with (S (c - S k)) by lia. simpl.
        destruct (decide ((r, k) = (r, c))) as [[= ?]|]; [lia|done].
      * destruct (decide ((r, k) = (r, c))) as [[= <-]|Hne].
        -- destruct (decide (k ≤ k)%nat); [|lia]. by rewrite Nat.sub_diag.
        -- destruct (decide (k ≤ c)%nat); [|done].
           exfalso. apply Hne. f_equal. lia.
    + destruct (decide ((r, k) = (r', c))) as [[= ? ?]|]; [congruence|done].
Qed.

Lemma lookup_write_block (rows : list (list (value * style))) :
  ∀ (ws : sheet) r r' c,
    write_block ws r rows !! (r', c) =
    or_else (block_cell r rows r' c) (ws !! (r', c)).
Proof.
  induction rows as [|cells rows IH]; intros ws r r' c; simpl.
  - unfold block_cell. by destruct (decide _).
  - rewrite IH, lookup_write_cells_from. unfold block_cell.
    destruct (decide (S r ≤ r')%nat) as [Hle|Hnle].
    + destruct (decide (r ≤ r')%nat); [|lia].
      replace (r' - r)%nat with (S (r' - S r)) by lia. simpl.
      destruct (decide (r' = r)); [lia|done].
    + simpl. destruct (decide (r' = r)) as [->|Hn].
      * destruct (decide (r ≤ r)%nat); [|lia].
        destruct (decide (0 ≤ c)%nat); [|lia].
        by rewrite Nat.sub_diag, Nat.sub_0_r.
      * destruct (decide (r ≤ r')%nat); [lia|done].
Qed.

Lemma write_headers_cells (headers : list value) (ws : sheet) :
  write_headers ws headers =
  write_cells_from ws 0 0 (map (fun h => (h, Bold)) headers).
Proof.
  unfold write_headers, enumerate.
  generalize 0%nat at 2 4 as k. revert ws.
  induction headers as [|h headers IH]; intros ws k; simpl; [done|].
  apply IH.
Qed.

Lemma debit_entry_cells (ws : sheet) r record :
  debit_entry ws r record = write_cells_from ws r 0 (debit_cells record).
Proof. unfold debit_entry, debit_cells. rewrite take3_short. reflexivity. Qed.

Lemma credit_entry_cells (acc br : string) (ws : sheet) r record :
  credit_entry acc br ws r record = write_cells_from ws r 0 (credit_cells acc br record).
Proof. reflexivity. Qed.

Lemma write_debit_entries_block (data : list cheque) :
  ∀ (ws : sheet) r,
    _write_debit_entries ws data r =
    (write_block ws r (map debit_cells data), (r + length data)%nat).
Proof.
  induction data as [|record data IH]; intros ws r; simpl.
  - by rewrite Nat.add_0_r.
  - rewrite IH, debit_entry_cells. f_equal. lia.
Qed.

Lemma write_credit_entries_block (acc br : string) (data : list cheque) :
  ∀ (ws : sheet) r,
    _write_credit_entries ws data acc br r =
    (write_block ws r (map (credit_cells acc br) data), (r + length data)%nat).
Proof.
  induction data as [|record data IH]; intros ws r; simpl.
  - by rewrite Nat.add_0_r.
  - rewrite IH, credit_entry_cells. f_equal. lia.
Qed.

(** The full batch, cell by cell: the credit block, else the debit block,
    else the header row. *)
Lemma lookup_generate_excel_batch (data : list cheque) (acc br : string) (r c : nat) :
  generate_excel_batch data acc br !! (r, c) =
  or_else (block_cell (1 + length data) (map (credit_cells acc br) data) r c)
    (or_else (block_cell 1 (map debit_cells data) r c)
       (if decide (r = 0)%nat then (fun h => (h, Bold)) <$> batch_headers !! c
        else None)).
Proof.
  unfold generate_excel_batch.
  rewrite write_debit_entries_block, write_credit_entries_block.
  rewrite !lookup_write_block, write_headers_cells, lookup_write_cells_from.
  f_equal. f_equal.
  rewrite lookup_empty, Nat.sub_0_r, list_lookup_fmap.
  destruct (decide (r = 0)%nat) as [->|]; [|done].
  destruct (decide (0 ≤ c)%nat); [|lia]. by destruct (batch_headers !! c).
Qed.
Lemma block_cell_map {A} (f : A → list (value * style)) (l : list A) k r c :
  block_cell k (map f l) r c =
  if decide (k ≤ r)%nat then l !! (r - k)%nat ≫= (fun x => f x !! c) else None.
Proof.
  unfold block_cell. destruct (decide _); [|done].
  change (map f l) with (f <$> l). rewrite list_lookup_fmap.
  by destruct (l !! (r - k)%nat).
Qed.

Lemma is_Some_or_else {A} (x y : option A) :
  is_Some (or_else x y) ↔ is_Some x ∨ is_Some y.
Proof.
  destruct x as [a|]; simpl.
  - split; [intros _; left; by exists a | intros _; by exists a].
  - split; [by right | intros [[? [=]] | H]; exact H].
Qed.

Lemma debit_cells_is_Some record c : is_Some (debit_cells record !! c) ↔ (c < 7)%nat.
Proof. by rewrite lookup_lt_is_Some. Qed.

Lemma credit_cells_is_Some (acc br : string) record c :
  is_Some (credit_cells acc br record !! c) ↔ (c < 7)%nat.
Proof. by rewrite lookup_lt_is_Some. Qed.

Lemma full_batch_cells (data : list cheque) (acc br : string) r c :
  is_Some (generate_excel_batch data acc br !! (r, c)) ↔
  (r ≤ 2 * length data ∧ c < 7)%nat.
Proof.
  rewrite lookup_generate_excel_batch, !block_cell_map, !is_Some_or_else.
  destruct (decide (r = 0)%nat) as [->|Hr].
  - rewrite decide_False by lia. rewrite decide_False by lia.
    rewrite fmap_is_Some, lookup_lt_is_Some.
    change (length batch_headers) with 7%nat.
    rewrite !is_Some_alt. lia.
  - rewrite (decide_True (P := (1 ≤ r)%nat)) by lia.
    destruct (decide (1 + length data ≤ r)%nat) as [Hc|Hc].
    + destruct (data !! (r - (1 + length data))%nat) as [rec|] eqn:E;
        cbn [mbind option_bind].
      * apply lookup_lt_Some in E. rewrite credit_cells_is_Some.
        rewrite (lookup_ge_None_2 data (r - 1)) by lia. cbn [mbind option_bind].
        rewrite !is_Some_alt. lia.
      * apply lookup_ge_None in E.
        rewrite (lookup_ge_None_2 data (r - 1)) by lia. cbn [mbind option_bind].
        rewrite !is_Some_alt. lia.
    + destruct (data !! (r - 1)%nat) as [rec|] eqn:E; cbn [mbind option_bind].
      * rewrite debit_cells_is_Some. rewrite !is_Some_alt. lia.
      * apply lookup_ge_None in E. lia.
Qed.

Lemma full_batch_debit_row (data : list cheque) (acc br : string) i record c :
  data !! i = Some record →
  generate_excel_batch data acc br !! ((1 + i)%nat, c) = debit_cells record !! c.
Proof.
  intros Hi. pose proof (lookup_lt_Some _ _ _ Hi) as Hlt.
  rewrite lookup_generate_excel_batch, !block_cell_map.
  rewrite decide_False by lia. rewrite decide_True by lia.
  replace (1 + i - 1)%nat with i by lia. rewrite Hi. cbn [mbind option_bind or_else].
  rewrite decide_False by lia. by destruct (debit_cells record !! c).
Qed.

Lemma full_batch_credit_row (data : list cheque) (acc br : string) i record c :
  data !! i = Some record →
  generate_excel_batch data acc br !! ((1 + length data + i)%nat, c) =
  credit_cells acc br record !! c.
Proof.
  intros Hi. pose proof (lookup_lt_Some _ _ _ Hi) as Hlt.
  rewrite lookup_generate_excel_batch, !block_cell_map.
  rewrite decide_True by lia. rewrite decide_True by lia.
  replace (1 + length data + i - (1 + length data))%nat with i by lia.
  rewrite Hi. cbn [mbind option_bind].
  rewrite (lookup_ge_None_2 data) by lia. cbn [mbind option_bind or_else].
  rewrite decide_False by lia. by destruct (credit_cells acc br record !! c).
Qed.

Lemma debit_entry_alone record c :
  debit_entry ∅ 0 record !! (0%nat, c) = debit_cells record !! c.
Proof.
  rewrite debit_entry_cells, lookup_write_cells_from.
  rewrite decide_True by done. rewrite decide_True by lia.
  rewrite lookup_empty, Nat.sub_0_r. by destruct (debit_cells record !! c).
Qed.

Lemma credit_entry_alone (acc br : string) record c :
  credit_entry acc br ∅ 0 record !! (0%nat, c) = credit_cells acc br record !! c.
Proof.
  rewrite credit_entry_cells, lookup_write_cells_from.
  rewrite decide_True by done. rewrite decide_True by lia.
  rewrite lookup_empty, Nat.sub_0_r. by destruct (credit_cells acc br record !! c).
Qed.

(** C3. For a list of N records the full/accepted batch holds a header row
    and exactly 2*N data rows of seven cells (rows 1..2N); for every index
    i < N, row 1+i is the row the debit loop writes for record i, row 1+N+i
    is the row the credit loop writes for the same record, and the amounts
    of the second row are the exact negation of those of the first. *)
Theorem full_batch_pairing (data : list cheque) (acc br : string) :
  let ws := generate_excel_batch data acc br in
  let N := length data in
  (∀ r c, is_Some (ws !! (r, c)) ↔ (r ≤ 2 * N ∧ c < 7)%nat) ∧
  (∀ i record, data !! i = Some record →
     (∀ c, ws !! ((1 + i)%nat, c) = debit_entry ∅ 0 record !! (0%nat, c)) ∧
     (∀ c, ws !! ((1 + N + i)%nat, c) = credit_entry acc br ∅ 0 record !! (0%nat, c)) ∧
     (∀ c, c = 3%nat ∨ c = 4%nat →
        ws !! ((1 + i)%nat, c) = Some (VNum (cheque_amount record), Num2) ∧
        ws !! ((1 + N + i)%nat, c) = Some (VNum (SFopp (cheque_amount record)), Num2))).
Proof.
  intros ws N. split.
  - intros r c. apply full_batch_cells.
  - intros i record Hi. repeat split.
    + intros c. unfold ws. by rewrite (full_batch_debit_row _ _ _ _ _ _ Hi), debit_entry_alone.
    + intros c. unfold ws, N.
      by rewrite (full_batch_credit_row _ _ _ _ _ _ Hi), credit_entry_alone.
    + unfold ws. rewrite (full_batch_debit_row _ _ _ _ _ _ Hi). by destruct H as [-> | ->].
    + unfold ws, N. rewrite (full_batch_credit_row _ _ _ _ _ _ Hi). by destruct H as [-> | ->].
Qed.

Lemma full_batch_pairing_witness :
  sample_batch !! (1%nat, 3%nat) = Some (VNum (cheque_amount sample_cheque), Num2) ∧
  sample_batch !! (2%nat, 3%nat) = Some (VNum (SFopp (cheque_amount sample_cheque)), Num2).
Proof.
  destruct (full_batch_pairing [sample_cheque] "9313102000" "255") as [_ H].
  destruct (H 0%nat sample_cheque eq_refl) as (_ & _ & H3).
  apply (H3 3%nat). left. reflexivity.
Defined.

(** C1 (as the code has it). In the full/accepted batch, every row of the
    first block (the record's own side: branch code = first 3 characters of
    bfd_account, main code = bfd_account, amount = +cheque_amount) carries
    transaction code 555, and every row of the second block (the
    caller-supplied clearing branch and account, amount = -cheque_amount)
    carries transaction code 055. *)
Theorem full_batch_codes (data : list cheque) (acc br : string) i record :
  data !! i = Some record →
  let ws := generate_excel_batch data acc br in
  let N := length data in
  (ws !! ((1 + i)%nat, 0%nat) = Some (VText (take 3 (bfd_account record)), Plain) ∧
   ws !! ((1 + i)%nat, 1%nat) = Some (VText (bfd_account record), Plain) ∧
   ws !! ((1 + i)%nat, 3%nat) = Some (VNum (cheque_amount record), Num2) ∧
   ws !! ((1 + i)%nat, 2%nat) = Some (VText "555", Plain)) ∧
  (ws !! ((1 + N + i)%nat, 0%nat) = Some (VText br, Plain) ∧
   ws !! ((1 + N + i)%nat, 1%nat) = Some (VText acc, Plain) ∧
   ws !! ((1 + N + i)%nat, 3%nat) = Some (VNum (SFopp (cheque_amount record)), Num2) ∧
   ws !! ((1 + N + i)%nat, 2%nat) = Some (VText "055", Plain)).
Proof.
  intros Hi ws N. unfold ws, N.
  rewrite !(full_batch_debit_row _ _ _ _ _ _ Hi).
  rewrite !(full_batch_credit_row _ _ _ _ _ _ Hi).
  repeat split.
Qed.

Lemma full_batch_codes_witness :
  sample_batch !! (1%nat, 2%nat) = Some (VText "555", Plain) ∧
  sample_batch !! (2%nat, 2%nat) = Some (VText "055", Plain).
Proof.
  destruct (full_batch_codes [sample_cheque] "9313102000" "255" 0 sample_cheque eq_refl)
    as [(_ & _ & _ & H1) (_ & _ & _ & H2)].
  split; [exact H1 | exact H2].
Defined.

(** C1 as stated fails: in the batch of one record, the row of the first
    block (the record's own account) carries 555, not 055, and the row of
    the second block (the clearing account) carries 055, not 555. *)
Lemma full_batch_codes_counterexample :
  sample_batch !! (1%nat, 1%nat) = Some (VText "98765432109876", Plain) ∧
  sample_batch !! (1%nat, 2%nat) ≠ Some (VText "055", Plain) ∧
  sample_batch !! (2%nat, 1%nat) = Some (VText "9313102000", Plain) ∧
  sample_batch !! (2%nat, 2%nat) ≠ Some (VText "555", Plain).
Proof.
  unfold sample_batch.
  rewrite !(full_batch_debit_row [sample_cheque] _ _ 0 sample_cheque _ eq_refl).
  rewrite !(full_batch_credit_row [sample_cheque] _ _ 0 sample_cheque _ eq_refl).
  repeat split; discriminate.
Qed.

(** C8 (as the code has it). For every record of the full/accepted batch,
    the description-2 field of its own-account row is CLG, a space, the bank
    name upper-cased with its spaces removed, a space, and the cheque
    number. *)
Theorem full_batch_desc2 (data : list cheque) (acc br : string) i record :
  data !! i = Some record →
  generate_excel_batch data acc br !! ((1 + i)%nat, 6%nat) =
  Some (VText ("CLG " ++ remove_char " " (upper (pay_bank_name record))
                 ++ " " ++ cheque_number record), Plain).
Proof.
  intros Hi. by rewrite (full_batch_debit_row _ _ _ _ _ _ Hi).
Qed.

Lemma full_batch_desc2_witness :
  sample_batch !! (1%nat, 6%nat) = Some (VText "CLG CITIZENSBANK 1234567", Plain).
Proof.
  exact (full_batch_desc2 [sample_cheque] "9313102000" "255" 0 sample_cheque eq_refl).
Defined.

(** C8 as stated fails: for the sample record (bank CITIZENSBANK, cheque
    1234567) the field is not the bank immediately followed by the cheque
    number; a space separates them. *)
Lemma full_batch_desc2_counterexample :
  sample_batch !! (1%nat, 6%nat) ≠
  Some (VText ("CLG " ++ remove_char " " (upper (pay_bank_name sample_cheque))
                 ++ cheque_number sample_cheque), Plain).
Proof.
  unfold sample_batch.
  rewrite (full_batch_debit_row [sample_cheque] _ _ 0 sample_cheque _ eq_refl).
  discriminate.
Qed.

(** ** Filters *)

Lemma filter_filter_comm {A} (p q : A → bool) (l : list A) :
  List.filter p (List.filter q l) = List.filter q (List.filter p l).
Proof.
  induction l as [|x l IH]; simpl; [done|].
  destruct (q x) eqn:Hq, (p x) eqn:Hp; simpl; rewrite ?Hq, ?Hp, IH; done.
Qed.

(** C9. Keeping the records whose reason contains ACCEPTED (case-insensitive)
    and keeping the records whose amount is strictly above the threshold
    give the same records in either order: the same list, whose members are
    the input records that pass both tests. *)
Theorem filters_commute (data : list cheque) (threshold : spec_float) :
  filter_accepted_cheques (commission_eligible data threshold) =
  commission_eligible (filter_accepted_cheques data) threshold ∧
  ∀ record,
    In record (filter_accepted_cheques (commission_eligible data threshold)) ↔
    In record data ∧
    contains "ACCEPTED" (strip (upper (reason record))) = true ∧
    SFltb threshold (cheque_amount record) = true.
Proof.
  unfold filter_accepted_cheques, commission_eligible. split.
  - apply filter_filter_comm.
  - intros record. rewrite !filter_In. unfold is_accepted, PyFloat.gtb. tauto.
Qed.

(** ** The commission batch *)

Lemma charge_text_finite (float_repr : spec_float → string) (x : spec_float) :
  finite x → is_Some (charge_text float_repr x).
Proof.
  unfold charge_text. destruct x; simpl; try done; intros _; eauto.
Qed.

Lemma charge_text_not_finite (float_repr : spec_float → string) (x : spec_float) :
  ¬ finite x → charge_text float_repr x = None.
Proof.
  unfold charge_text. destruct x; simpl; tauto.
Qed.

Lemma commission_debit_entry_cells (float_repr : spec_float → string)
    (br : string) (amt : spec_float) (ws : sheet) r record :
  finite (cheque_amount record) →
  commission_debit_entry float_repr br amt ws r record =
  Some (write_cells_from ws r 0 (commission_debit_row float_repr br amt record)).
Proof.
  intros Hf. destruct (charge_text_finite float_repr _ Hf) as [d Hd].
  unfold commission_debit_entry, commission_debit_row, desc1_of.
  rewrite Hd. reflexivity.
Qed.

Lemma commission_credit_entry_cells (float_repr : spec_float → string)
    (acct br : string) (amt : spec_float) (ws : sheet) r record :
  finite (cheque_amount record) →
  commission_credit_entry float_repr acct br amt ws r record =
  Some (write_cells_from ws r 0 (commission_credit_row float_repr acct br amt record)).
Proof.
  intros Hf. destruct (charge_text_finite float_repr _ Hf) as [d Hd].
  unfold commission_credit_entry, commission_credit_row, desc1_of.
  rewrite Hd. reflexivity.
Qed.

Lemma entries_loop_block (entry : sheet → nat → cheque → option sheet)
    (cells : cheque → list (value * style)) (l : list cheque) :
  (∀ (ws : sheet) r record, In record l →
     entry ws r record = Some (write_cells_from ws r 0 (cells record))) →
  ∀ (ws : sheet) r,
    entries_loop entry ws l r =
    Some (write_block ws r (map cells l), (r + length l)%nat).
Proof.
  induction l as [|record l IH]; intros Hentry ws r; simpl.
  - by rewrite Nat.add_0_r.
  - rewrite Hentry by (by left). rewrite IH by (intros; apply Hentry; by right).
    do 2 f_equal. lia.
Qed.

(** With finite eligible amounts the commission batch is the debit block
    followed by the credit block. *)
Lemma commission_batch_blocks (float_repr : spec_float → string)
    (data : list cheque) (acct br : string) (amt thr : spec_float) :
  commission_eligible data thr ≠ [] →
  Forall (fun r => finite (cheque_amount r)) (commission_eligible data thr) →
  commission_batch float_repr data acct br amt thr =
  Batch (write_block
           (write_block ∅ 0 (map (commission_debit_row float_repr br amt)
                               (commission_eligible data thr)))
           (length (commission_eligible data thr))
           (map (commission_credit_row float_repr acct br amt)
              (commission_eligible data thr))).
Proof.
  intros Hne Hfin. unfold commission_batch.
  destruct data as [|d0 data]; [done|].
  destruct (commission_eligible (d0 :: data) thr) as [|e0 el] eqn:E; [done|].
  rewrite Forall_forall in Hfin.
  rewrite (entries_loop_block _ (commission_debit_row float_repr br amt)).
  2:{ intros ws r record Hin. apply commission_debit_entry_cells.
      apply Hfin. by apply list_elem_of_In. }
  rewrite (entries_loop_block _ (commission_credit_row float_repr acct br amt)).
  2:{ intros ws r record Hin. apply commission_credit_entry_cells.
      apply Hfin. by apply list_elem_of_In. }
  reflexivity.
Qed.



Lemma entries_loop_raises (entry : sheet → nat → cheque → option sheet)
    (l : list cheque) :
  (∃ record, In record l ∧ ∀ (ws : sheet) r, entry ws r record = None) →
  ∀ (ws : sheet) r, entries_loop entry ws l r = None.
Proof.
  induction l as [|x l IH]; intros (record & Hin & Hnone) ws r; simpl.
  - destruct Hin.
  - destruct (entry ws r x) eqn:E; [|done].
    destruct Hin as [->|Hin]; [by rewrite Hnone in E|].
    apply IH. eauto.
Qed.

Lemma finite_dec (x : spec_float) : {finite x} + {¬ finite x}.
Proof. destruct x; simpl; auto. Qed.

Lemma Forall_finite_or (l : list cheque) :
  Forall (fun r => finite (cheque_amount r)) l ∨
  ∃ record, In record l ∧ ¬ finite (cheque_amount record).
Proof.
  induction l as [|x l [IH|(r & Hin & Hr)]].
  - left. constructor.
  - destruct (finite_dec (cheque_amount x)) as [Hx|Hx].
    + left. by constructor.
    + right. exists x. split; [by left|done].
  - right. exists r. split; [by right|done].
Qed.

Lemma finite_all_not_some (l : list cheque) :
  Forall (fun r => finite (cheque_amount r)) l →
  (∃ record, In record l ∧ ¬ finite (cheque_amount record)) → False.
Proof.
  rewrite Forall_forall. intros Hall (r & Hin & Hr).
  apply Hr, Hall. by apply list_elem_of_In.
Qed.

(** The four ways in which the commission batch generator answers. *)
Lemma commission_batch_cases (float_repr : spec_float → string)
    (data : list cheque) (acct br : string) (amt thr : spec_float) :
  let eligible := commission_eligible data thr in
  let answer := commission_batch float_repr data acct br amt thr in
  (data = [] ∧ answer = Fail NoDataExtracted) ∨
  (data ≠ [] ∧ eligible = [] ∧ answer = Fail NoEligible) ∨
  (eligible ≠ [] ∧ (∃ record, In record eligible ∧ ¬ finite (cheque_amount record))
   ∧ answer = Fail Crashed) ∨
  (eligible ≠ [] ∧ Forall (fun r => finite (cheque_amount r)) eligible
   ∧ ∃ ws, answer = Batch ws).
Proof.
  intros eligible answer.
  destruct data as [|d0 data]; [left; by split|]. right.
  destruct eligible as [|e0 el] eqn:Eel.
  { left. split; [done|]. split; [done|].
    subst answer. unfold commission_batch. fold eligible. by rewrite Eel. }
  right. rewrite <- Eel.
  assert (eligible ≠ []) as Hne by (by rewrite Eel).
  destruct (Forall_finite_or eligible) as [Hfin|Hinf].
  - right. split; [done|]. split; [done|].
    eexists. by apply commission_batch_blocks.
  - left. split; [done|]. split; [done|].
    subst answer. unfold commission_batch. fold eligible. rewrite Eel.
    rewrite <- Eel. rewrite entries_loop_raises; [done|].
    destruct Hinf as (r & Hin & Hr). exists r. split; [done|].
    intros ws row. unfold commission_debit_entry.
    by rewrite (charge_text_not_finite _ _ Hr).
Qed.




Lemma eligible_same_but_reason (l1 l2 : list cheque) (thr : spec_float) :
  Forall2 same_but_reason l1 l2 →
  Forall2 same_but_reason (commission_eligible l1 thr) (commission_eligible l2 thr).
Proof.
  induction 1 as [|a b l1 l2 Hab _ IH]; simpl; [constructor|].
  destruct Hab as (Hacc & Hamt & Hrest). rewrite <- Hamt.
  destruct (PyFloat.gtb (cheque_amount a) thr); [|exact IH].
  constructor; [|exact IH]. repeat split; tauto.
Qed.

Lemma entries_loop_same (entry : sheet → nat → cheque → option sheet)
    (l1 l2 : list cheque) :
  (∀ (ws : sheet) r a b, same_but_reason a b → entry ws r a = entry ws r b) →
  Forall2 same_but_reason l1 l2 →
  ∀ (ws : sheet) r, entries_loop entry ws l1 r = entries_loop entry ws l2 r.
Proof.
  intros Hentry. induction 1 as [|a b l1 l2 Hab _ IH]; intros ws r; simpl; [done|].
  rewrite (Hentry ws r a b Hab). destruct (entry ws r b); [apply IH|done].
Qed.

Lemma commission_debit_entry_same (float_repr : spec_float → string)
    (br : string) (amt : spec_float) (ws : sheet) r a b :
  same_but_reason a b →
  commission_debit_entry float_repr br amt ws r a =
  commission_debit_entry float_repr br amt ws r b.
Proof.
  intros (Hacc & Hamt & Hbank & _ & Hnum & _).
  unfold commission_debit_entry, bank_tag. by rewrite Hacc, Hamt, Hbank, Hnum.
Qed.

Lemma commission_credit_entry_same (float_repr : spec_float → string)
    (acct br : string) (amt : spec_float) (ws : sheet) r a b :
  same_but_reason a b →
  commission_credit_entry float_repr acct br amt ws r a =
  commission_credit_entry float_repr acct br amt ws r b.
Proof.
  intros (Hacc & Hamt & _).
  unfold commission_credit_entry. by rewrite Hacc, Hamt.
Qed.

(** C10. Two record lists that agree, position by position, on every field
    but the reason give the same answer of the commission batch generator
    for all commission parameters (the same rows, or the same failure), and
    their eligible records agree in the same way: the reason has no
    influence on eligibility or on any emitted row. *)
Theorem commission_ignores_reason (float_repr : spec_float → string)
    (l1 l2 : list cheque) (acct br : string) (amt thr : spec_float) :
  Forall2 same_but_reason l1 l2 →
  Forall2 same_but_reason (commission_eligible l1 thr) (commission_eligible l2 thr) ∧
  commission_batch float_repr l1 acct br amt thr =
  commission_batch float_repr l2 acct br amt thr.
Proof.
  intros H12. pose proof (eligible_same_but_reason l1 l2 thr H12) as Hel.
  split; [exact Hel|]. unfold commission_batch.
  destruct H12 as [|a b l1 l2 Hab H12]; [done|].
  destruct Hel as [|ea eb el1 el2 Heab Hel]; [done|].
  assert (Forall2 same_but_reason (ea :: el1) (eb :: el2)) as Hall
      by (by constructor).
  rewrite (entries_loop_same _ _ _
             (commission_debit_entry_same float_repr br amt) Hall).
  destruct (entries_loop _ ∅ (eb :: el2) 0) as [[ws r]|]; [|done].
  by rewrite (entries_loop_same _ _ _
                (commission_credit_entry_same float_repr acct br amt) Hall).
Qed.

Lemma commission_ignores_reason_witness :
  commission_batch no_repr [sample_cheque] "9505062601" "255"
                   (PyFloat.of_Z 15) (PyFloat.of_Z 200000) =
  commission_batch no_repr [sample_rejected] "9505062601" "255"
                   (PyFloat.of_Z 15) (PyFloat.of_Z 200000).
Proof.
  apply (commission_ignores_reason no_repr [sample_cheque] [sample_rejected]).
  repeat constructor.
Defined.

(** ** Reconciliation *)

Lemma split_by_trancode_filter (float_repr : spec_float → string) (rows : list xrow) :
  Forall (fun r => is_Some (r !! 2%nat)) rows →
  ∀ a b, split_by_trancode float_repr rows a b =
         Some ((a ++ rows_coded float_repr "555" rows)%list,
               (b ++ rows_coded float_repr "055" rows)%list).
Proof.
  induction 1 as [|r rows [v Hv] _ IH]; intros a b; simpl.
  - by rewrite !app_nil_r.
  - unfold is_coded. rewrite Hv.
    destruct (String.eqb (strip (py_str float_repr v)) "555") eqn:E5.
    + apply String.eqb_eq in E5. rewrite E5. simpl.
      rewrite IH. by rewrite <- app_assoc.
    + destruct (String.eqb (strip (py_str float_repr v)) "055") eqn:E0.
      * rewrite IH. by rewrite <- app_assoc.
      * apply IH.
Qed.

Lemma split_by_trancode_short (float_repr : spec_float → string) (rows : list xrow) :
  rows ≠ [] →
  Forall (fun r => r !! 2%nat = None) rows →
  ∀ a b, split_by_trancode float_repr rows a b = None.
Proof.
  intros Hne Hall a b. destruct Hall as [|r rows Hr _]; [done|].
  simpl. by rewrite Hr.
Qed.

Lemma rows_coded_short (float_repr : spec_float → string) (code : string)
    (rows : list xrow) :
  Forall (fun r => r !! 2%nat = None) rows → rows_coded float_repr code rows = [].
Proof.
  induction 1 as [|r rows Hr _ IH]; simpl; [done|].
  unfold is_coded. by rewrite Hr.
Qed.

Lemma keep_loop_filter (float_repr : spec_float → string)
    (accepted : gset string) (l5 : list xrow) :
  Forall (fun r => is_Some (r !! 6%nat)) l5 →
  ∀ (l0 pre k5 k0 : list xrow),
    length l0 = length l5 →
    keep_loop float_repr accepted (combine (seq (length pre) (length l5)) l5)
              (pre ++ l0)%list k5 k0 =
    let kept := List.filter (fun p => bool_decide (recovered float_repr p.1 ∈ accepted))
                            (combine l5 l0) in
    Some ((k5 ++ map fst kept)%list, (k0 ++ map snd kept)%list).
Proof.
  induction 1 as [|r l5 [v Hv] _ IH]; intros l0 pre k5 k0 Hlen.
  - simpl. by rewrite !app_nil_r.
  - destruct l0 as [|r0 l0]; [done|]. simpl in Hlen.
    assert (recovered float_repr r = cheque_of_desc2 float_repr v) as Hrec
        by (unfold recovered; by rewrite Hv).
    cbn [length seq combine keep_loop List.filter fst]. rewrite Hv, Hrec.
    rewrite (lookup_app_r pre) by lia. rewrite Nat.sub_diag.
    cbn [lookup list_lookup].
    specialize (IH l0 (pre ++ [r0])%list).
    rewrite length_app in IH. cbn [length] in IH.
    rewrite Nat.add_1_r, <- app_assoc in IH. cbn [app] in IH.
    destruct (bool_decide _); rewrite IH by lia; cbn [map fst snd].
    + by rewrite <- !app_assoc.
    + done.
Qed.

Lemma out_cells_from_lookup (cells : xrow) :
  ∀ k j, out_cells_from k cells !! j = out_cell (k + j) <$> cells !! j.
Proof.
  induction cells as [|v cells IH]; intros k j; [done|].
  destruct j as [|j]; cbn [out_cells_from].
  - by rewrite Nat.add_0_r.
  - cbn [lookup list_lookup]. change (out_cells_from (S k) cells !! j =
      out_cell (k + S j) <$> cells !! j).
    rewrite IH. by replace (S k + j)%nat with (k + S j)%nat by lia.
Qed.

Lemma write_row_out_cells (cells : xrow) :
  ∀ k (ws : sheet) r,
    (∀ j v, cells !! j = Some v → (k + j = 3 ∨ k + j = 4)%nat → is_Some (py_float v)) →
    write_row_out ws r (combine (seq k (length cells)) cells) =
    Some (write_cells_from ws r k (out_cells_from k cells)).
Proof.
  induction cells as [|v cells IH]; intros k ws r Hnum; [done|].
  cbn [length seq combine write_row_out out_cells_from write_cells_from].
  unfold out_cell at 1.
  destruct ((k =? 3)%nat || (k =? 4)%nat) eqn:Ek.
  - destruct (Hnum 0%nat v eq_refl) as [x Hx].
    { rewrite Nat.add_0_r. apply orb_true_iff in Ek.
      destruct Ek as [?%Nat.eqb_eq | ?%Nat.eqb_eq]; lia. }
    rewrite Hx. cbn [default]. apply IH.
    intros j w Hj Hk. apply (Hnum (S j) w Hj). lia.
  - apply IH. intros j w Hj Hk. apply (Hnum (S j) w Hj). lia.
Qed.

Lemma write_rows_out_block (rows : list xrow) :
  Forall amounts_numeric rows →
  ∀ (ws : sheet) r,
    write_rows_out ws rows r =
    Some (write_block ws r (map (out_cells_from 0) rows), (r + length rows)%nat).
Proof.
  induction 1 as [|row rows Hrow _ IH]; intros ws r; simpl.
  - by rewrite Nat.add_0_r.
  - unfold enumerate. rewrite write_row_out_cells.
    + rewrite IH. do 2 f_equal. lia.
    + intros j v Hj Hc. by apply (Hrow j v).
Qed.

(** A kept row whose amount field cannot be read as a float makes the
    writing raise. *)
Lemma write_row_out_raises (cells : xrow) :
  ∀ k (ws : sheet) r j v,
    cells !! j = Some v → (k + j = 3 ∨ k + j = 4)%nat → py_float v = None →
    write_row_out ws r (combine (seq k (length cells)) cells) = None.
Proof.
  induction cells as [|w cells IH]; intros k ws r j v Hj Hk Hv; [done|].
  cbn [length seq combine write_row_out].
  destruct j as [|j].
  - injection Hj as ->. rewrite Nat.add_0_r in Hk.
    replace ((k =? 3)%nat || (k =? 4)%nat) with true.
    + by rewrite Hv.
    + symmetry. apply orb_true_iff. rewrite !Nat.eqb_eq. lia.
  - assert (write_row_out (write ws r k w Plain) r
              (combine (seq (S k) (length cells)) cells) = None) as H1.
    { apply (IH (S k) _ r j v Hj); [lia|done]. }
    destruct ((k =? 3)%nat || (k =? 4)%nat); [|exact H1].
    destruct (py_float w); [|done].
    apply (IH (S k) _ r j v Hj); [lia|done].
Qed.

Lemma col6_col2 (rows : list xrow) :
  Forall (fun r => is_Some (r !! 6%nat)) rows →
  Forall (fun r => is_Some (r !! 2%nat)) rows.
Proof.
  intros H. eapply Forall_impl; [exact H|]. cbv beta.
  intros r Hr. apply lookup_lt_is_Some in Hr. apply lookup_lt_is_Some. lia.
Qed.

Lemma Forall_filter_keep {A} (P : A → Prop) (p : A → bool) (l : list A) :
  Forall P l → Forall P (List.filter p l).
Proof.
  induction 1 as [|x l Hx _ IH]; simpl; [constructor|].
  destruct (p x); [by constructor|done].
Qed.

(** With seven-column rows and blocks of equal length, the answer is the
    writing of the kept pairs. *)
Lemma final_batch_kept (float_repr : spec_float → string) (accepted : gset string)
    (headers : xrow) (rows : list xrow) :
  Forall (fun r => is_Some (r !! 6%nat)) rows →
  length (rows_coded float_repr "555" rows) =
  length (rows_coded float_repr "055" rows) →
  final_batch float_repr accepted (headers :: rows) =
  write_final headers (map fst (kept_pairs float_repr accepted rows))
                      (map snd (kept_pairs float_repr accepted rows)).
Proof.
  intros H6 Hlen. unfold final_batch.
  rewrite (split_by_trancode_filter _ _ (col6_col2 _ H6)). cbn [app].
  rewrite Hlen, Nat.eqb_refl. cbn [negb].
  unfold enumerate.
  pose proof (keep_loop_filter float_repr accepted
                (rows_coded float_repr "555" rows)
                (Forall_filter_keep _ _ _ H6)
                (rows_coded float_repr "055" rows) [] [] [] (eq_sym Hlen)) as Hk.
  cbn [length app] in Hk. rewrite Hk. reflexivity.
Qed.

Lemma Forall_fst_combine {A B} (P : A → Prop) (l : list A) (l' : list B) :
  Forall P l → Forall (fun p => P p.1) (combine l l').
Proof.
  intros H. revert l'. induction H as [|x l Hx _ IH]; intros [|y l']; simpl;
    constructor; auto.
Qed.

Lemma Forall_snd_combine {A B} (P : B → Prop) (l : list A) (l' : list B) :
  Forall P l' → Forall (fun p => P p.2) (combine l l').
Proof.
  intros H. revert l. induction H as [|y l' Hy _ IH]; intros [|x l]; simpl;
    constructor; auto.
Qed.

Lemma kept_pairs_rows (float_repr : spec_float → string) (accepted : gset string)
    (rows : list xrow) (P : xrow → Prop) :
  Forall P rows →
  Forall P (map fst (kept_pairs float_repr accepted rows)) ∧
  Forall P (map snd (kept_pairs float_repr accepted rows)).
Proof.
  intros H. unfold kept_pairs, rows_coded. split; apply Forall_map.
  - apply Forall_filter_keep, Forall_fst_combine, Forall_filter_keep, H.
  - apply Forall_filter_keep, Forall_snd_combine, Forall_filter_keep, H.
Qed.

Lemma write_final_blocks (headers : xrow) (k5 k0 : list xrow) :
  k5 ≠ [] → Forall amounts_numeric k5 → Forall amounts_numeric k0 →
  write_final headers k5 k0 =
  Batch (write_block
           (write_block (write_cells_from ∅ 0 0 (map (fun h => (h, Bold)) headers))
                        1 (map (out_cells_from 0) k5))
           (1 + length k5) (map (out_cells_from 0) k0)).
Proof.
  intros Hne H5 H0. unfold write_final. destruct k5 as [|r k5]; [done|].
  rewrite (write_rows_out_block _ H5), (write_rows_out_block _ H0).
  by rewrite write_headers_cells.
Qed.

Lemma sublist_filter_keep {A} (p : A → bool) (l : list A) :
  sublist (List.filter p l) l.
Proof.
  induction l as [|x l IH]; simpl; [constructor|].
  destruct (p x); by constructor.
Qed.

Lemma write_final_lookup (headers : xrow) (kept : list (xrow * xrow)) ws j p c :
  write_final headers (map fst kept) (map snd kept) = Batch ws →
  Forall amounts_numeric (map fst kept) →
  Forall amounts_numeric (map snd kept) →
  kept !! j = Some p →
  ws !! ((1 + j)%nat, c) = out_cell c <$> p.1 !! c ∧
  ws !! ((1 + length kept + j)%nat, c) = out_cell c <$> p.2 !! c.
Proof.
  intros Hws H5 H0 Hj. pose proof (lookup_lt_Some _ _ _ Hj) as Hlt.
  rewrite write_final_blocks in Hws; [|by destruct kept|done|done].
  injection Hws as <-. rewrite !length_map, !map_map.
  rewrite !lookup_write_block, !block_cell_map, !lookup_write_cells_from, !lookup_empty.
  split.
  - rewrite decide_False by lia. rewrite decide_True by lia.
    assert ((1 + j - 1)%nat = j) as -> by lia. rewrite Hj. cbn [mbind option_bind or_else].
    rewrite out_cells_from_lookup. cbn [Nat.add].
    rewrite decide_False by lia. by destruct (p.1 !! c).
  - rewrite decide_True by lia. rewrite decide_True by lia.
    assert ((1 + length kept + j - S (length kept))%nat = j) as -> by lia.
    rewrite Hj. cbn [mbind option_bind].
    rewrite (lookup_ge_None_2 kept) by lia. cbn [mbind option_bind or_else].
    rewrite out_cells_from_lookup. cbn [Nat.add].
    rewrite decide_False by lia. by destruct (p.2 !! c).
Qed.

Lemma kept_pairs_extra (float_repr : spec_float → string)
    (accepted extra : gset string) (rows : list xrow) :
  (∀ r, In r (rows_coded float_repr "555" rows) → recovered float_repr r ∉ extra) →
  kept_pairs float_repr (accepted ∪ extra) rows = kept_pairs float_repr accepted rows.
Proof.
  intros Hextra. unfold kept_pairs.
  set (l5 := rows_coded float_repr "555" rows) in *.
  generalize (rows_coded float_repr "055" rows) as l0.
  induction l5 as [|r l5 IH]; intros l0; [done|].
  destruct l0 as [|r0 l0]; [done|]. cbn [combine List.filter fst].
  rewrite IH by (intros; apply Hextra; by right).
  assert (recovered float_repr r ∉ extra) as Hr by (apply Hextra; by left).
  destruct (decide (recovered float_repr r ∈ accepted)) as [Hin|Hout].
  - rewrite !bool_decide_eq_true_2; [done|done|].
    apply elem_of_union. by left.
  - rewrite !bool_decide_eq_false_2; [done|done|].
    intros [?|?]%elem_of_union; done.
Qed.

Lemma In_lookup {A} (l : list A) (x : A) :
  In x l → ∃ i, l !! i = Some x.
Proof.
  induction l as [|a l IH]; [done|]. intros [->|Hx].
  - by exists 0%nat.
  - destruct (IH Hx) as [i Hi]. by exists (S i).
Qed.

Lemma lookup_In {A} (l : list A) (i : nat) (x : A) : l !! i = Some x → In x l.
Proof.
  revert i. induction l as [|a l IH]; intros [|i]; try done.
  - intros [= <-]. by left.
  - intros H. right. by apply (IH i).
Qed.

(** The output sheet of the reconciliation, cell by cell: the header row,
    then the 555 rows of the kept pairs, then their 055 rows, and nothing
    else. *)
Lemma write_final_sheet (headers : xrow) (kept : list (xrow * xrow)) ws r c :
  write_final headers (map fst kept) (map snd kept) = Batch ws →
  Forall amounts_numeric (map fst kept) →
  Forall amounts_numeric (map snd kept) →
  ws !! (r, c) =
  if decide (r = 0)%nat then (fun h => (h, Bold)) <$> headers !! c
  else if decide (r ≤ length kept)%nat
       then kept !! (r - 1)%nat ≫= (fun p => out_cell c <$> p.1 !! c)
       else kept !! (r - 1 - length kept)%nat ≫= (fun p => out_cell c <$> p.2 !! c).
Proof.
  intros Hws H5 H0.
  rewrite write_final_blocks in Hws; [|by destruct kept|done|done].
  injection Hws as <-. rewrite !length_map, !map_map.
  rewrite !lookup_write_block, !block_cell_map, !lookup_write_cells_from, !lookup_empty.
  destruct (decide (r = 0)%nat) as [->|Hr].
  - rewrite decide_False by lia. rewrite decide_False by lia. cbn [or_else].
    destruct (decide (0 ≤ c)%nat); [|lia]. rewrite Nat.sub_0_r.
    change (map ?f ?l) with (f <$> l). rewrite list_lookup_fmap.
    by destruct (headers !! c).
  - rewrite (decide_True (P := (1 ≤ r)%nat)) by lia.
    destruct (decide (r ≤ length kept)%nat) as [Hk|Hk].
    + rewrite decide_False by lia. cbn [or_else].
      destruct (kept !! (r - 1)%nat) as [p|]; cbn [mbind option_bind or_else]; [|done].
      rewrite out_cells_from_lookup. cbn [Nat.add]. by destruct (p.1 !! c).
    + rewrite decide_True by lia.
      assert ((r - S (length kept))%nat = (r - 1 - length kept)%nat) as -> by lia.
      rewrite (lookup_ge_None_2 kept (r - 1)) by lia.
      destruct (kept !! (r - 1 - length kept)%nat) as [p|];
        cbn [mbind option_bind or_else]; [|done].
      rewrite out_cells_from_lookup. cbn [Nat.add]. by destruct (p.2 !! c).
Qed.

(** C4. For a ledger whose rows have the seven fields with readable
    amounts and whose 555 and 055 blocks have equal length, and for every
    accepted set, reconciliation is a filter on the positional pairs: a pair
    is kept iff the last whitespace-delimited token of the description-2
    field of its 555 row (the row of the cheque's own account, which the
    code calls the debit row) is in the accepted set; the kept pairs are a
    sub-list of the input pairs, in input order. With no kept pair the
    answer is the empty-result failure. Otherwise the output sheet is the
    header row, the 555 rows of the K kept pairs in rows 1..K and their 055
    rows in rows K+1..2K, and holds no other cell: every row of the output
    is a row of an input pair whose recovered number is accepted, and every
    such pair has its two rows. Accepted numbers that no ledger row carries
    change nothing. *)
Theorem reconcile_is_filter (float_repr : spec_float → string)
    (accepted : gset string) (headers : xrow) (rows : list xrow) :
  Forall (fun r => is_Some (r !! 6%nat)) rows →
  Forall amounts_numeric rows →
  length (rows_coded float_repr "555" rows) =
  length (rows_coded float_repr "055" rows) →
  let pairs := combine (rows_coded float_repr "555" rows)
                       (rows_coded float_repr "055" rows) in
  let kept := kept_pairs float_repr accepted rows in
  let K := length kept in
  (∀ p, In p kept ↔ In p pairs ∧ recovered float_repr p.1 ∈ accepted) ∧
  sublist kept pairs ∧
  (kept = [] → final_batch float_repr accepted (headers :: rows) = Fail NoMatches) ∧
  (kept ≠ [] →
   ∃ ws, final_batch float_repr accepted (headers :: rows) = Batch ws ∧
     (∀ c, ws !! (0%nat, c) = (fun h => (h, Bold)) <$> headers !! c) ∧
     (∀ j p, kept !! j = Some p →
        ∀ c, ws !! ((1 + j)%nat, c) = out_cell c <$> p.1 !! c ∧
             ws !! ((1 + K + j)%nat, c) = out_cell c <$> p.2 !! c) ∧
     (∀ r c, is_Some (ws !! (r, c)) →
        r = 0%nat ∨
        ∃ j p, kept !! j = Some p ∧
               In p pairs ∧ recovered float_repr p.1 ∈ accepted ∧
               ((r = 1 + j)%nat ∧ ws !! (r, c) = out_cell c <$> p.1 !! c ∨
                (r = 1 + K + j)%nat ∧ ws !! (r, c) = out_cell c <$> p.2 !! c)) ∧
     (∀ p, In p pairs → recovered float_repr p.1 ∈ accepted →
        ∃ j, (j < K)%nat ∧
             ∀ c, ws !! ((1 + j)%nat, c) = out_cell c <$> p.1 !! c ∧
                  ws !! ((1 + K + j)%nat, c) = out_cell c <$> p.2 !! c)) ∧
  (∀ extra : gset string,
     (∀ r, In r (rows_coded float_repr "555" rows) →
           recovered float_repr r ∉ extra) →
     final_batch float_repr (accepted ∪ extra) (headers :: rows) =
     final_batch float_repr accepted (headers :: rows)).
Proof.
  intros H6 Hnum Hlen pairs kept K.
  pose proof (final_batch_kept float_repr accepted headers rows H6 Hlen) as Hfb.
  destruct (kept_pairs_rows float_repr accepted rows _ Hnum) as [Hk5 Hk0].
  fold kept in Hfb, Hk5, Hk0.
  assert (∀ p, In p kept ↔ In p pairs ∧ recovered float_repr p.1 ∈ accepted) as Hmem.
  { intros p. unfold kept, kept_pairs. rewrite filter_In, bool_decide_eq_true. done. }
  split; [exact Hmem|]. split; [apply sublist_filter_keep|].
  split; [|split].
  - intros E. rewrite Hfb, E. reflexivity.
  - intros Hne.
    assert (map fst kept ≠ []) as Hne' by (by destruct kept).
    pose proof (write_final_blocks headers _ _ Hne' Hk5 Hk0) as Hw.
    eexists. split; [by rewrite Hfb|].
    pose proof (fun r c => write_final_sheet headers kept _ r c Hw Hk5 Hk0) as Hsheet.
    assert (∀ j p, kept !! j = Some p →
              ∀ c, _ !! ((1 + j)%nat, c) = out_cell c <$> p.1 !! c ∧
                   _ !! ((1 + K + j)%nat, c) = out_cell c <$> p.2 !! c) as Hrows
        by (intros j p Hj c; by apply (write_final_lookup headers kept _ j p c Hw)).
    split; [|split; [exact Hrows|split]].
    + intros c. by rewrite Hsheet.
    + intros r c Hsome.
      destruct (decide (r = 0)%nat) as [->|Hr]; [by left|]. right.
      pose proof Hsome as Hcell. rewrite Hsheet in Hcell.
      destruct (decide (r = 0)%nat); [done|].
      destruct (decide (r ≤ length kept)%nat) as [Hk|Hk].
      * destruct (kept !! (r - 1)%nat) as [p|] eqn:Ep;
          [|by destruct Hcell as [? [=]]].
        exists (r - 1)%nat, p. split; [done|].
        assert (In p kept) as Hin by by apply (lookup_In kept (r - 1)).
        apply Hmem in Hin as [Hin Hacc]. split; [done|]. split; [done|].
        left. split; [lia|].
        replace r with (1 + (r - 1))%nat at 1 by lia.
        apply (Hrows _ _ Ep).
      * destruct (kept !! (r - 1 - length kept)%nat) as [p|] eqn:Ep;
          [|by destruct Hcell as [? [=]]].
        exists (r - 1 - length kept)%nat, p. split; [done|].
        assert (In p kept) as Hin by by apply (lookup_In kept (r - 1 - length kept)).
        apply Hmem in Hin as [Hin Hacc]. split; [done|]. split; [done|].
        right. split; [unfold K; lia|].
        replace r with (1 + K + (r - 1 - length kept))%nat at 1 by (unfold K; lia).
        apply (Hrows _ _ Ep).
    + intros p Hp Hacc.
      assert (In p kept) as Hin by (apply Hmem; by split).
      apply In_lookup in Hin as [j Hj]. exists j.
      split; [by apply lookup_lt_Some in Hj|]. by apply Hrows.
  - intros extra Hextra.
    rewrite (final_batch_kept float_repr (accepted ∪ extra) headers rows H6 Hlen).
    by rewrite Hfb, (kept_pairs_extra _ _ _ _ Hextra).
Qed.

Lemma reconcile_is_filter_witness :
  ∃ ws, final_batch no_repr {["222222"]} sample_ledger = Batch ws ∧
        ws !! (1%nat, 6%nat) = Some (VText "CLG EBL 222222", Plain) ∧
        ws !! (2%nat, 6%nat) = Some (VText "EBL 22", Plain) ∧
        ∀ r c, is_Some (ws !! (r, c)) → (r ≤ 2)%nat.
Proof.
  assert (kept_pairs no_repr {["222222"]} sample_rows =
          [(row_555 "222222", row_055 "22")]) as Hk by (vm_compute; reflexivity).
  destruct (reconcile_is_filter no_repr {["222222"]} batch_headers sample_rows)
    as (_ & _ & _ & H & _).
  - repeat constructor; eexists; reflexivity.
  - repeat constructor; intros c v [-> | ->] [= <-]; eexists; reflexivity.
  - reflexivity.
  - destruct H as (ws & Hws & _ & Hrows & Honly & _); [by rewrite Hk|].
    exists ws. split; [exact Hws|].
    rewrite Hk in Hrows, Honly.
    destruct (Hrows 0%nat _ eq_refl 6%nat) as [H1 H2].
    split; [exact H1|]. split; [exact H2|].
    intros r c Hsome. destruct (Honly r c Hsome) as [->|(j & p & Hj & _ & _ & Hr)]; [lia|].
    apply lookup_lt_Some in Hj. cbn [length] in Hj, Hr.
    destruct Hr as [[-> _]|[-> _]]; lia.
Defined.

Lemma write_final_not_structure (headers : xrow) (k5 k0 : list xrow) a b :
  write_final headers k5 k0 ≠ Fail (StructureError a b).
Proof.
  unfold write_final. destruct k5; [done|].
  destruct (write_rows_out _ _ 1) as [[ws r]|]; [|done].
  by destruct (write_rows_out ws k0 r) as [[ws' r']|].
Qed.

(** The structure check of the reconciliation, for a ledger whose rows all
    have the same width (as a sheet reader gives them). *)
Lemma final_batch_structure (float_repr : spec_float → string)
    (accepted : gset string) (headers : xrow) (rows : list xrow) (ncols : nat) :
  Forall (fun r => length r = ncols) rows →
  let n555 := length (rows_coded float_repr "555" rows) in
  let n055 := length (rows_coded float_repr "055" rows) in
  (n555 ≠ n055 →
   final_batch float_repr accepted (headers :: rows) = Fail (StructureError n555 n055)) ∧
  (n555 = n055 →
   ∀ a b, final_batch float_repr accepted (headers :: rows) ≠ Fail (StructureError a b)).
Proof.
  intros Hw n555 n055. unfold final_batch.
  destruct (decide (3 ≤ ncols)%nat) as [Hc|Hc].
  - assert (Forall (fun r : xrow => is_Some (r !! 2%nat)) rows) as H2.
    { eapply Forall_impl; [exact Hw|]. cbv beta. intros r Hr.
      apply lookup_lt_is_Some. lia. }
    rewrite (split_by_trancode_filter _ _ H2). cbn [app]. fold n555 n055.
    split.
    + intros Hne. apply Nat.eqb_neq in Hne. by rewrite Hne.
    + intros -> a b. rewrite Nat.eqb_refl. cbn [negb].
      destruct (keep_loop _ _ _ _ _ _) as [[k5 k0]|]; [|done].
      apply write_final_not_structure.
  - assert (Forall (fun r : xrow => r !! 2%nat = None) rows) as H2.
    { eapply Forall_impl; [exact Hw|]. cbv beta. intros r Hr.
      apply lookup_ge_None. lia. }
    unfold n555, n055. rewrite !(rows_coded_short _ _ _ H2).
    split; [done|]. intros _ a b.
    destruct rows as [|r rows]; [done|].
    by rewrite split_by_trancode_short.
Qed.

Lemma accepted_numbers_nil : accepted_numbers [] = ∅.
Proof. reflexivity. Qed.

Lemma generate_final_batch_accepted (float_repr : spec_float → string)
    (pages : list page) (ledger : list xrow) :
  accepted_numbers (extract_pdf_data pages) ≠ ∅ →
  generate_final_batch float_repr pages ledger =
  final_batch float_repr (accepted_numbers (extract_pdf_data pages)) ledger.
Proof.
  intros Hne. unfold generate_final_batch.
  destruct (extract_pdf_data pages) as [|r l]; [done|].
  by rewrite bool_decide_eq_false_2.
Qed.

(** C5. For a ledger sheet whose rows all have the same number of cells
    (as the sheet reader returns them) and for every set of accepted
    numbers, reconciliation fails with the structure error, with no output
    batch and not as the empty-result failure, exactly when the number of
    555-coded rows and the number of 055-coded rows of the ledger differ; the
    error carries the two counts. A sheet without any row is never answered
    with the structure error. The view reaches the reconciliation once the
    PDF has given at least one accepted cheque number, and its answer is
    then the one described. *)
Theorem structure_error_iff (float_repr : spec_float → string)
    (accepted : gset string) (headers : xrow) (rows : list xrow) (ncols : nat) :
  Forall (fun r => length r = ncols) rows →
  let n555 := length (rows_coded float_repr "555" rows) in
  let n055 := length (rows_coded float_repr "055" rows) in
  let answer := final_batch float_repr accepted (headers :: rows) in
  (n555 ≠ n055 →
   answer = Fail (StructureError n555 n055) ∧
   answer ≠ Fail NoMatches ∧ ∀ ws, answer ≠ Batch ws) ∧
  (n555 = n055 → ∀ a b, answer ≠ Fail (StructureError a b)) ∧
  (∀ a b, final_batch float_repr accepted [] ≠ Fail (StructureError a b)) ∧
  (∀ pages, accepted_numbers (extract_pdf_data pages) = accepted → accepted ≠ ∅ →
     generate_final_batch float_repr pages (headers :: rows) = answer).
Proof.
  intros Hw n555 n055 answer. unfold answer.
  destruct (final_batch_structure float_repr accepted headers rows ncols Hw)
    as [Hdiff Hsame].
  split; [|split; [|split]].
  - intros Hne. rewrite (Hdiff Hne). repeat split; done.
  - exact Hsame.
  - done.
  - intros pages <- Hacc. by apply generate_final_batch_accepted.
Qed.

Lemma structure_error_iff_witness :
  final_batch no_repr {["1234567"]} (batch_headers :: lopsided_rows) =
  Fail (StructureError 1 0) ∧
  generate_final_batch no_repr [accepted_page] (batch_headers :: lopsided_rows) =
  Fail (StructureError 1 0).
Proof.
  assert (accepted_numbers (extract_pdf_data [accepted_page]) = {["1234567"]}) as Hacc.
  { assert (extract_pdf_data [accepted_page] =
            [mk_cheque "98765432109876" (PyFloat.of_Z 50000) "CITIZENS"
                       "12345678" "1234567" "255" "ACCEPTED"]) as ->
        by (vm_compute; reflexivity).
    unfold accepted_numbers. cbn [fold_left].
    change (is_accepted _) with true. cbv iota.
    change (strip (cheque_number _)) with "1234567".
    apply set_eq. intros x. rewrite elem_of_union. split.
    - intros [H|H]; [by apply not_elem_of_empty in H|done].
    - by right. }
  destruct (structure_error_iff no_repr {["1234567"]} batch_headers lopsided_rows 7)
    as (H & _ & _ & Hview).
  - repeat constructor.
  - destruct H as [H _]; [discriminate|].
    split; [exact H|]. rewrite (Hview [accepted_page] Hacc); [exact H|].
    intros E. apply (not_elem_of_empty (C := gset string) "1234567").
    rewrite <- E. by apply elem_of_singleton.
Defined.

(** The view tests the PDF before it opens the ledger: with a PDF whose
    only cheque was rejected, a ledger with one 555 row and no 055 row is
    answered with the failure for a PDF without accepted cheques, and with a
    PDF without any record with the failure for a PDF without data. *)
Example pdf_tested_before_ledger :
  generate_final_batch no_repr [rejected_page] (batch_headers :: lopsided_rows) =
  Fail NoAcceptedInPdf ∧
  generate_final_batch no_repr [] (batch_headers :: lopsided_rows) =
  Fail NoDataExtracted.
Proof. split; vm_compute; reflexivity. Qed.

(** ** Extraction *)

Lemma first_map_Some {A B} (f : A → option B) (l : list A) y :
  first_map f l = Some y → ∃ x, In x l ∧ f x = Some y.
Proof.
  induction l as [|x l IH]; simpl; [done|].
  destruct (f x) as [z|] eqn:E.
  - intros [= ->]. exists x. auto.
  - intros H. destruct (IH H) as (x' & Hin & Hx'). exists x'. auto.
Qed.

Lemma insert_desc_In {A} (gt : A → A → bool) (x y : A) (l : list A) :
  In y (insert_desc gt x l) → y = x ∨ In y l.
Proof.
  induction l as [|z l IH]; simpl.
  - intros [<-|[]]. by left.
  - destruct (gt z x); simpl.
    + intros [<-|H]; [right; by left|]. destruct (IH H); auto.
    + intros [<-|[<-|H]]; auto.
Qed.

Lemma sort_desc_In {A} (gt : A → A → bool) (y : A) (l : list A) :
  In y (sort_desc gt l) → In y l.
Proof.
  unfold sort_desc. induction l as [|x l IH]; simpl; [done|].
  intros H. destruct (insert_desc_In _ _ _ _ H) as [->|H']; auto.
Qed.

Lemma all_c_In (p : ascii → bool) (s : string) :
  all_c p s = true → ∀ c, In c (list_ascii_of_string s) → p c = true.
Proof.
  induction s as [|a s IH]; simpl; [done|].
  intros [Ha Hs]%andb_true_iff c [<-|Hc]; auto.
Qed.

Lemma isdigit_c_range (c : ascii) :
  isdigit_c c = true → (48 ≤ nat_of_ascii c ≤ 57)%nat.
Proof.
  unfold isdigit_c, between, code.
  intros [H1 H2]%andb_true_iff. apply Nat.leb_le in H1, H2. lia.
Qed.

Lemma digits_in_range (lo hi : nat) (s : string) :
  isdigit s && len_in lo hi s = true → digit_string lo hi s.
Proof.
  unfold isdigit, len_in.
  intros [[_ Hd]%andb_true_iff [H1 H2]%andb_true_iff]%andb_true_iff.
  apply Nat.leb_le in H1, H2. split; [lia|].
  intros c Hc. apply isdigit_c_range. by apply (all_c_In _ _ Hd).
Qed.

Lemma account_candidate_ok (ic : nat * cell) n i s :
  In (n, i, s) (account_candidate ic) → is_account s = true.
Proof.
  unfold account_candidate. destruct (text ic.2) as [c|]; [|done].
  destruct (is_account (strip c)) eqn:E; [|done].
  intros [[= _ _ <-]|[]]. exact E.
Qed.

Lemma extract_bfd_account_ok (row : list cell) s :
  _extract_bfd_account row = Some s → is_account s = true.
Proof.
  unfold _extract_bfd_account.
  assert (∀ t, match text_at row 9 with
               | Some c => if is_account (strip c) then Some (strip c) else None
               | None => None
               end = Some t → is_account t = true) as Hprim.
  { intros t. destruct (text_at row 9) as [c|]; [|done].
    destruct (is_account (strip c)) eqn:E; [|done]. by intros [= <-]. }
  destruct (match text_at row 9 with Some _ => _ | None => _ end) as [t|].
  - intros [= <-]. by apply Hprim.
  - destruct (sort_desc _ _) as [|[[n i] t] l] eqn:E; [done|].
    intros [= <-].
    assert (In (n, i, t) (sort_desc
              (fun a b => key_gt (account_key a) (account_key b))
              (flat_map account_candidate (enumerate row)))) as Hin
        by (rewrite E; by left).
    apply sort_desc_In, in_flat_map in Hin. destruct Hin as (ic & _ & Hic).
    by apply (account_candidate_ok ic n i).
Qed.

Lemma extract_cheque_number_ok (row : list cell) s :
  _extract_cheque_number row = Some s → is_cheque_no s = true.
Proof.
  unfold _extract_cheque_number.
  destruct (text_at row 6) as [c|].
  - destruct (is_cheque_no (strip c)) eqn:E; [by intros [= <-]|].
    intros (x & _ & Hx)%first_map_Some. destruct (text x) as [c'|]; [|done].
    destruct (is_cheque_no (strip c')) eqn:E'; [|done]. by injection Hx as <-.
  - intros (x & _ & Hx)%first_map_Some. destruct (text x) as [c'|]; [|done].
    destruct (is_cheque_no (strip c')) eqn:E'; [|done]. by injection Hx as <-.
Qed.

Lemma in_range_bounds (amt : spec_float) :
  in_range amt = true → float_lt PyFloat.zero amt ∧ float_lt amt hundred_million.
Proof.
  unfold in_range, PyFloat.ltb, SFltb, float_lt.
  intros [H1 H2]%andb_true_iff.
  destruct (SFcompare PyFloat.zero amt) as [[]|]; try done.
  destruct (SFcompare amt hundred_million) as [[]|]; done.
Qed.

Lemma gtb_zero (amt : spec_float) :
  PyFloat.gtb amt PyFloat.zero = true → float_lt PyFloat.zero amt.
Proof.
  unfold PyFloat.gtb, SFltb, float_lt.
  by destruct (SFcompare PyFloat.zero amt) as [[]|].
Qed.

(** What the [try] block on the fixed amount column accepts. *)
Lemma amount_primary_ok (c : string) (amt : spec_float) :
  amount_primary c = Some amt →
  (has_char "," (strip c) = true ∨ has_char "." (strip c) = true
   ∨ isdigit (strip c) = true) ∧
  PyFloat.of_string (remove_char "," (strip c)) = Some amt ∧
  float_lt PyFloat.zero amt.
Proof.
  unfold amount_primary.
  destruct (has_char "," (strip c) || has_char "." (strip c) || isdigit (strip c))
    eqn:Eshape; [|done].
  destruct (amount_shape _); [|done].
  destruct (PyFloat.of_string _) as [a|]; [|done].
  destruct (PyFloat.gtb a PyFloat.zero) eqn:Epos; [|done].
  intros [= <-]. split; [|split; [done|by apply gtb_zero]].
  apply orb_true_iff in Eshape. destruct Eshape as [E|E]; [|auto].
  apply orb_true_iff in E. destruct E; auto.
Qed.

Lemma amount_scan_ok (c : cell) (amt : spec_float) :
  amount_scan c = Some amt → in_range amt = true.
Proof.
  unfold amount_scan. destruct (text c) as [t|]; [|done].
  destruct (has_char "," (strip t) || has_char "." (strip t)).
  - destruct (amount_shape _); [|done].
    destruct (PyFloat.of_string _) as [a|]; [|done].
    destruct (in_range a) eqn:E; [|done]. by intros [= <-].
  - destruct (isdigit (strip t) && _); [|done].
    destruct (PyFloat.of_string _) as [a|]; [|done].
    destruct (in_range a) eqn:E; [|done]. by intros [= <-].
Qed.

Lemma extract_amount_ok (row : list cell) (amt : spec_float) :
  _extract_amount row = Some amt →
  from_primary_column row amt ∨ in_range amt = true.
Proof.
  unfold _extract_amount, from_primary_column.
  destruct (text_at row 13) as [c|].
  - destruct (amount_primary c) as [a|] eqn:E.
    + intros [= <-]. left. eauto.
    + intros (x & _ & Hx)%first_map_Some. right. by apply (amount_scan_ok x).
  - intros (x & _ & Hx)%first_map_Some. right. by apply (amount_scan_ok x).
Qed.

Lemma extract_amount_positive (row : list cell) (amt : spec_float) :
  _extract_amount row = Some amt → float_lt PyFloat.zero amt.
Proof.
  intros [(c & _ & Hc)|H]%extract_amount_ok.
  - by apply amount_primary_ok in Hc as (_ & _ & ?).
  - by apply in_range_bounds in H as [? _].
Qed.

Lemma extract_bfd_account_from_parts_ok (parts : list string) s :
  _extract_bfd_account_from_parts parts = Some s → is_account s = true.
Proof.
  unfold _extract_bfd_account_from_parts.
  destruct (sort_desc _ _) as [|[n t] l] eqn:E; [done|]. intros [= <-].
  assert (In (n, t) (sort_desc len_str_gt
            (flat_map (fun p => if is_account p then [(String.length p, p)] else [])
                      parts))) as Hin by (rewrite E; by left).
  apply sort_desc_In, in_flat_map in Hin. destruct Hin as (p & _ & Hp).
  destruct (is_account p) eqn:Ep; [|done].
  destruct Hp as [[= _ <-]|[]]. exact Ep.
Qed.

Lemma extract_cheque_number_from_parts_ok (parts : list string) s :
  _extract_cheque_number_from_parts parts = Some s → is_cheque_no s = true.
Proof.
  unfold _extract_cheque_number_from_parts.
  intros (p & _ & Hp)%first_map_Some.
  destruct (is_cheque_no p) eqn:E; [|done]. by injection Hp as <-.
Qed.

Lemma extract_amount_from_parts_ok (parts : list string) (amt : spec_float) :
  _extract_amount_from_parts parts = Some amt → in_range amt = true.
Proof.
  unfold _extract_amount_from_parts.
  destruct (first_map amount_part_sep (rev parts)) as [a|] eqn:E.
  - intros [= <-]. apply first_map_Some in E as (p & _ & Hp).
    unfold amount_part_sep in Hp.
    destruct (has_char "," p || has_char "." p); [|done].
    destruct (amount_shape _); [|done].
    destruct (PyFloat.of_string _) as [x|]; [|done].
    destruct (in_range x) eqn:Ex; [|done]. by injection Hp as <-.
  - intros (p & _ & Hp)%first_map_Some. unfold amount_part_bare in Hp.
    destruct (isdigit p && _); [|done].
    destruct (PyFloat.of_string _) as [x|]; [|done].
    destruct (in_range x) eqn:Ex; [|done]. by injection Hp as <-.
Qed.

(** The test on the three mandatory fields. *)
Lemma make_record_Some bfd amount number bank acc branch rsn (record : cheque) :
  make_record bfd amount number bank acc branch rsn = Some record →
  bfd = Some (bfd_account record) ∧
  amount = Some (cheque_amount record) ∧
  number = Some (cheque_number record).
Proof.
  unfold make_record.
  destruct bfd as [b|], amount as [a|], number as [n|]; try done.
  destruct (nonempty b && PyFloat.truthy a && nonempty n); [|done].
  by intros [= <-].
Qed.

Lemma make_record_None bfd amount number bank acc branch rsn :
  bfd = None ∨ amount = None ∨ number = None →
  make_record bfd amount number bank acc branch rsn = None.
Proof.
  unfold make_record. intros [-> | [-> | ->]]; [done| |].
  - by destruct bfd.
  - by destruct bfd, amount.
Qed.

Lemma table_row_fields (fixes : list (string * string)) (row : list cell)
    (record : cheque) :
  table_row fixes row = Some record →
  _extract_bfd_account row = Some (bfd_account record) ∧
  _extract_amount row = Some (cheque_amount record) ∧
  _extract_cheque_number row = Some (cheque_number record).
Proof.
  unfold table_row.
  destruct (length row <? 9)%nat; [done|].
  destruct (mem _ header_labels); [done|].
  destruct (contains "TOTAL" _ || contains "END OF REPORT" _); [done|].
  destruct (_extract_bank_info row fixes) as [bank acc].
  apply make_record_Some.
Qed.

Lemma table_row_gate (fixes : list (string * string)) (row : list cell) :
  _extract_bfd_account row = None ∨ _extract_amount row = None
  ∨ _extract_cheque_number row = None →
  table_row fixes row = None.
Proof.
  intros H. unfold table_row.
  destruct (length row <? 9)%nat; [done|].
  destruct (mem _ header_labels); [done|].
  destruct (contains "TOTAL" _ || contains "END OF REPORT" _); [done|].
  destruct (_extract_bank_info row fixes) as [bank acc].
  by apply make_record_None.
Qed.

Lemma text_line_fields (fixes : list (string * string)) (lines : list string)
    (idx : nat) (line : string) (record : cheque) :
  text_line fixes lines idx line = Some record →
  _extract_bfd_account_from_parts (split line) = Some (bfd_account record) ∧
  _extract_amount_from_parts (split line) = Some (cheque_amount record) ∧
  _extract_cheque_number_from_parts (split line) = Some (cheque_number record).
Proof.
  unfold text_line.
  destruct (length (split line) <? 9)%nat; [done|].
  destruct (negb _); [done|].
  destruct (_extract_bank_info_from_parts _ _ _ _) as [bank acc].
  apply make_record_Some.
Qed.

Lemma text_line_gate (fixes : list (string * string)) (lines : list string)
    (idx : nat) (line : string) :
  _extract_bfd_account_from_parts (split line) = None
  ∨ _extract_amount_from_parts (split line) = None
  ∨ _extract_cheque_number_from_parts (split line) = None →
  text_line fixes lines idx line = None.
Proof.
  intros H. unfold text_line.
  destruct (length (split line) <? 9)%nat; [done|].
  destruct (negb _); [done|].
  destruct (_extract_bank_info_from_parts _ _ _ _) as [bank acc].
  by apply make_record_None.
Qed.

Lemma extract_from_table_In (tables : list (list (list cell)))
    (fixes : list (string * string)) (record : cheque) :
  In record (_extract_from_table tables fixes) →
  ∃ table row, In table tables ∧ In row table ∧ table_row fixes row = Some record.
Proof.
  unfold _extract_from_table.
  intros (table & Ht & (row & Hr & Hrec)%in_flat_map)%in_flat_map.
  exists table, row. repeat split; [done|done|].
  destruct (table_row fixes row) as [r|]; [|done].
  destruct Hrec as [->|[]]. done.
Qed.

Lemma extract_from_text_In (page_text : option string)
    (fixes : list (string * string)) (record : cheque) :
  In record (_extract_from_text page_text fixes) →
  ∃ lines idx line, text_line fixes lines idx line = Some record.
Proof.
  unfold _extract_from_text. destruct (text page_text) as [t|]; [|done].
  intros ([idx line] & _ & Hrec)%in_flat_map.
  exists (split_on newline t), idx, line. cbn [fst snd] in Hrec.
  destruct (text_line _ _ _ _) as [r|]; [|done].
  destruct Hrec as [->|[]]. done.
Qed.


(** C2 (as the code has it). Every cheque record emitted by table-mode or
    text-mode extraction has a bfd_account of 12 to 17 characters and a
    cheque_number of 6 to 10 characters that [str.isdigit] accepts, and a
    cheque_amount strictly above 0; when the account, or the number, is
    ASCII text, it is made of the decimal digits 0 to 9, that is, it
    matches the pattern of 12 to 17, or 6 to 10, digits. The amount is
    strictly below 100,000,000 in text mode, and in table mode unless it
    was read from the fixed amount column of its row; a row or line for
    which any of the three mandatory extractors finds nothing produces no
    record. *)
Theorem extraction_invariant (fixes : list (string * string)) :
  (∀ tables record, In record (_extract_from_table tables fixes) →
     is_account (bfd_account record) = true ∧
     is_cheque_no (cheque_number record) = true ∧
     (is_ascii (bfd_account record) = true →
      digit_string 12 17 (bfd_account record)) ∧
     (is_ascii (cheque_number record) = true →
      digit_string 6 10 (cheque_number record)) ∧
     float_lt PyFloat.zero (cheque_amount record) ∧
     (float_lt (cheque_amount record) hundred_million ∨
      ∃ table row, In table tables ∧ In row table ∧
                   from_primary_column row (cheque_amount record))) ∧
  (∀ page_text record, In record (_extract_from_text page_text fixes) →
     is_account (bfd_account record) = true ∧
     is_cheque_no (cheque_number record) = true ∧
     (is_ascii (bfd_account record) = true →
      digit_string 12 17 (bfd_account record)) ∧
     (is_ascii (cheque_number record) = true →
      digit_string 6 10 (cheque_number record)) ∧
     float_lt PyFloat.zero (cheque_amount record) ∧
     float_lt (cheque_amount record) hundred_million) ∧
  (∀ row, _extract_bfd_account row = None ∨ _extract_amount row = None
          ∨ _extract_cheque_number row = None →
          table_row fixes row = None) ∧
  (∀ lines idx line,
     _extract_bfd_account_from_parts (split line) = None
     ∨ _extract_amount_from_parts (split line) = None
     ∨ _extract_cheque_number_from_parts (split line) = None →
     text_line fixes lines idx line = None).
Proof.
  split; [|split; [|split]].
  - intros tables record (table & row & Ht & Hr & Hrow)%extract_from_table_In.
    apply table_row_fields in Hrow as (Hb & Ha & Hn).
    pose proof (extract_bfd_account_ok row _ Hb) as Hacc.
    pose proof (extract_cheque_number_ok row _ Hn) as Hnum.
    split; [exact Hacc|]. split; [exact Hnum|].
    split; [intros _; by apply digits_in_range|].
    split; [intros _; by apply digits_in_range|].
    split; [by apply (extract_amount_positive row)|].
    destruct (extract_amount_ok _ _ Ha) as [Hp|Hin].
    + right. eauto.
    + left. by apply in_range_bounds in Hin as [_ ?].
  - intros page_text record (lines & idx & line & Hline)%extract_from_text_In.
    apply text_line_fields in Hline as (Hb & Ha & Hn).
    apply extract_amount_from_parts_ok, in_range_bounds in Ha as [Hpos Hlt].
    pose proof (extract_bfd_account_from_parts_ok (split line) _ Hb) as Hacc.
    pose proof (extract_cheque_number_from_parts_ok (split line) _ Hn) as Hnum.
    split; [exact Hacc|]. split; [exact Hnum|].
    split; [intros _; by apply digits_in_range|].
    split; [intros _; by apply digits_in_range|].
    done.
  - apply table_row_gate.
  - apply text_line_gate.
Qed.

Lemma extraction_invariant_witness :
  is_account (bfd_account report_record) = true ∧
  is_cheque_no (cheque_number report_record) = true ∧
  digit_string 12 17 (bfd_account report_record) ∧
  digit_string 6 10 (cheque_number report_record) ∧
  float_lt PyFloat.zero (cheque_amount report_record).
Proof.
  destruct (extraction_invariant BANK_NAME_FIXES) as [Htable _].
  destruct (Htable [[report_row "50,000.00" "INSUFFICIENT FUNDS"]] report_record)
    as (H1 & H2 & H3 & H4 & H5 & _).
  - vm_compute. left. reflexivity.
  - split; [exact H1|]. split; [exact H2|].
    split; [apply H3; reflexivity|]. split; [apply H4; reflexivity|exact H5].
Defined.

(** C2 as stated fails: a table row whose fixed amount column reads
    200,000,000.00 yields a record whose amount is 200000000.0, which is not
    below 100,000,000. *)
Lemma extraction_invariant_counterexample :
  ∃ record,
    In record (_extract_from_table [[report_row "200,000,000.00" "ACCEPTED"]]
                                   BANK_NAME_FIXES) ∧
    cheque_amount record = PyFloat.of_Z 200000000 ∧
    ¬ float_lt (cheque_amount record) hundred_million.
Proof.
  exists (mk_cheque "98765432109876" (PyFloat.of_Z 200000000) "CITIZENS"
                    "12345678" "1234567" "255" "ACCEPTED").
  split; [vm_compute; left; reflexivity|]. split; [reflexivity|].
  vm_compute. discriminate.
Qed.

(** C7 (as the code has it). The amount extractor accepts the value of the
    fixed amount column only if, once stripped, it contains a comma or a
    decimal point or consists of digits only; the value it then returns is
    the float read from that text with its commas removed, and is strictly
    positive. *)
Theorem primary_amount_accepts (row : list cell) (c : string) (amt : spec_float) :
  text_at row 13 = Some c →
  amount_primary c = Some amt →
  _extract_amount row = Some amt ∧
  (has_char "," (strip c) = true ∨ has_char "." (strip c) = true
   ∨ isdigit (strip c) = true) ∧
  PyFloat.of_string (remove_char "," (strip c)) = Some amt ∧
  float_lt PyFloat.zero amt.
Proof.
  intros Hc Hamt. split; [|by apply amount_primary_ok].
  unfold _extract_amount. by rewrite Hc, Hamt.
Qed.

Lemma primary_amount_accepts_witness :
  _extract_amount (report_row "50,000.00" "ACCEPTED") = Some (PyFloat.of_Z 50000) ∧
  float_lt PyFloat.zero (PyFloat.of_Z 50000).
Proof.
  destruct (primary_amount_accepts (report_row "50,000.00" "ACCEPTED")
              "50,000.00" (PyFloat.of_Z 50000)) as (H1 & _ & _ & H2).
  - reflexivity.
  - vm_compute. reflexivity.
  - split; [exact H1 | exact H2].
Defined.

(** C7 as stated fails on both counts: the fixed amount column 5000, with
    neither a comma nor a decimal point, is accepted (the scan of the other
    cells is not reached: it would return the cheque number), and the fixed
    amount column 200,000,000.00 is returned as 200000000.0, which is not
    below 100,000,000. *)
Lemma primary_amount_counterexample :
  (text_at (report_row "5000" "ACCEPTED") 13 = Some "5000" ∧
   has_char "," "5000" = false ∧ has_char "." "5000" = false ∧
   amount_primary "5000" = Some (PyFloat.of_Z 5000) ∧
   _extract_amount (report_row "5000" "ACCEPTED") = Some (PyFloat.of_Z 5000)) ∧
  (text_at (report_row "200,000,000.00" "ACCEPTED") 13 = Some "200,000,000.00" ∧
   amount_primary "200,000,000.00" = Some (PyFloat.of_Z 200000000) ∧
   _extract_amount (report_row "200,000,000.00" "ACCEPTED") =
     Some (PyFloat.of_Z 200000000) ∧
   ¬ float_lt (PyFloat.of_Z 200000000) hundred_million).
Proof.
  repeat split; try (vm_compute; reflexivity).
  vm_compute. discriminate.
Qed.

(** ** The scenarios of the specification *)

(** The report row with amount 50,000.00 and reason INSUFFICIENT FUNDS
    yields the record with the bank name CITIZE read as CITIZENS. *)
Example scenario_table_row :
  table_row BANK_NAME_FIXES (report_row "50,000.00" "INSUFFICIENT FUNDS") =
  Some report_record.
Proof. vm_compute. reflexivity. Qed.

(** Of three records with the reasons ACCEPTED, INSUFFICIENT FUNDS and the
    empty text, the accepted filter keeps the first only. *)
Example scenario_accepted_filter :
  let with_reason r :=
    {| bfd_account := "98765432109876"; cheque_amount := PyFloat.of_Z 50000;
       pay_bank_name := "CLG"; pay_account := EmptyString; cheque_number := "1234567";
       branch_code := "255"; reason := r |} in
  filter_accepted_cheques
    [with_reason "ACCEPTED"; with_reason "INSUFFICIENT FUNDS"; with_reason EmptyString] =
  [with_reason "ACCEPTED"].
Proof. vm_compute. reflexivity. Qed.

(** With the cheque numbers 111111, 222222 and 333333 in the ledger and
    222222 alone accepted, one pair is kept. *)
Example scenario_reconciliation :
  kept_pairs no_repr {["222222"]} sample_rows = [(row_555 "222222", row_055 "22")].
Proof. vm_compute. reflexivity. Qed.

(** A line of text with the same fields is read as the same record. *)
Example scenario_text_line :
  _extract_from_text
    (Some "1 2 3 255 1234567 98765432109876 CITIZE 12345678 50,000.00 INSUFFICIENT FUNDS")
    BANK_NAME_FIXES = [report_record].
Proof. vm_compute. reflexivity. Qed.

(** * Further properties of the code *)

(** ** Accepted cheque numbers *)

Lemma accepted_numbers_fold (data : list cheque) :
  ∀ (acc : gset string) c,
    c ∈ fold_left (fun acc record =>
                     if is_accepted record
                     then acc ∪ {[ strip (cheque_number record) ]}
                     else acc) data acc ↔
    c ∈ acc ∨ ∃ record, In record data ∧ is_accepted record = true
                        ∧ strip (cheque_number record) = c.
Proof.
  induction data as [|r data IH]; intros acc c; simpl.
  - split; [by left|]. intros [H|(? & [] & _)]. done.
  - rewrite IH. destruct (is_accepted r) eqn:E.
    + rewrite elem_of_union, elem_of_singleton. split.
      * intros [[H|H]|(r' & Hin & Hacc & Hc)]; [by left| |].
        -- right. exists r. auto.
        -- right. exists r'. auto.
      * intros [H|(r' & [<-|Hin] & Hacc & Hc)]; [left; by left| |].
        -- left. by right.
        -- right. exists r'. auto.
    + split.
      * intros [H|(r' & Hin & Hacc & Hc)]; [by left|]. right. exists r'. auto.
      * intros [H|(r' & [<-|Hin] & Hacc & Hc)]; [by left|congruence|].
        right. exists r'. auto.
Qed.

(** X1. The set of accepted cheque numbers built by [generate_final_batch]
    holds exactly the stripped cheque numbers of the records whose reason
    contains ACCEPTED; it is empty exactly when the accepted filter keeps no
    record. *)
Theorem accepted_numbers_spec (data : list cheque) :
  (∀ c, c ∈ accepted_numbers data ↔
        ∃ record, In record data ∧ is_accepted record = true
                  ∧ strip (cheque_number record) = c) ∧
  (accepted_numbers data = ∅ ↔ filter_accepted_cheques data = []).
Proof.
  assert (∀ c, c ∈ accepted_numbers data ↔
        ∃ record, In record data ∧ is_accepted record = true
                  ∧ strip (cheque_number record) = c) as Hmem.
  { intros c. unfold accepted_numbers. rewrite accepted_numbers_fold.
    split; [intros [H|H]; [by apply not_elem_of_empty in H|done]|by right]. }
  split; [exact Hmem|]. split.
  - intros Hempty. unfold filter_accepted_cheques.
    destruct (List.filter is_accepted data) as [|r l] eqn:E; [done|].
    assert (In r (List.filter is_accepted data)) as Hin by (rewrite E; by left).
    apply filter_In in Hin as [Hin Hacc].
    exfalso. apply (not_elem_of_empty (C := gset string) (strip (cheque_number r))).
    rewrite <- Hempty. apply Hmem. eauto.
  - intros Hnil. apply set_eq. intros c. rewrite Hmem. split.
    + intros (r & Hin & Hacc & _).
      assert (In r (filter_accepted_cheques data)) as Hr
          by (apply filter_In; auto).
      rewrite Hnil in Hr. destruct Hr.
    + intros H. by apply not_elem_of_empty in H.
Qed.

(** ** The answers of the commission view *)

(** X3. The commission batch generator answers in exactly four ways: the
    no-data failure when there is no extracted record; the no-eligible
    failure when records exist but none has an amount strictly above the
    threshold; a server error when an eligible record has an infinite
    amount (its conversion to an integer for the charge text raises); and
    a batch in every other case. *)
Theorem commission_batch_answers (float_repr : spec_float → string)
    (data : list cheque) (acct br : string) (amt thr : spec_float) :
  let eligible := commission_eligible data thr in
  let answer := commission_batch float_repr data acct br amt thr in
  (answer = Fail NoDataExtracted ↔ data = []) ∧
  (answer = Fail NoEligible ↔ data ≠ [] ∧ eligible = []) ∧
  (answer = Fail Crashed ↔
   ∃ record, In record eligible ∧ ¬ finite (cheque_amount record)) ∧
  ((∃ ws, answer = Batch ws) ↔
   eligible ≠ [] ∧ Forall (fun r => finite (cheque_amount r)) eligible).
Proof.
  intros eligible answer.
  assert (data = [] → eligible = []) as Hnil by (by intros ->).
  destruct (commission_batch_cases float_repr data acct br amt thr)
    as [[Hd Ha]|[(Hd & He & Ha)|[(He & Hinf & Ha)|(He & Hfin & ws & Ha)]]];
    fold eligible answer in Hd, Ha || fold eligible answer in Ha;
    try fold eligible in He; try fold eligible in Hinf; try fold eligible in Hfin;
    rewrite Ha.
  - pose proof (Hnil Hd) as He. split; [|split; [|split]].
    + done.
    + split; [done|]. by intros [? _].
    + split; [done|]. intros (r & Hin & _). rewrite He in Hin. destruct Hin.
    + split; [by intros [? [=]]|]. by intros [? _].
  - split; [|split; [|split]].
    + split; [done|]. intros Hd'. exfalso. by apply Hd.
    + done.
    + split; [done|]. intros (r & Hin & _). rewrite He in Hin. destruct Hin.
    + split; [by intros [? [=]]|]. by intros [? _].
  - split; [|split; [|split]].
    + split; [done|]. intros Hd'. exfalso. by apply He, Hnil.
    + split; [done|]. intros [_ He']. exfalso. by apply He.
    + done.
    + split; [by intros [? [=]]|]. intros [_ Hfin].
      by destruct (finite_all_not_some _ Hfin Hinf).
  - split; [|split; [|split]].
    + split; [done|]. intros Hd'. exfalso. by apply He, Hnil.
    + split; [done|]. intros [_ He']. exfalso. by apply He.
    + split; [done|]. intros Hinf. by destruct (finite_all_not_some _ Hfin Hinf).
    + split; [|eauto]. done.
Qed.


(** An amount of more than 308 digits in the fixed amount column is read as
    an infinity, and the commission view then answers with a server
    error. *)
Example commission_crash_on_huge_amount :
  map cheque_amount (extract_pdf_data [huge_amount_page]) = [S754_infinity false] ∧
  generate_commission_batch no_repr [huge_amount_page] "9505062601" "255"
                            (PyFloat.of_Z 15) (PyFloat.of_Z 200000) = Fail Crashed.
Proof. split; vm_compute; reflexivity. Qed.

(** ** The optional fields of a record *)

Lemma make_record_optional bfd amount number bank acc branch rsn (record : cheque) :
  make_record bfd amount number bank acc branch rsn = Some record →
  pay_bank_name record = or_default bank "CLG" ∧
  pay_account record = or_default acc EmptyString ∧
  branch_code record = or_default branch "255" ∧
  reason record = or_default rsn EmptyString.
Proof.
  unfold make_record.
  destruct bfd as [b|], amount as [a|], number as [n|]; try done.
  destruct (nonempty b && PyFloat.truthy a && nonempty n); [|done].
  by intros [= <-].
Qed.

Lemma or_default_nonempty (x : option string) (d : string) :
  nonempty d = true → nonempty (or_default x d) = true.
Proof.
  intros Hd. unfold or_default. destruct x as [s|]; [|done].
  by destruct (nonempty s) eqn:E.
Qed.

Lemma or_default_cases (x : option string) (d : string) :
  or_default x d = d ∨ x = Some (or_default x d).
Proof.
  unfold or_default. destruct x as [s|]; [|by left].
  destruct (nonempty s); [by right|by left].
Qed.

Lemma is_pay_account_digits (s : string) :
  is_pay_account s = true → digit_string 8 (String.length s) s.
Proof.
  unfold is_pay_account. intros H. apply digits_in_range.
  apply andb_true_iff in H as [Hd Hl]. unfold len_in.
  by rewrite Hd, Hl, Nat.leb_refl.
Qed.

Lemma extract_branch_code_ok (row : list cell) s :
  _extract_branch_code row = Some s →
  isdigit s && len_in 3 3 s = true ∧
  (s = "201" → ∃ c, text_at row 7 = Some c ∧ strip c = "201").
Proof.
  unfold _extract_branch_code.
  assert (∀ t, isdigit t && (String.length t =? 3)%nat = true →
               isdigit t && len_in 3 3 t = true) as Hlen.
  { intros t [Hd Hl]%andb_true_iff. apply Nat.eqb_eq in Hl.
    unfold len_in. by rewrite Hd, Hl. }
  assert (∀ y, first_map
      (fun c => match text c with
                | Some c => if isdigit (strip c) && (String.length (strip c) =? 3)%nat
                               && negb (String.eqb (strip c) "201")
                            then Some (strip c) else None
                | None => None
                end) row = Some y →
      isdigit y && len_in 3 3 y = true ∧ y ≠ "201") as Hscan.
  { intros y (x & _ & Hx)%first_map_Some. destruct (text x) as [c|]; [|done].
    destruct (isdigit (strip c) && (String.length (strip c) =? 3)%nat
              && negb (String.eqb (strip c) "201")) eqn:E; [|done].
    injection Hx as <-. apply andb_true_iff in E as [E1 E2].
    split; [by apply Hlen|]. apply negb_true_iff, String.eqb_neq in E2. done. }
  destruct (text_at row 7) as [c|].
  - destruct (isdigit (strip c) && (String.length (strip c) =? 3)%nat) eqn:E.
    + intros [= <-]. split; [by apply Hlen|]. eauto.
    + intros [H1 H2]%Hscan. done.
  - intros [H1 H2]%Hscan. done.
Qed.

Lemma extract_branch_code_from_parts_ok (parts : list string) s :
  _extract_branch_code_from_parts parts = Some s →
  isdigit s && len_in 3 3 s = true ∧ s ≠ "201".
Proof.
  unfold _extract_branch_code_from_parts.
  intros (p & _ & Hp)%first_map_Some.
  destruct (isdigit p && (String.length p =? 3)%nat && negb (String.eqb p "201"))
    eqn:E; [|done].
  injection Hp as <-. apply andb_true_iff in E as [E1 E2].
  apply andb_true_iff in E1 as [Hd Hl]. apply Nat.eqb_eq in Hl.
  split; [unfold len_in; by rewrite Hd, Hl|].
  by apply negb_true_iff, String.eqb_neq in E2.
Qed.

Lemma bank_scan_account (row : list cell) (fixes : list (string * string))
    (acc0 : option string) ic name acc a :
  (∀ a0, acc0 = Some a0 → is_pay_account a0 = true) →
  bank_scan row fixes acc0 ic = Some (name, acc) →
  acc = Some a → is_pay_account a = true.
Proof.
  intros H0. unfold bank_scan.
  destruct (text ic.2) as [c|]; [|done].
  destruct (isdigit (strip c) && len_in 3 4 (strip c) && _); [|done].
  destruct (text_at row (ic.1 + 1)) as [c1|]; [|done].
  destruct (nonempty (strip c1) && _); [|done].
  intros [= _ <-].
  destruct (text_at row (ic.1 + 2)) as [c2|]; [|apply H0].
  destruct (is_pay_account (strip c2)) eqn:E; [|apply H0].
  by intros [= <-].
Qed.

Lemma extract_bank_info_account (row : list cell) (fixes : list (string * string))
    bank acc a :
  _extract_bank_info row fixes = (bank, acc) →
  acc = Some a → is_pay_account a = true.
Proof.
  unfold _extract_bank_info.
  set (acc0 := match text_at row 12 with
               | Some c => if is_pay_account (strip c) then Some (strip c) else None
               | None => None
               end).
  assert (∀ a0, acc0 = Some a0 → is_pay_account a0 = true) as H0.
  { intros a0. unfold acc0. destruct (text_at row 12) as [c|]; [|done].
    destruct (is_pay_account (strip c)) eqn:E; [|done]. by intros [= <-]. }
  destruct (truthy _).
  - intros [= _ <-]. apply H0.
  - destruct (first_map _ _) as [[name acc']|] eqn:E.
    + intros [= _ <-]. apply first_map_Some in E as (ic & _ & Hic).
      by apply (bank_scan_account row fixes acc0 ic name acc').
    + intros [= _ <-]. apply H0.
Qed.

Lemma extract_bank_info_from_parts_account (parts : list string) idx
    (lines : list string) (fixes : list (string * string)) bank acc a :
  _extract_bank_info_from_parts parts idx lines fixes = (bank, acc) →
  acc = Some a → is_pay_account a = true.
Proof.
  unfold _extract_bank_info_from_parts.
  destruct (first_map _ _) as [[i part]|]; [|by intros [= _ <-]].
  intros [= _ <-]. destruct (parts !! (i + 1)%nat) as [p|]; [|done].
  destruct (is_pay_account p) eqn:E; [|done]. by intros [= <-].
Qed.

Lemma text_255 : isdigit "255" && len_in 3 3 "255" = true.
Proof. reflexivity. Qed.

(** X5. Every record emitted by table-mode or text-mode extraction has a
    non-empty pay_bank_name (CLG when none was found), a pay_account that
    is either empty or at least 8 characters that [str.isdigit] accepts,
    and a branch_code of exactly 3 such characters (255 when none was
    found); when the pay_account, or the branch_code, is ASCII text, its
    characters are the decimal digits 0 to 9. *)
Theorem extraction_optional_fields (fixes : list (string * string))
    (record : cheque) :
  (∃ tables, In record (_extract_from_table tables fixes)) ∨
  (∃ page_text, In record (_extract_from_text page_text fixes)) →
  pay_bank_name record ≠ EmptyString ∧
  (pay_account record = EmptyString ∨ is_pay_account (pay_account record) = true) ∧
  (isdigit (branch_code record) = true ∧ String.length (branch_code record) = 3%nat) ∧
  (is_ascii (pay_account record) = true →
   pay_account record = EmptyString ∨
   digit_string 8 (String.length (pay_account record)) (pay_account record)) ∧
  (is_ascii (branch_code record) = true → digit_string 3 3 (branch_code record)).
Proof.
  assert (∀ bfd amount number bank acc branch rsn,
            make_record bfd amount number bank acc branch rsn = Some record →
            (∀ a, acc = Some a → is_pay_account a = true) →
            (∀ b, branch = Some b → isdigit b && len_in 3 3 b = true) →
            pay_bank_name record ≠ EmptyString ∧
            (pay_account record = EmptyString ∨
             is_pay_account (pay_account record) = true) ∧
            isdigit (branch_code record) && len_in 3 3 (branch_code record) = true)
    as Hmk.
  { intros bfd amount number bank acc branch rsn Hrec Hacc Hbr.
    apply make_record_optional in Hrec as (-> & -> & -> & _).
    split; [|split].
    - pose proof (or_default_nonempty bank "CLG" eq_refl) as H.
      intros E. by rewrite E in H.
    - destruct (or_default_cases acc EmptyString) as [->|E]; [by left|].
      right. by apply Hacc.
    - destruct (or_default_cases branch "255") as [->|E]; [apply text_255|].
      by apply Hbr. }
  assert (pay_bank_name record ≠ EmptyString ∧
          (pay_account record = EmptyString ∨
           is_pay_account (pay_account record) = true) ∧
          isdigit (branch_code record) && len_in 3 3 (branch_code record) = true →
          pay_bank_name record ≠ EmptyString ∧
          (pay_account record = EmptyString ∨
           is_pay_account (pay_account record) = true) ∧
          (isdigit (branch_code record) = true ∧
           String.length (branch_code record) = 3%nat) ∧
          (is_ascii (pay_account record) = true →
           pay_account record = EmptyString ∨
           digit_string 8 (String.length (pay_account record)) (pay_account record)) ∧
          (is_ascii (branch_code record) = true →
           digit_string 3 3 (branch_code record))) as Hfinal.
  { intros (Hbank & Hacc & Hbr). split; [done|]. split; [done|].
    split; [|split].
    - apply andb_true_iff in Hbr as [Hd [H1 H2]%andb_true_iff].
      apply Nat.leb_le in H1, H2. split; [done|lia].
    - intros _. destruct Hacc as [?|Hacc]; [by left|].
      right. by apply is_pay_account_digits.
    - intros _. by apply digits_in_range. }
  intros [[tables Hin]|[page_text Hin]]; apply Hfinal.
  - apply extract_from_table_In in Hin as (table & row & _ & _ & Hrow).
    unfold table_row in Hrow.
    destruct (length row <? 9)%nat; [done|].
    destruct (mem _ header_labels); [done|].
    destruct (contains "TOTAL" _ || contains "END OF REPORT" _); [done|].
    destruct (_extract_bank_info row fixes) as [bank acc] eqn:Ebank.
    apply (Hmk _ _ _ _ _ _ _ Hrow).
    + intros a. by apply (extract_bank_info_account row fixes bank).
    + intros b Hb. by apply extract_branch_code_ok in Hb as [? _].
  - apply extract_from_text_In in Hin as (lines & idx & line & Hline).
    unfold text_line in Hline.
    destruct (length (split line) <? 9)%nat; [done|].
    destruct (negb _); [done|].
    destruct (_extract_bank_info_from_parts _ _ _ _) as [bank acc] eqn:Ebank.
    apply (Hmk _ _ _ _ _ _ _ Hline).
    + intros a. by apply (extract_bank_info_from_parts_account _ _ _ _ bank _ _ Ebank).
    + intros b Hb. by apply extract_branch_code_from_parts_ok in Hb as [? _].
Qed.

Lemma extraction_optional_fields_witness :
  pay_bank_name report_record ≠ EmptyString ∧
  is_pay_account (pay_account report_record) = true ∧
  digit_string 3 3 (branch_code report_record).
Proof.
  destruct (extraction_optional_fields BANK_NAME_FIXES report_record)
    as (H1 & H2 & _ & _ & H5).
  - left. exists [[report_row "50,000.00" "INSUFFICIENT FUNDS"]].
    vm_compute. left. reflexivity.
  - split; [exact H1|]. split; [|apply H5; reflexivity].
    destruct H2 as [H2|H2]; [discriminate H2|exact H2].
Defined.

(** X6. The value 201 is a branch code only when the fixed branch column
    (col 7) of a table row holds it: the scan of the other cells never
    returns it, the text-mode extractor never returns it, and no text-mode
    record has it as its branch_code. *)
Theorem branch_code_201 (fixes : list (string * string)) :
  (∀ row, _extract_branch_code row = Some "201" →
          ∃ c, text_at row 7 = Some c ∧ strip c = "201") ∧
  (∀ parts, _extract_branch_code_from_parts parts ≠ Some "201") ∧
  (∀ page_text record, In record (_extract_from_text page_text fixes) →
                       branch_code record ≠ "201").
Proof.
  split; [|split].
  - intros row H. apply extract_branch_code_ok in H as [_ H]. by apply H.
  - intros parts H. apply extract_branch_code_from_parts_ok in H as [_ H]. by apply H.
  - intros page_text record (lines & idx & line & Hline)%extract_from_text_In.
    unfold text_line in Hline.
    destruct (length (split line) <? 9)%nat; [done|].
    destruct (negb _); [done|].
    destruct (_extract_bank_info_from_parts _ _ _ _) as [bank acc].
    apply make_record_optional in Hline as (_ & _ & -> & _).
    destruct (or_default_cases (_extract_branch_code_from_parts (split line)) "255")
      as [->|E]; [done|].
    by apply extract_branch_code_from_parts_ok in E as [_ ?].
Qed.

Lemma branch_code_201_witness :
  ∃ c, text_at (map Some ["1"; "2"; "3"; "4"; "5"; "6"; "7"; " 201 "]) 7 = Some c
       ∧ strip c = "201".
Proof.
  destruct (branch_code_201 BANK_NAME_FIXES) as [H _].
  apply H. vm_compute. reflexivity.
Defined.

(** ** Admission of table rows *)


Lemma table_row_not_admitted (fixes : list (string * string)) (row : list cell) :
  admitted row = false → table_row fixes row = None.
Proof.
  unfold admitted, table_row. fold (first_cell_of row).
  destruct (length row <? 9)%nat; [done|].
  destruct (mem (first_cell_of row) header_labels); [done|].
  by destruct (contains "TOTAL" (first_cell_of row)
               || contains "END OF REPORT" (first_cell_of row)).
Qed.

Lemma table_records_filter (fixes : list (string * string)) (table : list (list cell)) :
  flat_map (fun row => match table_row fixes row with
                       | Some r => [r]
                       | None => []
                       end) (List.filter admitted table) =
  flat_map (fun row => match table_row fixes row with
                       | Some r => [r]
                       | None => []
                       end) table.
Proof.
  induction table as [|row table IH]; [done|]. cbn [List.filter flat_map].
  destruct (admitted row) eqn:E.
  - cbn [flat_map]. by rewrite IH.
  - by rewrite (table_row_not_admitted _ _ E), IH.
Qed.

Lemma table_records_length (fixes : list (string * string)) (table : list (list cell)) :
  (length (flat_map (fun row => match table_row fixes row with
                                | Some r => [r]
                                | None => []
                                end) table) ≤ length table)%nat.
Proof.
  induction table as [|row table IH]; [done|]. cbn [flat_map].
  rewrite length_app. destruct (table_row fixes row); simpl; lia.
Qed.

Lemma extract_from_table_length (fixes : list (string * string))
    (tables : list (list (list cell))) :
  (length (_extract_from_table tables fixes) ≤ length (concat tables))%nat.
Proof.
  unfold _extract_from_table.
  induction tables as [|table ts IH]; [done|].
  cbn [flat_map concat]. rewrite !length_app.
  pose proof (table_records_length fixes table). lia.
Qed.

(** X7. Table rows that fail admission (fewer than 9 cells, a header label
    in the first cell, or TOTAL or END OF REPORT in the first cell)
    contribute nothing, whatever their other cells hold: removing them from
    the tables leaves the extracted records unchanged; and the admitted rows
    yield at most one record each. *)
Theorem table_admission (fixes : list (string * string))
    (tables : list (list (list cell))) :
  _extract_from_table (map (List.filter admitted) tables) fixes =
  _extract_from_table tables fixes ∧
  (length (_extract_from_table tables fixes)
   ≤ length (concat (map (List.filter admitted) tables)))%nat.
Proof.
  assert (_extract_from_table (map (List.filter admitted) tables) fixes =
          _extract_from_table tables fixes) as Heq.
  { unfold _extract_from_table.
    induction tables as [|table tables IH]; [done|]. cbn [map flat_map].
    by rewrite IH, table_records_filter. }
  split; [exact Heq|]. rewrite <- Heq. apply extract_from_table_length.
Qed.

(** A footer row yields no record although it holds valid fields. *)
Example footer_row_dropped :
  _extract_bfd_account footer_row = Some "98765432109876" ∧
  _extract_cheque_number footer_row = Some "1234567" ∧
  _extract_amount footer_row = Some (PyFloat.of_Z 50000) ∧
  _extract_from_table [[footer_row]] BANK_NAME_FIXES = [].
Proof. repeat split; vm_compute; reflexivity. Qed.

(** ** The bank-name table *)

Lemma dict_get_bank_fixes (k v : string) :
  dict_get BANK_NAME_FIXES k = Some v →
  In v ["CITIZENS"; "KUMARI"; "SIDDHARTHA"; "MACHAPUCHARE"; "SUNRISE"; "EXCEL"].
Proof.
  unfold BANK_NAME_FIXES. cbn [dict_get].
  repeat (destruct (String.eqb k _); [intros [= <-]; simpl; tauto|]).
  done.
Qed.

Lemma dict_fix_bank_idem (name : string) :
  dict_fix BANK_NAME_FIXES (dict_fix BANK_NAME_FIXES name) =
  dict_fix BANK_NAME_FIXES name.
Proof.
  unfold dict_fix at 2 3. destruct (dict_get BANK_NAME_FIXES name) as [v|] eqn:E.
  - apply dict_get_bank_fixes in E. simpl in E.
    destruct E as [<-|[<-|[<-|[<-|[<-|[<-|[]]]]]]]; reflexivity.
  - unfold dict_fix. by rewrite E.
Qed.

(** X8. Normalising a bank name with the fix table is idempotent: a name
    that has been normalised is left unchanged by a second pass, so every
    canonical name of the table is a fixed point. Names that are not keys
    of the table pass through unchanged. *)
Theorem bank_name_fix_idempotent (name : string) :
  dict_fix BANK_NAME_FIXES (dict_fix BANK_NAME_FIXES name) =
  dict_fix BANK_NAME_FIXES name ∧
  (dict_get BANK_NAME_FIXES name = None → dict_fix BANK_NAME_FIXES name = name).
Proof.
  split; [apply dict_fix_bank_idem|].
  intros E. unfold dict_fix. by rewrite E.
Qed.

Lemma bank_scan_name (row : list cell) (fixes : list (string * string))
    (acc0 : option string) ic name acc :
  bank_scan row fixes acc0 ic = Some (name, acc) →
  ∃ n, name = Some (dict_fix fixes n).
Proof.
  unfold bank_scan.
  destruct (text ic.2) as [c|]; [|done].
  destruct (isdigit (strip c) && len_in 3 4 (strip c) && _); [|done].
  destruct (text_at row (ic.1 + 1)) as [c1|]; [|done].
  destruct (nonempty (strip c1) && _); [|done].
  intros [= <- _]. eauto.
Qed.

Lemma extract_bank_info_name (row : list cell) (fixes : list (string * string))
    bank acc :
  _extract_bank_info row fixes = (bank, acc) →
  bank = None ∨ bank = Some EmptyString ∨ ∃ n, bank = Some (dict_fix fixes n).
Proof.
  unfold _extract_bank_info.
  set (b0 := match text_at row 11 with Some _ => _ | None => _ end).
  assert (b0 = None ∨ b0 = Some EmptyString ∨ ∃ n, b0 = Some (dict_fix fixes n)) as H0.
  { unfold b0. destruct (text_at row 11) as [c|]; [|by left].
    destruct (if has_char newline (strip c) then _ else _) as [n|]; [|by left].
    destruct n as [|a n]; [right; by left|]. right. right. simpl. eauto. }
  destruct (truthy b0).
  - by intros [= <- _].
  - destruct (first_map _ _) as [[name acc']|] eqn:E.
    + intros [= <- _]. apply first_map_Some in E as (ic & _ & Hic).
      right. right. eapply bank_scan_name. exact Hic.
    + by intros [= <- _].
Qed.

(** X9. Every record of table-mode extraction with the fix table holds a
    normalised bank name: normalising its pay_bank_name again changes
    nothing (it is CLG, or a name that went through the table). *)
Theorem table_bank_names_normalised (tables : list (list (list cell)))
    (record : cheque) :
  In record (_extract_from_table tables BANK_NAME_FIXES) →
  dict_fix BANK_NAME_FIXES (pay_bank_name record) = pay_bank_name record.
Proof.
  intros (table & row & _ & _ & Hrow)%extract_from_table_In.
  unfold table_row in Hrow.
  destruct (length row <? 9)%nat; [done|].
  destruct (mem _ header_labels); [done|].
  destruct (contains "TOTAL" _ || contains "END OF REPORT" _); [done|].
  destruct (_extract_bank_info row BANK_NAME_FIXES) as [bank acc] eqn:Ebank.
  apply make_record_optional in Hrow as (-> & _).
  apply extract_bank_info_name in Ebank as [->|[->|[n ->]]]; [done|done|].
  unfold or_default. destruct (nonempty (dict_fix BANK_NAME_FIXES n)).
  - apply dict_fix_bank_idem.
  - reflexivity.
Qed.

Lemma table_bank_names_normalised_witness :
  dict_fix BANK_NAME_FIXES (pay_bank_name report_record) = pay_bank_name report_record.
Proof.
  apply (table_bank_names_normalised [[report_row "50,000.00" "INSUFFICIENT FUNDS"]]).
  vm_compute. left. reflexivity.
Defined.

(** In text mode a bank name glued from two lines is kept as it is, also
    when it is a key of the fix table. *)
Example text_bank_name_not_normalised :
  map pay_bank_name
    (_extract_from_text
       (Some ("1 2 3 255 1234567 98765432109876 CITI 12345678 50,000.00 ACCEPTED"
              ++ String newline "ZE"))
       BANK_NAME_FIXES) = ["CITIZE"].
Proof. vm_compute. reflexivity. Qed.

(** ** The choice of the account *)



Lemma insert_desc_nonempty {A} (gt : A → A → bool) (x : A) (l : list A) :
  insert_desc gt x l ≠ [].
Proof. destruct l as [|y l]; simpl; [done|]. by destruct (gt y x). Qed.

Lemma sort_desc_nil {A} (gt : A → A → bool) (l : list A) :
  sort_desc gt l = [] → l = [].
Proof.
  unfold sort_desc. destruct l as [|a l]; [done|]. cbn [fold_right].
  intros E. by destruct (insert_desc_nonempty gt a _ E).
Qed.

(** No element is strictly above the head of a sorted list, for an order
    that is asymmetric and negatively transitive. *)
Lemma sort_desc_head_max {A} (gt : A → A → bool) :
  (∀ a b, gt a b = true → gt b a = false) →
  (∀ a b c, gt a c = true → gt a b = true ∨ gt b c = true) →
  ∀ l x t, sort_desc gt l = x :: t → ∀ y, In y l → gt y x = false.
Proof.
  intros Hasym Hneg.
  assert (∀ z, gt z z = false) as Hirr.
  { intros z. destruct (gt z z) eqn:E; [|done]. by rewrite (Hasym z z E) in E. }
  unfold sort_desc.
  induction l as [|a l IH]; intros x t Hsort y Hy; [done|].
  cbn [fold_right] in Hsort.
  destruct (fold_right (insert_desc gt) [] l) as [|h t'] eqn:E.
  - apply (sort_desc_nil gt) in E. subst l.
    simpl in Hsort. injection Hsort as <- <-.
    destruct Hy as [<-|[]]. apply Hirr.
  - cbn [insert_desc] in Hsort. destruct (gt h a) eqn:Eha.
    + injection Hsort as <- <-. destruct Hy as [<-|Hy]; [by apply Hasym|].
      by apply (IH h _ eq_refl).
    + injection Hsort as <- <-. destruct Hy as [<-|Hy]; [apply Hirr|].
      destruct (gt y a) eqn:Eya; [|done].
      destruct (Hneg y h a Eya) as [H|H]; [|congruence].
      by rewrite (IH h _ eq_refl y Hy) in H.
Qed.








(** ** The choice of the account, text mode *)

Lemma ascii_compare_spec (a b : ascii) :
  Ascii.compare a b = (N_of_ascii a ?= N_of_ascii b)%N.
Proof. done. Qed.

Lemma ascii_compare_Eq (a b : ascii) : Ascii.compare a b = Eq → a = b.
Proof.
  rewrite ascii_compare_spec. intros H%N.compare_eq.
  by rewrite <- (ascii_N_embedding a), <- (ascii_N_embedding b), H.
Qed.

Lemma string_compare_refl (a : string) : String.compare a a = Eq.
Proof.
  induction a as [|x a IH]; [done|]. simpl.
  by rewrite ascii_compare_spec, N.compare_refl.
Qed.

Lemma string_compare_Gt_asym (a b : string) :
  String.compare a b = Gt → String.compare b a = Lt.
Proof. intros H. by rewrite String.compare_antisym, H. Qed.

Lemma string_compare_Gt_negtrans (a b c : string) :
  String.compare a c = Gt → String.compare a b = Gt ∨ String.compare b c = Gt.
Proof.
  revert b c. induction a as [|x a IH]; intros [|y b] [|z c]; simpl; try done; auto.
  rewrite !ascii_compare_spec.
  destruct (N.compare_spec (N_of_ascii x) (N_of_ascii z)) as [Hxz|Hxz|Hxz];
    [|done|]; intros Hac.
  - destruct (N.compare_spec (N_of_ascii x) (N_of_ascii y)) as [Hxy|Hxy|Hxy];
      destruct (N.compare_spec (N_of_ascii y) (N_of_ascii z)) as [Hyz|Hyz|Hyz];
      try lia; auto.
  - destruct (N.compare_spec (N_of_ascii x) (N_of_ascii y)) as [Hxy|Hxy|Hxy];
      destruct (N.compare_spec (N_of_ascii y) (N_of_ascii z)) as [Hyz|Hyz|Hyz];
      try lia; auto.
Qed.

Lemma len_str_gt_spec (a b : nat * string) :
  len_str_gt a b = true ↔
  (b.1 < a.1)%nat ∨ (a.1 = b.1 ∧ String.compare a.2 b.2 = Gt).
Proof.
  unfold len_str_gt. rewrite orb_true_iff, andb_true_iff.
  rewrite Nat.ltb_lt, Nat.eqb_eq.
  destruct (String.compare a.2 b.2); intuition congruence.
Qed.

Lemma len_str_gt_false (a b : nat * string) :
  len_str_gt a b = false ↔
  (a.1 < b.1)%nat ∨ (a.1 = b.1 ∧ String.compare a.2 b.2 ≠ Gt).
Proof.
  rewrite <- not_true_iff_false, len_str_gt_spec. split.
  - intros H. destruct (Nat.lt_trichotomy a.1 b.1) as [?|[?|?]]; [by left| |].
    + right. split; [done|]. intros Hc. apply H. by right.
    + exfalso. apply H. by left.
  - intros [?|[? ?]] [?|[? ?]]; try lia. done.
Qed.

Lemma part_candidates_In (parts : list string) n p :
  In (n, p) (flat_map (fun p => if is_account p then [(String.length p, p)] else [])
               parts) ↔
  n = String.length p ∧ is_account p = true ∧ In p parts.
Proof.
  rewrite in_flat_map. split.
  - intros (q & Hq & Hin). destruct (is_account q) eqn:E; [|done].
    by destruct Hin as [[= <- <-]|[]].
  - intros (-> & Hacc & Hp). exists p. split; [done|]. rewrite Hacc. by left.
Qed.

(** X11. The text-mode account extractor answers with the longest account
    (12 to 17 digits) among the words of the line and, among the longest,
    the greatest in string order; it answers nothing exactly when no word
    is an account. *)
Theorem account_from_parts_choice (parts : list string) :
  (_extract_bfd_account_from_parts parts = None ↔
   ∀ p, In p parts → is_account p = false) ∧
  (∀ s, _extract_bfd_account_from_parts parts = Some s →
     In s parts ∧ is_account s = true ∧
     ∀ p, In p parts → is_account p = true →
       (String.length p < String.length s)%nat ∨
       (String.length p = String.length s ∧ String.compare p s ≠ Gt)).
Proof.
  unfold _extract_bfd_account_from_parts.
  destruct (sort_desc _ _) as [|[n s] l] eqn:E.
  - split; [|done]. split; [|done]. intros _ p Hp.
    apply sort_desc_nil in E. destruct (is_account p) eqn:Hacc; [|done].
    assert (In (String.length p, p)
              (flat_map (fun p => if is_account p then [(String.length p, p)] else [])
                 parts)) as Hin by by apply part_candidates_In.
    rewrite E in Hin. destruct Hin.
  - assert (In (n, s) (sort_desc len_str_gt
              (flat_map (fun p => if is_account p then [(String.length p, p)] else [])
                 parts))) as Hin by (rewrite E; by left).
    apply sort_desc_In, part_candidates_In in Hin. destruct Hin as (-> & Hacc & Hs).
    split.
    + split; [done|]. intros H. by rewrite (H s Hs) in Hacc.
    + intros s' [= <-]. repeat split; try done. intros p Hp Hpacc.
      assert (In (String.length p, p)
                (flat_map (fun p => if is_account p then [(String.length p, p)] else [])
                   parts)) as Hin by by apply part_candidates_In.
      eapply sort_desc_head_max in Hin; [| | |exact E].
      * apply len_str_gt_false in Hin. simpl in Hin.
        destruct Hin as [?|[? ?]]; [by left|by right].
      * intros a b. rewrite len_str_gt_spec, len_str_gt_false.
        intros [?|[? H%string_compare_Gt_asym]]; [left; lia|].
        right. split; [lia|congruence].
      * intros a b c. rewrite !len_str_gt_spec.
        intros [?|[? H]].
        { destruct (Nat.lt_trichotomy b.1 a.1) as [?|[?|?]];
            [by left; left|right; left; lia|right; left; lia]. }
        destruct (Nat.lt_trichotomy b.1 a.1) as [?|[?|?]];
          [by left; left| |right; left; lia].
        destruct (string_compare_Gt_negtrans a.2 b.2 c.2 H);
          [left; right; split; [lia|done]|right; right; split; [lia|done]].
Qed.

(** ** From the full batch back to the accepted batch *)

Lemma str_app_cons (c : ascii) (s t : string) : String c s ++ t = String c (s ++ t).
Proof. reflexivity. Qed.

Lemma str_app_nil_r (s : string) : s ++ EmptyString = s.
Proof. induction s as [|c s IH]; [done|]. by rewrite str_app_cons, IH. Qed.

Lemma str_app_assoc (a b c : string) : (a ++ b) ++ c = a ++ (b ++ c).
Proof. induction a as [|x a IH]; [done|]. by rewrite !str_app_cons, IH. Qed.

Lemma nonempty_app_r (a b : string) : nonempty b = true → nonempty (a ++ b) = true.
Proof. by destruct a, b. Qed.

(** A text without whitespace is one word. *)
Lemma split_go_word (s : string) :
  all_c (fun c => negb (isspace_c c)) s = true →
  ∀ acc, split_go acc s = if nonempty (acc ++ s) then [acc ++ s] else [].
Proof.
  induction s as [|c s IH]; intros Hs acc; simpl.
  - by rewrite str_app_nil_r.
  - simpl in Hs. apply andb_true_iff in Hs as [Hc Hs].
    apply negb_true_iff in Hc. rewrite Hc, (IH Hs).
    by rewrite str_app_assoc.
Qed.

Lemma split_go_last_word (num : string) :
  nonempty num = true →
  all_c (fun c => negb (isspace_c c)) num = true →
  ∀ s acc, ∃ l, split_go acc (s ++ String " " num) = (l ++ [num])%list.
Proof.
  intros Hne Hnum.
  assert (split_go EmptyString num = [num]) as Hw
      by (rewrite (split_go_word num Hnum);
          change (EmptyString ++ num) with num; by rewrite Hne).
  induction s as [|c s IH]; intros acc.
  - simpl. rewrite Hw. destruct (nonempty acc); [by exists [acc]|by exists []].
  - rewrite str_app_cons. cbn [split_go]. destruct (isspace_c c).
    + destruct (IH EmptyString) as [l Hl]. rewrite Hl.
      destruct (nonempty acc); [by exists (acc :: l)|by exists l].
    + apply IH.
Qed.

Lemma rstrip_word (s : string) :
  all_c (fun c => negb (isspace_c c)) s = true → rstrip s = s.
Proof.
  induction s as [|c s IH]; [done|]. simpl.
  intros [Hc Hs]%andb_true_iff. rewrite (IH Hs).
  apply negb_true_iff in Hc. rewrite Hc. by destruct s.
Qed.

Lemma rstrip_app (s t : string) :
  nonempty t = true → rstrip t = t → rstrip (s ++ t) = s ++ t.
Proof.
  intros Hne Ht. induction s as [|c s IH]; [done|].
  rewrite str_app_cons. cbn [rstrip]. rewrite IH.
  pose proof (nonempty_app_r s t Hne) as H. by destruct (s ++ t).
Qed.

Lemma lstrip_word (s : string) :
  all_c (fun c => negb (isspace_c c)) s = true → lstrip s = s.
Proof.
  destruct s as [|c s]; [done|]. simpl.
  intros [Hc _]%andb_true_iff. apply negb_true_iff in Hc. by rewrite Hc.
Qed.

Lemma strip_word (s : string) :
  all_c (fun c => negb (isspace_c c)) s = true → strip s = s.
Proof. intros H. unfold strip. by rewrite rstrip_word, lstrip_word. Qed.

Lemma lstrip_before_word (num : string) :
  all_c (fun c => negb (isspace_c c)) num = true →
  ∀ s, lstrip (s ++ String " " num) = num ∨
       ∃ s', lstrip (s ++ String " " num) = s' ++ String " " num.
Proof.
  intros Hnum. induction s as [|c s IH].
  - left. simpl. by apply lstrip_word.
  - rewrite str_app_cons. cbn [lstrip]. destruct (isspace_c c); [exact IH|].
    right. by exists (String c s).
Qed.

(** The last word of a text that ends with a space and the word [num]. *)
Lemma last_word (num s : string) :
  nonempty num = true →
  all_c (fun c => negb (isspace_c c)) num = true →
  List.last (split (strip (s ++ String " " num))) EmptyString = num.
Proof.
  intros Hne Hnum. unfold strip.
  rewrite (rstrip_app s (String " " num)); [|done|].
  - destruct (lstrip_before_word num Hnum s) as [->|[s' ->]].
    + unfold split. rewrite (split_go_word num Hnum).
      change (EmptyString ++ num) with num. by rewrite Hne.
    + destruct (split_go_last_word num Hne Hnum s' EmptyString) as [l Hl].
      unfold split. rewrite Hl. apply last_last.
  - cbn [rstrip]. rewrite (rstrip_word num Hnum). by destruct num.
Qed.

Lemma all_c_impl (p q : ascii → bool) (s : string) :
  (∀ c, p c = true → q c = true) → all_c p s = true → all_c q s = true.
Proof.
  intros Hpq. induction s as [|c s IH]; [done|]. simpl.
  intros [Hc Hs]%andb_true_iff. by rewrite (Hpq c Hc), IH.
Qed.

Lemma digit_not_space (c : ascii) : isdigit_c c = true → negb (isspace_c c) = true.
Proof.
  unfold isdigit_c, isspace_c, between.
  rewrite andb_true_iff, !Nat.leb_le. intros [H1 H2].
  apply negb_true_iff, orb_false_iff. rewrite !andb_false_iff, !Nat.leb_gt. lia.
Qed.

Lemma isdigit_word (s : string) :
  isdigit s = true →
  nonempty s = true ∧ all_c (fun c => negb (isspace_c c)) s = true.
Proof.
  unfold isdigit. intros [Hne Hs]%andb_true_iff. split; [done|].
  eapply all_c_impl; [|exact Hs]. apply digit_not_space.
Qed.

(** The cheque number is read back from the description the debit loop
    writes. *)
Lemma recovered_debit_row (float_repr : spec_float → string) (record : cheque) :
  isdigit (cheque_number record) = true →
  recovered float_repr (map fst (debit_cells record)) = cheque_number record.
Proof.
  intros [Hne Hw]%isdigit_word. unfold recovered, debit_cells.
  cbn [map fst lookup list_lookup cheque_of_desc2 py_str].
  change ("CLG " ++ bank_tag record ++ " " ++ cheque_number record)
    with ("CLG " ++ (bank_tag record ++ String " " (cheque_number record))).
  rewrite <- str_app_assoc. by apply last_word.
Qed.

Lemma full_batch_header_row (data : list cheque) (acc br : string) (c : nat) :
  generate_excel_batch data acc br !! (0%nat, c) =
  (fun h => (h, Bold)) <$> batch_headers !! c.
Proof.
  rewrite lookup_generate_excel_batch, !block_cell_map.
  rewrite decide_False by lia. rewrite decide_False by lia.
  cbn [or_else]. by rewrite decide_True.
Qed.

Lemma row_values_header (data : list cheque) (acc br : string) :
  row_values (generate_excel_batch data acc br) 7 0 = batch_headers.
Proof.
  unfold row_values. cbn [seq map]. by rewrite !full_batch_header_row.
Qed.

Lemma row_values_debit (data : list cheque) (acc br : string) i record :
  data !! i = Some record →
  row_values (generate_excel_batch data acc br) 7 (1 + i) =
  map fst (debit_cells record).
Proof.
  intros Hi. unfold row_values. cbn [seq map].
  by rewrite !(full_batch_debit_row data acc br i record _ Hi).
Qed.

Lemma row_values_credit (data : list cheque) (acc br : string) i record :
  data !! i = Some record →
  row_values (generate_excel_batch data acc br) 7 (1 + length data + i) =
  map fst (credit_cells acc br record).
Proof.
  intros Hi. unfold row_values. cbn [seq map].
  by rewrite !(full_batch_credit_row data acc br i record _ Hi).
Qed.

Lemma map_seq_rows {A B} (f : nat → B) (g : A → B) (l : list A) :
  ∀ k, (∀ i x, l !! i = Some x → f (k + i)%nat = g x) →
       map f (seq k (length l)) = map g l.
Proof.
  induction l as [|a l IH]; intros k H; [done|]. cbn [length seq map]. f_equal.
  - rewrite <- (H 0%nat a eq_refl). f_equal. lia.
  - apply IH. intros i x Hi. rewrite <- (H (S i) x Hi). f_equal. lia.
Qed.

(** The ledger the full batch reads back as: the header row, the debit
    rows, the credit rows. *)
Lemma full_batch_ledger_rows (data : list cheque) (acc br : string) :
  full_batch_ledger data acc br =
  batch_headers ::
    (map (fun r => map fst (debit_cells r)) data ++
     map (fun r => map fst (credit_cells acc br r)) data)%list.
Proof.
  unfold full_batch_ledger, sheet_rows.
  replace (1 + 2 * length data)%nat with (S (length data + length data)) by lia.
  cbn [seq map]. rewrite row_values_header. f_equal.
  rewrite seq_app, map_app. f_equal.
  - apply map_seq_rows. intros i x Hi. by apply row_values_debit.
  - apply map_seq_rows. intros i x Hi. by apply row_values_credit.
Qed.

Lemma filter_map_all {A B} (p : B → bool) (f : A → B) (l : list A) :
  (∀ x, p (f x) = true) → List.filter p (map f l) = map f l.
Proof.
  intros H. induction l as [|a l IH]; [done|]. simpl. by rewrite H, IH.
Qed.

Lemma filter_map_none {A B} (p : B → bool) (f : A → B) (l : list A) :
  (∀ x, p (f x) = false) → List.filter p (map f l) = [].
Proof.
  intros H. induction l as [|a l IH]; [done|]. simpl. by rewrite H, IH.
Qed.

Lemma combine_map_map {A B C} (f : A → B) (g : A → C) (l : list A) :
  combine (map f l) (map g l) = map (fun x => (f x, g x)) l.
Proof. induction l as [|a l IH]; [done|]. simpl. by rewrite IH. Qed.

Lemma full_batch_rows_coded (float_repr : spec_float → string)
    (data : list cheque) (acc br : string) :
  let rows := (map (fun r => map fst (debit_cells r)) data ++
               map (fun r => map fst (credit_cells acc br r)) data)%list in
  rows_coded float_repr "555" rows = map (fun r => map fst (debit_cells r)) data ∧
  rows_coded float_repr "055" rows = map (fun r => map fst (credit_cells acc br r)) data.
Proof.
  intros rows. unfold rows, rows_coded. rewrite !List.filter_app. split.
  - rewrite filter_map_all by done. rewrite filter_map_none by done.
    by rewrite app_nil_r.
  - rewrite filter_map_none by done. by rewrite filter_map_all by done.
Qed.

(** Whether a cheque number is in the accepted set, for records with
    digit numbers among which equal numbers go with equal dispositions. *)
Lemma accepted_number_iff (data : list cheque) (record : cheque) :
  Forall (fun r => isdigit (cheque_number r) = true) data →
  (∀ a b, In a data → In b data → cheque_number a = cheque_number b →
          is_accepted a = is_accepted b) →
  In record data →
  bool_decide (cheque_number record ∈ accepted_numbers data) = is_accepted record.
Proof.
  intros Hdig Hsame Hin. rewrite List.Forall_forall in Hdig.
  assert (∀ r, In r data → strip (cheque_number r) = cheque_number r) as Hstrip.
  { intros r Hr. apply strip_word. apply isdigit_word. by apply Hdig. }
  destruct (is_accepted record) eqn:E.
  - apply bool_decide_eq_true. unfold accepted_numbers.
    apply accepted_numbers_fold. right. exists record. auto.
  - apply bool_decide_eq_false. unfold accepted_numbers.
    rewrite accepted_numbers_fold. intros [H|(a & Ha & Hacc & Hnum)].
    + by apply not_elem_of_empty in H.
    + rewrite (Hstrip a Ha) in Hnum.
      rewrite (Hsame a record Ha Hin Hnum) in Hacc. congruence.
Qed.

Lemma full_batch_kept_pairs (float_repr : spec_float → string)
    (data : list cheque) (acc br : string) :
  Forall (fun r => isdigit (cheque_number r) = true) data →
  (∀ a b, In a data → In b data → cheque_number a = cheque_number b →
          is_accepted a = is_accepted b) →
  kept_pairs float_repr (accepted_numbers data)
    (map (fun r => map fst (debit_cells r)) data ++
     map (fun r => map fst (credit_cells acc br r)) data)%list =
  map (fun r => (map fst (debit_cells r), map fst (credit_cells acc br r)))
      (filter_accepted_cheques data).
Proof.
  intros Hdig Hsame. unfold kept_pairs.
  destruct (full_batch_rows_coded float_repr data acc br) as [-> ->].
  rewrite combine_map_map, filter_map_swap. f_equal.
  apply filter_ext_in. intros r Hr. cbn [fst].
  rewrite recovered_debit_row.
  - by apply accepted_number_iff.
  - rewrite List.Forall_forall in Hdig. by apply Hdig.
Qed.

Lemma out_cells_debit (record : cheque) :
  out_cells_from 0 (map fst (debit_cells record)) = debit_cells record.
Proof. reflexivity. Qed.

Lemma out_cells_credit (acc br : string) (record : cheque) :
  out_cells_from 0 (map fst (credit_cells acc br record)) = credit_cells acc br record.
Proof. reflexivity. Qed.

Lemma generate_excel_batch_blocks (data : list cheque) (acc br : string) :
  generate_excel_batch data acc br =
  write_block
    (write_block (write_cells_from ∅ 0 0 (map (fun h => (h, Bold)) batch_headers))
                 1 (map debit_cells data))
    (1 + length data) (map (credit_cells acc br) data).
Proof.
  unfold generate_excel_batch.
  by rewrite write_debit_entries_block, write_credit_entries_block, write_headers_cells.
Qed.

(** Reconciling the full batch of [data] against the accepted numbers of
    [data]. *)
Lemma final_batch_of_full_batch (float_repr : spec_float → string)
    (data : list cheque) (acc br : string) :
  Forall (fun r => isdigit (cheque_number r) = true) data →
  (∀ a b, In a data → In b data → cheque_number a = cheque_number b →
          is_accepted a = is_accepted b) →
  final_batch float_repr (accepted_numbers data) (full_batch_ledger data acc br) =
  match filter_accepted_cheques data with
  | [] => Fail NoMatches
  | accepted => Batch (generate_excel_batch accepted acc br)
  end.
Proof.
  intros Hdig Hsame. rewrite full_batch_ledger_rows.
  destruct (full_batch_rows_coded float_repr data acc br) as [H5 H0].
  rewrite final_batch_kept.
  - rewrite (full_batch_kept_pairs float_repr data acc br Hdig Hsame).
    rewrite !map_map. cbn [fst snd].
    destruct (filter_accepted_cheques data) as [|r l] eqn:E; [done|].
    rewrite write_final_blocks.
    + rewrite generate_excel_batch_blocks, !map_map, !length_map.
      do 2 f_equal.
    + done.
    + apply List.Forall_map, List.Forall_forall.
      intros x _ c v [-> | ->] [= <-]; by eexists.
    + apply List.Forall_map, List.Forall_forall.
      intros x _ c v [-> | ->] [= <-]; by eexists.
  - apply Forall_app. split; apply List.Forall_map, List.Forall_forall;
      intros x _; by eexists.
  - rewrite H5, H0. by rewrite !length_map.
Qed.

Lemma extract_pdf_data_number (pages : list page) (record : cheque) :
  In record (extract_pdf_data pages) → is_cheque_no (cheque_number record) = true.
Proof.
  unfold extract_pdf_data. intros (p & _ & Hrec)%in_flat_map.
  destruct (extract_tables p) as [|t ts].
  - apply extract_from_text_In in Hrec as (lines & idx & line & Hline).
    apply text_line_fields in Hline as (_ & _ & Hn).
    by apply (extract_cheque_number_from_parts_ok (split line)).
  - apply extract_from_table_In in Hrec as (table & row & _ & _ & Hrow).
    apply table_row_fields in Hrow as (_ & _ & Hn).
    by apply (extract_cheque_number_ok row).
Qed.

Lemma accepted_numbers_empty (data : list cheque) :
  accepted_numbers data = ∅ ↔ filter_accepted_cheques data = [].
Proof.
  assert (∀ c, c ∈ accepted_numbers data ↔
        ∃ record, In record data ∧ is_accepted record = true
                  ∧ strip (cheque_number record) = c) as Hmem.
  { intros c. unfold accepted_numbers. rewrite accepted_numbers_fold.
    split; [intros [H|H]; [by apply not_elem_of_empty in H|done]|by right]. }
  split.
  - intros Hempty. unfold filter_accepted_cheques.
    destruct (List.filter is_accepted data) as [|r l] eqn:E; [done|].
    assert (In r (List.filter is_accepted data)) as Hin by (rewrite E; by left).
    apply filter_In in Hin as [Hin Hacc].
    exfalso. apply (not_elem_of_empty (C := gset string) (strip (cheque_number r))).
    rewrite <- Hempty. apply Hmem. eauto.
  - intros Hnil. apply set_eq. intros c. rewrite Hmem. split.
    + intros (r & Hin & Hacc & _).
      assert (In r (filter_accepted_cheques data)) as Hr
          by (apply filter_In; auto).
      rewrite Hnil in Hr. destruct Hr.
    + intros H. by apply not_elem_of_empty in H.
Qed.

(** X12. Reconciling a report with its own full batch gives the accepted
    batch. When no rejected cheque of the report shares its number with an
    accepted one, the reconciliation of the report against the full batch
    generated from it (read back as a ledger) answers exactly as the
    accepted-only batch generation does: the same sheet, cell for cell, or
    the same failure. *)
Theorem reconcile_round_trip (float_repr : spec_float → string)
    (pages : list page) (acc br : string) :
  (∀ a b, In a (extract_pdf_data pages) → In b (extract_pdf_data pages) →
          cheque_number a = cheque_number b → is_accepted a = is_accepted b) →
  generate_final_batch float_repr pages
    (full_batch_ledger (extract_pdf_data pages) acc br) =
  generate_batch pages true acc br.
Proof.
  intros Hsame. unfold generate_final_batch, generate_batch.
  assert (Forall (fun r => isdigit (cheque_number r) = true) (extract_pdf_data pages))
    as Hdig.
  { apply List.Forall_forall. intros r Hr.
    apply extract_pdf_data_number in Hr. unfold is_cheque_no in Hr.
    by apply andb_true_iff in Hr as [? _]. }
  pose proof (final_batch_of_full_batch float_repr _ acc br Hdig Hsame) as Hfb.
  pose proof (accepted_numbers_empty (extract_pdf_data pages)) as Hempty.
  destruct (extract_pdf_data pages) as [|r l] eqn:E; [done|].
  rewrite Hfb.
  destruct (filter_accepted_cheques (r :: l)) as [|r' l'] eqn:E'.
  - rewrite bool_decide_eq_true_2; [done|]. by apply Hempty.
  - rewrite bool_decide_eq_false_2; [done|]. intros H. by apply Hempty in H.
Qed.

Lemma reconcile_round_trip_witness :
  generate_final_batch no_repr [mixed_page]
    (full_batch_ledger (extract_pdf_data [mixed_page]) "9313102000" "255") =
  generate_batch [mixed_page] true "9313102000" "255".
Proof.
  apply (reconcile_round_trip no_repr [mixed_page]).
  assert (map (fun r => (cheque_number r, is_accepted r)) (extract_pdf_data [mixed_page]) =
          [("1234567", true); ("7654321", false)]) as H by (vm_compute; reflexivity).
  destruct (extract_pdf_data [mixed_page]) as [|r1 [|r2 [|r3 l]]]; try discriminate H.
  injection H as H1 A1 H2 A2.
  intros a b [<-|[<-|[]]] [<-|[<-|[]]]; rewrite ?H1, ?H2, ?A1, ?A2;
    try reflexivity; intros E; discriminate E.
Defined.

(** Matching is by cheque number alone: when a rejected cheque carries the
    number of an accepted one, its pair is kept as well, and the answer has
    more rows than the accepted batch. *)
Example shared_number_kept :
  ∃ ws ws',
    generate_final_batch no_repr [accepted_page; rejected_page]
      (full_batch_ledger (extract_pdf_data [accepted_page; rejected_page])
                         "9313102000" "255") = Batch ws ∧
    generate_batch [accepted_page; rejected_page] true "9313102000" "255" = Batch ws' ∧
    ws !! (4%nat, 2%nat) = Some (VText "055", Plain) ∧
    ws' !! (4%nat, 2%nat) = None.
Proof.
  eexists _, _. split; [vm_compute; reflexivity|].
  split; [vm_compute; reflexivity|]. split; vm_compute; reflexivity.
Qed.

(** ** What the reconciliation reads of the ledger *)

(** X13. The reconciliation reads the ledger only through its header row,
    its 555 rows in order and its 055 rows in order: two ledgers whose rows
    all have a transaction-code column and that agree on these answer
    alike. Rows with any other code are ignored, and how the 555 and 055
    rows are interleaved does not matter. *)
Theorem reconcile_reads_blocks (float_repr : spec_float → string)
    (accepted : gset string) (headers : xrow) (rows rows' : list xrow) :
  Forall (fun r => is_Some (r !! 2%nat)) rows →
  Forall (fun r => is_Some (r !! 2%nat)) rows' →
  rows_coded float_repr "555" rows = rows_coded float_repr "555" rows' →
  rows_coded float_repr "055" rows = rows_coded float_repr "055" rows' →
  final_batch float_repr accepted (headers :: rows) =
  final_batch float_repr accepted (headers :: rows').
Proof.
  intros H2 H2' E5 E0. unfold final_batch.
  rewrite (split_by_trancode_filter _ _ H2), (split_by_trancode_filter _ _ H2').
  cbn [app]. by rewrite E5, E0.
Qed.

Lemma reconcile_reads_blocks_witness :
  final_batch no_repr {["222222"]} (batch_headers :: interleaved_rows) =
  final_batch no_repr {["222222"]} sample_ledger.
Proof.
  apply (reconcile_reads_blocks no_repr {["222222"]} batch_headers
           interleaved_rows sample_rows).
  - repeat constructor; eexists; reflexivity.
  - repeat constructor; eexists; reflexivity.
  - vm_compute; reflexivity.
  - vm_compute; reflexivity.
Defined.

Lemma amounts_numeric_dec (r : xrow) : amounts_numeric r ∨ unreadable_amount r.
Proof.
  destruct (r !! 3%nat) as [v3|] eqn:E3; [destruct (py_float v3) as [x3|] eqn:F3|];
  (destruct (r !! 4%nat) as [v4|] eqn:E4; [destruct (py_float v4) as [x4|] eqn:F4|]);
  try (right; exists 3%nat, v3; by auto);
  try (right; exists 4%nat, v4; by auto);
  left; intros c v [-> | ->] Hv; rewrite ?E3, ?E4 in Hv; try done;
  injection Hv as <-; by eexists.
Qed.

Lemma amounts_numeric_readable (r : xrow) :
  amounts_numeric r → ¬ unreadable_amount r.
Proof.
  intros H (c & v & Hc & Hv & Hf). destruct (H c v Hc Hv) as [x Hx]. congruence.
Qed.

Lemma Forall_or_Exists_amounts (l : list xrow) :
  Forall amounts_numeric l ∨ Exists unreadable_amount l.
Proof.
  induction l as [|r l [IH|IH]].
  - by left.
  - destruct (amounts_numeric_dec r); [left|right]; by constructor.
  - right. by constructor.
Qed.

Lemma write_rows_out_raises (rows : list xrow) :
  Exists unreadable_amount rows →
  ∀ (ws : sheet) r, write_rows_out ws rows r = None.
Proof.
  induction 1 as [row rows (c & v & Hc & Hv & Hf)|row rows _ IH]; intros ws r;
    cbn [write_rows_out].
  - unfold enumerate. by rewrite (write_row_out_raises row 0 ws r c v Hv Hc Hf).
  - destruct (write_row_out ws r (enumerate row)); [apply IH|done].
Qed.

(** X14. With seven-column rows and as many 555 as 055 rows, the
    reconciliation ends in a server error exactly when an amount field of a
    kept row (a kept 555 row or its 055 partner) cannot be read as a
    number; the amount fields of the rows it drops are never read. *)
Theorem reconcile_crash_iff (float_repr : spec_float → string)
    (accepted : gset string) (headers : xrow) (rows : list xrow) :
  Forall (fun r => is_Some (r !! 6%nat)) rows →
  length (rows_coded float_repr "555" rows) =
  length (rows_coded float_repr "055" rows) →
  (final_batch float_repr accepted (headers :: rows) = Fail Crashed ↔
   ∃ p, In p (kept_pairs float_repr accepted rows) ∧
        (unreadable_amount p.1 ∨ unreadable_amount p.2)).
Proof.
  intros H6 Hlen. rewrite (final_batch_kept float_repr accepted headers rows H6 Hlen).
  set (kept := kept_pairs float_repr accepted rows).
  assert (∀ (P : xrow → Prop) (f : xrow * xrow → xrow),
            Exists P (map f kept) → ∃ p, In p kept ∧ P (f p)) as Hex.
  { intros P f H. apply List.Exists_exists in H as (r & Hr & HP).
    apply in_map_iff in Hr as (p & <- & Hp). eauto. }
  split.
  - intros Hcrash.
    destruct (Forall_or_Exists_amounts (map fst kept)) as [H5|H5].
    + destruct (Forall_or_Exists_amounts (map snd kept)) as [H0|H0].
      * exfalso. destruct kept as [|p kept']; [done|].
        rewrite write_final_blocks in Hcrash; done.
      * destruct (Hex _ _ H0) as (p & Hp & HP). eauto.
    + destruct (Hex _ _ H5) as (p & Hp & HP). eauto.
  - intros (p & Hp & HP). unfold write_final.
    destruct (map fst kept) as [|r k5] eqn:E5; [by destruct kept|].
    rewrite <- E5. clear E5.
    destruct (Forall_or_Exists_amounts (map fst kept)) as [H5|H5].
    + rewrite (write_rows_out_block _ H5).
      rewrite write_rows_out_raises; [done|].
      destruct HP as [HP|HP].
      * exfalso. rewrite List.Forall_forall in H5.
        apply (amounts_numeric_readable p.1); [|done]. apply H5. by apply in_map.
      * apply List.Exists_exists. exists p.2. split; [by apply in_map|done].
    + by rewrite write_rows_out_raises.
Qed.

Lemma reconcile_crash_iff_witness :
  final_batch no_repr {["222222"]} sample_ledger ≠ Fail Crashed.
Proof.
  intros H.
  apply (reconcile_crash_iff no_repr {["222222"]} batch_headers sample_rows) in H.
  - destruct H as (p & Hp & HP).
    assert (kept_pairs no_repr {["222222"]} sample_rows =
            [(row_555 "222222", row_055 "22")]) as Hk by (vm_compute; reflexivity).
    rewrite Hk in Hp. destruct Hp as [<-|[]].
    destruct HP as [(c & v & [-> | ->] & [= <-] & Hf)|(c & v & [-> | ->] & [= <-] & Hf)];
      discriminate Hf.
  - repeat constructor; eexists; reflexivity.
  - reflexivity.
Defined.

(** A dropped row with an unreadable amount does no harm; the same row,
    once kept, ends the reconciliation in a server error. *)
Example unreadable_amount_only_when_kept :
  let bad := [ VText "987"; VText "98765432109876"; VText "555";
               VText "n/a"; VText "n/a"; VText EmptyString; VText "CLG EBL 444444" ] in
  let ledger := batch_headers :: bad :: sample_rows ++ [row_055 "44"] in
  (∃ ws, final_batch no_repr {["222222"]} ledger = Batch ws) ∧
  final_batch no_repr {["444444"]} ledger = Fail Crashed.
Proof.
  split; [eexists|]; vm_compute; reflexivity.
Qed.

(** ** The summary of the display views *)

Lemma insert_desc_filter_length {A} (gt : A → A → bool) (p : A → bool) (x : A)
    (l : list A) :
  length (List.filter p (insert_desc gt x l)) = length (List.filter p (x :: l)).
Proof.
  induction l as [|y l IH]; [done|]. cbn [insert_desc].
  destruct (gt y x); [|done]. cbn [List.filter] in *.
  destruct (p y), (p x); cbn [length] in *; lia.
Qed.

Lemma sort_desc_filter_length {A} (gt : A → A → bool) (p : A → bool) (l : list A) :
  length (List.filter p (sort_desc gt l)) = length (List.filter p l).
Proof.
  unfold sort_desc. induction l as [|x l IH]; [done|]. cbn [fold_right].
  rewrite insert_desc_filter_length. cbn [List.filter].
  destruct (p x); cbn [length]; by rewrite IH.
Qed.

Lemma insert_desc_Permutation {A} (gt : A → A → bool) (x : A) (l : list A) :
  Permutation (insert_desc gt x l) (x :: l).
Proof.
  induction l as [|y l IH]; [done|]. cbn [insert_desc].
  destruct (gt y x); [|done]. rewrite IH. apply perm_swap.
Qed.

Lemma sort_desc_Permutation {A} (gt : A → A → bool) (l : list A) :
  Permutation (sort_desc gt l) l.
Proof.
  unfold sort_desc. induction l as [|x l IH]; [done|]. cbn [fold_right].
  rewrite insert_desc_Permutation. by constructor.
Qed.

Lemma sort_desc_length {A} (gt : A → A → bool) (l : list A) :
  length (sort_desc gt l) = length l.
Proof. apply Permutation_length, sort_desc_Permutation. Qed.

Lemma blank_not_accepted (r : cheque) :
  nonempty (reason_read r) = false → is_accepted r = false.
Proof.
  unfold is_accepted, reason_read. by destruct (strip (upper (reason r))).
Qed.

(** What the loop adds to the counters. *)
Lemma tally_counts (l : list cheque) :
  ∀ t, let t' := fold_left tally_step l t in
    accepted_count t' = accepted_count t + count is_accepted l ∧
    insufficient_funds_count t' = insufficient_funds_count t + count is_insufficient l ∧
    other_reasons_count t' = other_reasons_count t + count is_other_reason l.
Proof.
  unfold count.
  induction l as [|r l IH]; intros t; cbn [fold_left List.filter length].
  - cbv zeta. lia.
  - specialize (IH (tally_step t r)). cbv zeta in *.
    destruct IH as (Ha & Hi & Ho). rewrite Ha, Hi, Ho. clear Ha Hi Ho.
    unfold tally_step, is_insufficient, is_other_reason, is_accepted, reason_read.
    destruct (contains "ACCEPTED" _); cbn [negb andb accepted_count
      insufficient_funds_count other_reasons_count length].
    + lia.
    + destruct (contains "INSUFFICIENT" _ || contains "FUNDS" _);
        cbn [negb andb accepted_count insufficient_funds_count other_reasons_count
             length].
      * lia.
      * destruct (nonempty _);
          cbn [accepted_count insufficient_funds_count other_reasons_count length];
          lia.
Qed.

(** Every record is in exactly one of the four classes. *)
Lemma classes_partition (l : list cheque) :
  Z.of_nat (length l) =
  count is_accepted l + count is_insufficient l + count is_other_reason l
  + count is_blank_reason l.
Proof.
  unfold count. induction l as [|r l IH]; [done|].
  cbn [List.filter length]. rewrite Nat2Z.inj_succ, IH.
  unfold is_insufficient, is_other_reason, is_blank_reason.
  destruct (nonempty (reason_read r)) eqn:En.
  - destruct (is_accepted r); cbn [negb andb length]; [lia|].
    destruct (contains "INSUFFICIENT" _ || contains "FUNDS" _);
      cbn [negb andb length]; lia.
  - rewrite (blank_not_accepted r En).
    assert (contains "INSUFFICIENT" (reason_read r) = false ∧
            contains "FUNDS" (reason_read r) = false) as [-> ->].
    { by destruct (reason_read r). }
    cbn [negb andb orb length]. lia.
Qed.

Lemma count_sorted (p : cheque → bool) (l : list cheque) :
  count p (sorted_by_amount l) = count p l.
Proof. unfold count, sorted_by_amount. by rewrite sort_desc_filter_length. Qed.

(** The accepted amount is the total of the accepted records, added in the
    order of the list. *)
Lemma tally_accepted_amount (l : list cheque) :
  ∀ t t', accepted_amount t = total_amount t' →
    accepted_amount (fold_left tally_step l t) =
    total_amount (fold_left tally_step (filter_accepted_cheques l) t').
Proof.
  induction l as [|r l IH]; intros t t' Heq; [done|].
  cbn [fold_left filter_accepted_cheques List.filter].
  destruct (is_accepted r) eqn:E.
  - cbn [fold_left]. apply IH. unfold tally_step.
    unfold is_accepted in E. rewrite E. cbn [accepted_amount total_amount].
    by rewrite Heq.
  - apply IH. unfold tally_step. unfold is_accepted in E. rewrite E.
    set (rs := strip (upper (reason r))).
    by destruct (contains "INSUFFICIENT" rs || contains "FUNDS" rs), (nonempty rs).
Qed.

(** X15. The summary of the display views. The counts shown do not depend
    on the sorting: the total is the number of extracted records, the
    accepted count is the number of rows the accepted batch would hold
    pairs for, and the no-reason count (computed by subtraction) is the
    number of records whose reason is blank; the four classes partition
    the records. The accepted amount is the total amount of the accepted
    rows alone, added in the order shown. *)
Theorem summary_counts (pages : list page) (ctx : context) :
  display_data_table pages = Rendered ctx →
  let extracted := extract_pdf_data pages in
  let t := ctx_tally ctx in
  total_records ctx = Z.of_nat (length extracted) ∧
  accepted_count t = Z.of_nat (length (filter_accepted_cheques extracted)) ∧
  insufficient_funds_count t = count is_insufficient extracted ∧
  other_reasons_count t = count is_other_reason extracted ∧
  no_reason_count ctx = count is_blank_reason extracted ∧
  accepted_amount t =
    total_amount (ctx_tally (summary_context (filter_accepted_cheques (ctx_data ctx)))).
Proof.
  intros H extracted t. unfold display_data_table in H. fold extracted in H.
  assert (ctx = summary_context (sorted_by_amount extracted)) as ->
      by (destruct extracted; [done|by injection H]).
  clear H. subst t. unfold summary_context. cbn [total_records ctx_tally no_reason_count ctx_data].
  destruct (tally_counts (sorted_by_amount extracted) tally_start) as (Ha & Hi & Ho).
  rewrite !count_sorted in *. cbn [tally_start accepted_count insufficient_funds_count
    other_reasons_count] in *.
  rewrite Ha, Hi, Ho.
  unfold sorted_by_amount at 1 2. rewrite sort_desc_length.
  repeat split; try done.
  - rewrite (classes_partition extracted). lia.
  - by apply tally_accepted_amount.
Qed.


Lemma insert_desc_filter_stable {A} (gt : A → A → bool) (p : A → bool) (x : A)
    (l : list A) :
  (∀ a b, p a = true → p b = true → gt a b = false) →
  List.filter p (insert_desc gt x l) = List.filter p (x :: l).
Proof.
  intros Hp. induction l as [|y l IH]; [done|]. cbn [insert_desc].
  destruct (gt y x) eqn:E; [|done]. cbn [List.filter] in *. rewrite IH.
  destruct (p y) eqn:Ey, (p x) eqn:Ex; try done.
  by rewrite (Hp y x Ey Ex) in E.
Qed.

Lemma sort_desc_filter_stable {A} (gt : A → A → bool) (p : A → bool) (l : list A) :
  (∀ a b, p a = true → p b = true → gt a b = false) →
  List.filter p (sort_desc gt l) = List.filter p l.
Proof.
  intros Hp. unfold sort_desc. induction l as [|x l IH]; [done|]. cbn [fold_right].
  rewrite insert_desc_filter_stable by done. cbn [List.filter]. by rewrite IH.
Qed.

Lemma SFcompare_antisym (x y : spec_float) :
  SFcompare y x = option_map CompOpp (SFcompare x y).
Proof.
  destruct x as [sx|sx| |sx mx ex], y as [sy|sy| |sy my ey]; simpl;
    try reflexivity; try (destruct sx; reflexivity); try (destruct sy; reflexivity);
    try (destruct sx, sy; reflexivity).
  rewrite (Z.compare_antisym ey ex).
  change (PosDef.Pos.compare_cont Eq my mx) with (Pos.compare my mx).
  change (PosDef.Pos.compare_cont Eq mx my) with (Pos.compare mx my).
  rewrite (Pos.compare_antisym my mx).
  destruct sx, sy; try reflexivity;
    destruct (ey ?= ex); try reflexivity; cbn [CompOpp];
    by destruct (my ?= mx)%positive.
Qed.

Lemma SFltb_asym (x y : spec_float) : SFltb x y = true → SFltb y x = false.
Proof.
  unfold SFltb. rewrite (SFcompare_antisym x y).
  by destruct (SFcompare x y) as [[]|].
Qed.

Lemma SFltb_irrefl (x : spec_float) : SFltb x x = false.
Proof.
  destruct (SFltb x x) eqn:E; [|done]. by rewrite (SFltb_asym x x E) in E.
Qed.


Lemma positive_compare_Some (x y : spec_float) :
  float_lt PyFloat.zero x → float_lt PyFloat.zero y → is_Some (SFcompare x y).
Proof.
  unfold float_lt.
  destruct x as [sx|sx| |sx mx ex], y as [sy|sy| |sy my ey]; simpl; try done;
    intros _ _; by eexists.
Qed.

Lemma not_ltb_leb (x y : spec_float) :
  is_Some (SFcompare x y) → SFltb y x = false → SFleb x y = true.
Proof.
  unfold SFltb, SFleb. rewrite (SFcompare_antisym x y).
  intros [c ->]. by destruct c.
Qed.

Lemma chain_insert_desc {A} (gt : A → A → bool) (x : A) (l : list A) :
  (∀ a b, gt a b = true → gt b a = false) →
  chain (fun a b => negb (gt b a)) l = true →
  chain (fun a b => negb (gt b a)) (insert_desc gt x l) = true.
Proof.
  intros Hasym. induction l as [|y l IH]; [done|].
  intros Hl. cbn [insert_desc]. destruct (gt y x) eqn:Eyx.
  - assert (chain (fun a b => negb (gt b a)) l = true) as Hl'.
    { cbn [chain] in Hl. destruct l as [|z l]; [done|].
      by apply andb_true_iff in Hl as [_ ?]. }
    specialize (IH Hl').
    destruct l as [|z l].
    + cbn [insert_desc chain]. by rewrite (Hasym y x Eyx).
    + cbn [insert_desc] in *. destruct (gt z x) eqn:Ezx.
      * cbn [chain] in Hl. apply andb_true_iff in Hl as [Hyz _].
        cbn [chain]. cbn [chain] in IH. by rewrite Hyz, IH.
      * cbn [chain]. cbn [chain] in IH. by rewrite (Hasym y x Eyx), IH.
  - cbn [chain]. cbn [chain] in Hl. by rewrite Eyx, Hl.
Qed.

Lemma chain_sort_desc {A} (gt : A → A → bool) (l : list A) :
  (∀ a b, gt a b = true → gt b a = false) →
  chain (fun a b => negb (gt b a)) (sort_desc gt l) = true.
Proof.
  intros Hasym. unfold sort_desc. induction l as [|x l IH]; [done|].
  cbn [fold_right]. by apply chain_insert_desc.
Qed.

Lemma chain_impl {A} (R R' : A → A → bool) (P : A → Prop) (l : list A) :
  (∀ a b, P a → P b → R a b = true → R' a b = true) →
  Forall P l → chain R l = true → chain R' l = true.
Proof.
  intros Himpl. induction 1 as [|a l Ha Hl IH]; [done|].
  cbn [chain]. destruct l as [|b l]; [done|].
  intros [Hab Hc]%andb_true_iff. apply andb_true_iff. split.
  - apply Himpl; [done| |done]. by inversion Hl.
  - by apply IH.
Qed.

Lemma extract_pdf_data_amount (pages : list page) (record : cheque) :
  In record (extract_pdf_data pages) → float_lt PyFloat.zero (cheque_amount record).
Proof.
  unfold extract_pdf_data. intros (p & _ & Hrec)%in_flat_map.
  destruct (extract_tables p) as [|t ts].
  - apply extract_from_text_In in Hrec as (lines & idx & line & Hline).
    apply text_line_fields in Hline as (_ & Ha & _).
    by apply extract_amount_from_parts_ok, in_range_bounds in Ha as [? _].
  - apply extract_from_table_In in Hrec as (table & row & _ & _ & Hrow).
    apply table_row_fields in Hrow as (_ & Ha & _).
    by apply (extract_amount_positive row).
Qed.

Lemma sorted_rows_ascending (pages : list page) :
  chain amount_le (sorted_by_amount (extract_pdf_data pages)) = true.
Proof.
  unfold sorted_by_amount.
  eapply (chain_impl _ _ (fun r => float_lt PyFloat.zero (cheque_amount r))).
  - intros a b Ha Hb Hab. apply negb_true_iff in Hab.
    apply not_ltb_leb; [by apply positive_compare_Some|exact Hab].
  - apply List.Forall_forall. intros r Hr. apply extract_pdf_data_amount with pages.
    eapply Permutation_in; [apply sort_desc_Permutation|exact Hr].
  - apply chain_sort_desc. intros a b. apply SFltb_asym.
Qed.

(** X16. The rows of the display views are the extracted records in
    another order, nothing lost and nothing repeated; every row's amount is
    at most the amount of the row after it; and the records of one amount
    keep the order they have in the report. *)
Theorem summary_rows_ascending (pages : list page) (ctx : context) :
  display_data_table pages = Rendered ctx →
  Permutation (ctx_data ctx) (extract_pdf_data pages) ∧
  chain amount_le (ctx_data ctx) = true ∧
  ∀ x, List.filter (has_amount x) (ctx_data ctx) =
       List.filter (has_amount x) (extract_pdf_data pages).
Proof.
  intros H. unfold display_data_table in H.
  assert (ctx_data ctx = sorted_by_amount (extract_pdf_data pages)) as ->
      by (destruct (extract_pdf_data pages); [done|by injection H as <-]).
  clear H. split; [apply sort_desc_Permutation|].
  split; [apply sorted_rows_ascending|].
  intros x. apply sort_desc_filter_stable.
  intros a b Ha Hb. unfold has_amount in *.
  apply bool_decide_eq_true in Ha, Hb. rewrite Ha, Hb. apply SFltb_irrefl.
Qed.

Lemma summary_counts_witness :
  ∃ ctx, display_data_table [mixed_page] = Rendered ctx ∧
         total_records ctx = 2 ∧ accepted_count (ctx_tally ctx) = 1 ∧
         insufficient_funds_count (ctx_tally ctx) = 1 ∧ no_reason_count ctx = 0.
Proof.
  eexists. split; [reflexivity|].
  destruct (summary_counts [mixed_page] _ eq_refl) as (H1 & H2 & H3 & _ & H5 & _).
  rewrite H1, H2, H3, H5. repeat split; vm_compute; reflexivity.
Defined.

Lemma summary_rows_ascending_witness :
  ∃ ctx, display_data_table [mixed_page; accepted_page] = Rendered ctx ∧
         chain amount_le (ctx_data ctx) = true.
Proof.
  eexists. split; [reflexivity|].
  by destruct (summary_rows_ascending [mixed_page; accepted_page] _ eq_refl)
    as (_ & H & _).
Defined.


(** ** The display sheet *)

Lemma lookup_put_cells {V} (cells : list V) :
  ∀ (ws : gmap (nat * nat) V) r k r' c,
    put_cells ws r k cells !! (r', c) =
    if decide (r' = r) then
      if decide (k ≤ c)%nat
      then or_else (cells !! (c - k)%nat) (ws !! (r', c))
      else ws !! (r', c)
    else ws !! (r', c).
Proof.
  induction cells as [|v cells IH]; intros ws r k r' c; simpl.
  - by repeat destruct (decide _).
  - rewrite IH, lookup_insert.
    destruct (decide (r' = r)) as [->|Hr].
    + destruct (decide (S k ≤ c)%nat) as [Hk|Hk].
      * destruct (decide (k ≤ c)%nat); [|lia].
        replace (c - k)%nat with (S (c - S k)) by lia. simpl.
        destruct (decide ((r, k) = (r, c))) as [[= ?]|]; [lia|done].
      * destruct (decide ((r, k) = (r, c))) as [[= <-]|Hne].
        -- destruct (decide (k ≤ k)%nat); [|lia]. by rewrite Nat.sub_diag.
        -- destruct (decide (k ≤ c)%nat); [|done].
           exfalso. apply Hne. f_equal. lia.
    + destruct (decide ((r, k) = (r', c))) as [[= ? ?]|]; [congruence|done].
Qed.

Lemma display_header_cells (ws : display_sheet) :
  fold_left (fun ws ch => <[(0%nat, fst ch) := (VText (snd ch), DHeader)]> ws)
            (enumerate display_headers) ws =
  put_cells ws 0 0 (map (fun h => (VText h, DHeader)) display_headers).
Proof. reflexivity. Qed.

Lemma display_rows_lookup (data : list cheque) :
  ∀ (ws : display_sheet) (t : value) k r c,
    (display_rows ws t k data).1 !! (r, c) =
    if decide (k ≤ r)%nat then
      or_else (data !! (r - k)%nat ≫= (fun record => display_cells r record !! c))
              (ws !! (r, c))
    else ws !! (r, c).
Proof.
  induction data as [|record data IH]; intros ws t k r c; cbn [display_rows].
  - cbn [fst]. by destruct (decide _).
  - rewrite IH.
    change (display_row ws k record) with (put_cells ws k 0 (display_cells k record)).
    rewrite lookup_put_cells.
    destruct (decide (S k ≤ r)%nat) as [Hle|Hnle].
    + destruct (decide (k ≤ r)%nat); [|lia].
      replace (r - k)%nat with (S (r - S k)) by lia. cbn [lookup list_lookup].
      destruct (decide (r = k)); [lia|done].
    + destruct (decide (r = k)) as [->|Hn].
      * destruct (decide (k ≤ k)%nat); [|lia].
        destruct (decide (0 ≤ c)%nat); [|lia].
        rewrite Nat.sub_diag, Nat.sub_0_r. by cbn [lookup list_lookup mbind option_bind].
      * destruct (decide (k ≤ r)%nat); [lia|done].
Qed.

Lemma display_rows_total (data : list cheque) :
  ∀ (ws : display_sheet) (t : value) k,
    (display_rows ws t k data).2 = fold_left add_amount (map cheque_amount data) t.
Proof.
  induction data as [|record data IH]; intros ws t k; [done|].
  cbn [display_rows map fold_left]. apply IH.
Qed.

(** The display sheet, cell by cell: the total row, else the rows of the
    records, else the header row. *)
Lemma lookup_generate_display_excel (data : list cheque) (r c : nat) :
  generate_display_excel data !! (r, c) =
  if decide (r = length data + 1)%nat then total_cells (display_total data) !! c
  else if decide (1 ≤ r)%nat then
    data !! (r - 1)%nat ≫= (fun record => display_cells r record !! c)
  else (fun h => (VText h, DHeader)) <$> display_headers !! c.
Proof.
  unfold generate_display_excel. rewrite display_header_cells.
  pose proof (display_rows_lookup data
    (put_cells ∅ 0 0 (map (fun h => (VText h, DHeader)) display_headers))
    (VInt 0) 1) as Hrows.
  pose proof (display_rows_total data
    (put_cells ∅ 0 0 (map (fun h => (VText h, DHeader)) display_headers))
    (VInt 0) 1) as Htotal.
  destruct (display_rows _ (VInt 0) 1 data) as [ws t]. cbn [fst snd] in *.
  subst t. fold (display_total data).
  change (<[(?r0, 6%nat) := ?v6]> (<[(_, 5%nat) := ?v5]> (<[(_, 4%nat) := ?v4]>
           (<[(_, 3%nat) := ?v3]> (<[(_, 2%nat) := ?v2]> (<[(_, 1%nat) := ?v1]>
           (<[(_, 0%nat) := ?v0]> ws)))))))
    with (put_cells ws r0 0 [v0; v1; v2; v3; v4; v5; v6]).
  rewrite lookup_put_cells, Hrows, lookup_put_cells, lookup_empty.
  fold (total_cells (display_total data)).
  destruct (decide (r = length data + 1)%nat) as [->|Hr].
  - destruct (decide (0 ≤ c)%nat); [|lia]. rewrite Nat.sub_0_r.
    destruct (total_cells (display_total data) !! c) eqn:E; [done|].
    cbn [or_else]. destruct (decide (1 ≤ length data + 1)%nat); [|lia].
    rewrite (lookup_ge_None_2 data) by lia. cbn [mbind option_bind or_else].
    destruct (decide (length data + 1 = 0)%nat); [lia|done].
  - destruct (decide (1 ≤ r)%nat) as [H1|H1].
    + destruct (decide (r = 0)%nat); [lia|].
      by destruct (data !! (r - 1)%nat ≫= _).
    + destruct (decide (r = 0)%nat) as [->|]; [|lia].
      destruct (decide (0 ≤ c)%nat); [|lia]. rewrite Nat.sub_0_r.
      change (map ?f ?l) with (f <$> l). rewrite list_lookup_fmap.
      by destruct (display_headers !! c).
Qed.

Lemma display_total_kind (data : list cheque) :
  match data with
  | [] => display_total data = VInt 0
  | _ => ∃ x, display_total data = VNum x
  end.
Proof.
  destruct data as [|r data]; [done|]. unfold display_total.
  cbn [map fold_left add_amount].
  generalize (float_add (PyFloat.of_Z 0) (cheque_amount r)) as x.
  induction data as [|r' data IH]; intros x; [by exists x|].
  cbn [map fold_left add_amount]. apply IH.
Qed.

(** X17. The display sheet of N records has N + 2 rows of seven cells: the
    header row, one row per record in the order of the list, numbered from
    1, and the total row, whose sixth cell holds the sum of the amounts (the
    integer 0 for no record, a float otherwise). *)
Theorem display_excel_layout (data : list cheque) :
  let ws := generate_display_excel data in
  let n := length data in
  (∀ r c, is_Some (ws !! (r, c)) ↔ (r ≤ n + 1 ∧ c < 7)%nat) ∧
  (∀ c, ws !! (0%nat, c) = (fun h => (VText h, DHeader)) <$> display_headers !! c) ∧
  (∀ i record, data !! i = Some record →
     ∀ c, ws !! ((1 + i)%nat, c) = display_cells (1 + i) record !! c) ∧
  (∀ c, ws !! ((n + 1)%nat, c) = total_cells (display_total data) !! c) ∧
  match data with
  | [] => display_total data = VInt 0
  | _ => ∃ x, display_total data = VNum x
  end.
Proof.
  intros ws n. subst ws n. split; [|split; [|split; [|split]]].
  - intros r c. rewrite lookup_generate_display_excel.
    destruct (decide (r = length data + 1)%nat) as [->|Hr].
    + rewrite lookup_lt_is_Some. change (length (total_cells _)) with 7%nat. lia.
    + destruct (decide (1 ≤ r)%nat) as [H1|H1].
      * destruct (data !! (r - 1)%nat) as [record|] eqn:E; cbn [mbind option_bind].
        -- apply lookup_lt_Some in E. rewrite lookup_lt_is_Some.
           change (length (display_cells _ _)) with 7%nat. lia.
        -- apply lookup_ge_None in E. rewrite is_Some_alt. lia.
      * rewrite fmap_is_Some, lookup_lt_is_Some.
        change (length display_headers) with 7%nat. lia.
  - intros c. rewrite lookup_generate_display_excel.
    destruct (decide (0 = length data + 1)%nat); [lia|].
    by destruct (decide (1 ≤ 0)%nat); [lia|].
  - intros i record Hi c. pose proof (lookup_lt_Some _ _ _ Hi) as Hlt.
    rewrite lookup_generate_display_excel.
    destruct (decide (1 + i = length data + 1)%nat); [lia|].
    destruct (decide (1 ≤ 1 + i)%nat); [|lia].
    assert ((1 + i - 1)%nat = i) as -> by lia. by rewrite Hi.
  - intros c. rewrite lookup_generate_display_excel. by rewrite decide_True.
  - apply display_total_kind.
Qed.

Lemma chain_lookup {A} (R : A → A → bool) (l : list A) :
  chain R l = true →
  ∀ i a b, l !! i = Some a → l !! S i = Some b → R a b = true.
Proof.
  induction l as [|x l IH]; [done|]. cbn [chain].
  destruct l as [|y l]; [by intros _ [|i] a b|].
  intros [Hxy Hc]%andb_true_iff [|i] a b.
  - by intros [= <-] [= <-].
  - intros Ha Hb. by apply (IH Hc i a b).
Qed.

Lemma summary_rows (pages : list page) (ctx : context) :
  display_data_table pages = Rendered ctx →
  ctx_data ctx = sorted_by_amount (extract_pdf_data pages) ∧
  extract_pdf_data pages ≠ [].
Proof.
  unfold display_data_table.
  destruct (extract_pdf_data pages); [done|]. by intros [= <-].
Qed.

(** X18. The report downloaded after a summary. When a summary was shown
    for a report, the download is served, with one row per extracted record
    between the header row and the total row; every extracted record has
    its row, and the amounts (column 5) of consecutive record rows never
    decrease. Without session data, or with an empty list, nothing is
    served. *)
Theorem download_after_summary (pages : list page) (ctx : context) :
  display_data_table pages = Rendered ctx →
  download_excel None = None ∧ download_excel (Some []) = None ∧
  ∃ ws, download_excel (Some (ctx_data ctx)) = Some ws ∧
    (∀ r c, is_Some (ws !! (r, c)) ↔
            (r ≤ length (extract_pdf_data pages) + 1 ∧ c < 7)%nat) ∧
    (∀ record, In record (extract_pdf_data pages) →
       ∃ i, (i < length (extract_pdf_data pages))%nat ∧
            ∀ c, ws !! ((1 + i)%nat, c) = display_cells (1 + i) record !! c) ∧
    (∀ r a b, ws !! (r, 5%nat) = Some (VNum a, DAmount) →
              ws !! (S r, 5%nat) = Some (VNum b, DAmount) →
              SFleb a b = true).
Proof.
  intros [Hdata Hne]%summary_rows. rewrite Hdata.
  set (rows := sorted_by_amount (extract_pdf_data pages)).
  assert (Permutation rows (extract_pdf_data pages)) as Hperm
      by apply sort_desc_Permutation.
  assert (length rows = length (extract_pdf_data pages)) as Hlen
      by by apply Permutation_length.
  split; [done|]. split; [done|].
  exists (generate_display_excel rows). split; [|split; [|split]].
  - unfold download_excel. destruct rows as [|r rs] eqn:E; [|done].
    destruct (extract_pdf_data pages); [done|discriminate Hlen].
  - intros r c. rewrite <- Hlen, lookup_generate_display_excel.
    destruct (decide (r = length rows + 1)%nat) as [->|Hr].
    + rewrite lookup_lt_is_Some. change (length (total_cells _)) with 7%nat. lia.
    + destruct (decide (1 ≤ r)%nat) as [H1|H1].
      * destruct (rows !! (r - 1)%nat) as [record|] eqn:E; cbn [mbind option_bind].
        -- apply lookup_lt_Some in E. rewrite lookup_lt_is_Some.
           change (length (display_cells _ _)) with 7%nat. lia.
        -- apply lookup_ge_None in E. rewrite is_Some_alt. lia.
      * rewrite fmap_is_Some, lookup_lt_is_Some.
        change (length display_headers) with 7%nat. lia.
  - intros record Hin.
    assert (In record rows) as Hr
        by (eapply Permutation_in; [symmetry; exact Hperm|exact Hin]).
    apply In_lookup in Hr as [i Hi]. exists i.
    pose proof (lookup_lt_Some _ _ _ Hi) as Hlt. split; [lia|].
    intros c. rewrite lookup_generate_display_excel.
    destruct (decide (1 + i = length rows + 1)%nat); [lia|].
    destruct (decide (1 ≤ 1 + i)%nat); [|lia].
    assert ((1 + i - 1)%nat = i) as -> by lia. by rewrite Hi.
  - intros r a b. rewrite !lookup_generate_display_excel.
    destruct (decide (r = length rows + 1)%nat) as [->|Hr]; [done|].
    destruct (decide (S r = length rows + 1)%nat) as [|Hr']; [done|].
    destruct (decide (1 ≤ S r)%nat); [|lia].
    destruct (decide (1 ≤ r)%nat) as [H1|H1]; [|done].
    destruct (rows !! (r - 1)%nat) as [ra|] eqn:Ea; [|done].
    destruct (rows !! (S r - 1)%nat) as [rb|] eqn:Eb; [|done].
    cbn [mbind option_bind display_cells lookup list_lookup].
    intros [= <-] [= <-].
    replace (S r - 1)%nat with (S (r - 1)) in Eb by lia.
    apply (chain_lookup amount_le rows (sorted_rows_ascending pages) (r - 1)%nat ra rb Ea Eb).
Qed.

Lemma download_after_summary_witness :
  ∃ ws, download_excel (Some (sorted_by_amount (extract_pdf_data [mixed_page]))) = Some ws ∧
        ∀ r c, is_Some (ws !! (r, c)) ↔ (r ≤ 3 ∧ c < 7)%nat.
Proof.
  destruct (download_after_summary [mixed_page] _ eq_refl) as (_ & _ & ws & Hws & Hcells & _).
  exists ws. split; [exact Hws|]. exact Hcells.
Defined.

(** ** Validation *)

Lemma missing_fields_app (idx : nat) (items : list (string * pyval))
    (errors : list string) :
  missing_fields idx items errors = (errors ++ missing_fields idx items [])%list.
Proof.
  unfold missing_fields, required_fields. cbn [fold_left].
  destruct (has_field items "bfd_account"), (has_field items "cheque_amount"),
    (has_field items "pay_bank_name"), (has_field items "cheque_number");
    cbn [app]; rewrite <- ?app_assoc, ?app_nil_r; reflexivity.
Qed.

Lemma missing_fields_nil (idx : nat) (items : list (string * pyval)) :
  missing_fields idx items [] = [] ↔ forallb (has_field items) required_fields = true.
Proof.
  unfold missing_fields, required_fields. cbn [fold_left forallb].
  destruct (has_field items "bfd_account"), (has_field items "cheque_amount"),
    (has_field items "pay_bank_name"), (has_field items "cheque_number");
    cbn [app andb]; split; intros H; done.
Qed.

Lemma missing_fields_length (idx : nat) (items : list (string * pyval)) :
  (length (missing_fields idx items []) ≤ 4)%nat ∧
  (has_field items "cheque_amount" = true →
   length (missing_fields idx items []) ≤ 3)%nat.
Proof.
  unfold missing_fields, required_fields. cbn [fold_left].
  destruct (has_field items "bfd_account"), (has_field items "cheque_amount"),
    (has_field items "pay_bank_name"), (has_field items "cheque_number");
    cbn [app length]; split; intros; try lia; done.
Qed.

(** The loop either raises, on the first record whose amount overflows, or
    appends the errors of the records in order. *)
Lemma validate_rows_spec (todo : list (nat * pyrecord)) :
  ∀ errors,
    if existsb overflows (map snd todo)
    then validate_rows todo errors = None
    else validate_rows todo errors = Some (errors ++ flat_map row_errors todo)%list.
Proof.
  induction todo as [|[idx record] todo IH]; intros errors;
    cbn [map snd existsb validate_rows flat_map].
  - by rewrite app_nil_r.
  - destruct record as [|items]; cbn [overflows orb].
    + specialize (IH (errors ++ [row_error idx "Record must be a dictionary"])%list).
      destruct (existsb overflows (map snd todo)); [done|].
      rewrite IH. unfold row_errors at 2. cbn [fst snd]. by rewrite <- app_assoc.
    + unfold row_errors at 1. cbn [fst snd].
      rewrite (missing_fields_app idx items errors).
      destruct (record_get items "cheque_amount") as [v|]; cbn [fmap option_fmap option_map].
      * destruct (float_of v); cbn [orb].
        -- specialize (IH (errors ++ missing_fields idx items [])%list).
           destruct (existsb overflows (map snd todo)); [done|].
           rewrite IH. by rewrite app_nil_r, <- app_assoc.
        -- specialize (IH ((errors ++ missing_fields idx items []) ++
                           [row_error idx "cheque_amount must be a number"])%list).
           destruct (existsb overflows (map snd todo)); [done|].
           rewrite IH. by rewrite <- !app_assoc.
        -- specialize (IH ((errors ++ missing_fields idx items []) ++
                           [row_error idx "cheque_amount must be a number"])%list).
           destruct (existsb overflows (map snd todo)); [done|].
           rewrite IH. by rewrite <- !app_assoc.
        -- done.
      * specialize (IH (errors ++ missing_fields idx items [])%list).
        destruct (existsb overflows (map snd todo)); [done|].
        rewrite IH. by rewrite app_nil_r, <- app_assoc.
Qed.

Lemma row_errors_nil (ir : nat * pyrecord) :
  overflows ir.2 = false →
  row_errors ir = [] ↔ is_complete ir.2 = true.
Proof.
  unfold row_errors, is_complete, overflows. destruct ir.2 as [|items]; [done|].
  intros Hov. rewrite andb_true_iff, <- missing_fields_nil. split.
  - intros [H1 H2]%app_eq_nil. split; [done|].
    pose proof (missing_fields_nil ir.1 items) as [Hall _]. specialize (Hall H1).
    unfold required_fields in Hall. cbn [forallb] in Hall.
    apply andb_true_iff in Hall as [_ [Hamt _]%andb_true_iff].
    unfold has_field in Hamt.
    destruct (record_get items "cheque_amount") as [v|]; [|done].
    cbn [fmap option_fmap option_map] in *. by destruct (float_of v).
  - intros [H1 H2]. rewrite H1. cbn [app].
    destruct (float_of <$> record_get items "cheque_amount") as [[]|]; done.
Qed.

Lemma complete_not_overflows (record : pyrecord) :
  is_complete record = true → overflows record = false.
Proof.
  unfold is_complete, overflows. destruct record as [|items]; [done|].
  intros [_ H]%andb_true_iff.
  by destruct (float_of <$> record_get items "cheque_amount") as [[]|].
Qed.

Lemma row_errors_length (ir : nat * pyrecord) : (length (row_errors ir) ≤ 4)%nat.
Proof.
  unfold row_errors. destruct ir.2 as [|items]; [cbn; lia|].
  rewrite length_app. destruct (missing_fields_length ir.1 items) as [H4 H3].
  unfold has_field in H3.
  destruct (record_get items "cheque_amount") as [v|];
    cbn [fmap option_fmap option_map]; [|cbn [length]; lia].
  specialize (H3 eq_refl). destruct (float_of v); cbn [length]; lia.
Qed.

Lemma flat_map_row_errors_nil (todo : list (nat * pyrecord)) :
  existsb overflows (map snd todo) = false →
  flat_map row_errors todo = [] ↔ forallb is_complete (map snd todo) = true.
Proof.
  induction todo as [|ir todo IH]; [done|]. cbn [flat_map map forallb existsb].
  intros [Hir Htodo]%orb_false_iff.
  rewrite andb_true_iff, <- (IH Htodo), <- (row_errors_nil ir Hir). split.
  - by intros [? ?]%app_eq_nil.
  - by intros [-> ->].
Qed.

Lemma flat_map_row_errors_length (todo : list (nat * pyrecord)) :
  (length (flat_map row_errors todo) ≤ 4 * length todo)%nat.
Proof.
  induction todo as [|ir todo IH]; [done|]. cbn [flat_map length].
  rewrite length_app. pose proof (row_errors_length ir). lia.
Qed.

Lemma map_snd_enumerate {A} (l : list A) : map snd (enumerate l) = l.
Proof.
  unfold enumerate. generalize 0%nat.
  induction l as [|a l IH]; intros k; [done|]. cbn [length seq combine map snd].
  by rewrite IH.
Qed.

Lemma length_enumerate {A} (l : list A) : length (enumerate l) = length l.
Proof. by rewrite <- (map_snd_enumerate l) at 2; rewrite length_map. Qed.

Lemma forallb_complete_not_overflows (l : list pyrecord) :
  forallb is_complete l = true → existsb overflows l = false.
Proof.
  induction l as [|r l IH]; [done|]. cbn [forallb existsb].
  intros [Hr Hl]%andb_true_iff. by rewrite (complete_not_overflows r Hr), IH.
Qed.

(** The outcome of [validate_data] on a non-empty list. *)
Lemma validate_data_list (r : pyrecord) (l : list pyrecord) :
  validate_data (AList (r :: l)) =
  if existsb overflows (r :: l) then None
  else let errors := flat_map row_errors (enumerate (r :: l)) in
       Some (match errors with [] => true | _ => false end, errors).
Proof.
  unfold validate_data.
  pose proof (validate_rows_spec (enumerate (r :: l)) []) as H.
  rewrite map_snd_enumerate in H.
  destruct (existsb overflows (r :: l)); by rewrite H.
Qed.

(** The three outcomes of [validate_data]. *)
Lemma validate_data_cases (data : pydata) :
  (validate_data data = None ↔
   ∃ l, data = AList l ∧ existsb overflows l = true) ∧
  (∀ errors, validate_data data = Some (true, errors) ↔
     errors = [] ∧ ∃ l, data = AList l ∧ l ≠ [] ∧ forallb is_complete l = true) ∧
  (∀ errors, validate_data data = Some (false, errors) →
     errors ≠ [] ∧
     ∀ l, data = AList l → l ≠ [] → (length errors ≤ 4 * length l)%nat).
Proof.
  destruct data as [|[|r l]].
  - split; [|split].
    + split; [done|]. by intros (l & [=] & _).
    + intros errors. split; [done|]. by intros (_ & l & [=] & _).
    + intros errors [= <-]. split; [done|]. by intros l [=].
  - split; [|split].
    + split; [done|]. by intros (l & [= <-] & H).
    + intros errors. split; [done|]. by intros (_ & l & [= <-] & H & _).
    + intros errors [= <-]. split; [done|]. by intros l [= <-] H.
  - rewrite validate_data_list.
    pose proof (flat_map_row_errors_nil (enumerate (r :: l))) as Hnil.
    rewrite map_snd_enumerate in Hnil.
    pose proof (flat_map_row_errors_length (enumerate (r :: l))) as Hlen.
    rewrite length_enumerate in Hlen.
    destruct (existsb overflows (r :: l)) eqn:Eo.
    + clear Hnil. split; [|split].
      * split; [eauto|done].
      * intros errors. split; [done|]. intros (_ & l' & [= <-] & _ & Hc).
        apply forallb_complete_not_overflows in Hc. congruence.
      * done.
    + specialize (Hnil eq_refl). cbv zeta.
      destruct (flat_map row_errors (enumerate (r :: l))) as [|e es] eqn:E.
      * split; [|split].
        -- split; [done|]. intros (l' & [= <-] & H). congruence.
        -- intros errors. split.
           ++ intros [= <-]. split; [done|]. exists (r :: l).
              split; [done|]. split; [done|]. by apply Hnil.
           ++ by intros [-> _].
        -- done.
      * split; [|split].
        -- split; [done|]. intros (l' & [= <-] & H). congruence.
        -- intros errors. split; [done|]. intros (_ & l' & [= <-] & _ & Hc).
           by apply Hnil in Hc.
        -- intros errors [= <-]. split; [done|]. by intros l' [= <-] _.
Qed.

(** X19. [validate_data] accepts exactly the non-empty lists of
    dictionaries that each hold the four required fields and an amount that
    [float] converts; what it rejects comes with at least one error, and
    with at most four per record. It raises, instead of answering, exactly
    when the amount of some record is an integer too large for a float. *)
Theorem validate_data_spec (data : pydata) :
  (validate_data data = None ↔
   ∃ l, data = AList l ∧ existsb overflows l = true) ∧
  (∀ errors, validate_data data = Some (true, errors) ↔
     errors = [] ∧ ∃ l, data = AList l ∧ l ≠ [] ∧ forallb is_complete l = true) ∧
  (∀ errors, validate_data data = Some (false, errors) →
     errors ≠ [] ∧
     ∀ l, data = AList l → l ≠ [] → (length errors ≤ 4 * length l)%nat).
Proof. apply validate_data_cases. Qed.

Lemma read_record_complete (float_repr : spec_float → string) (record : pyrecord) :
  is_complete record = true → is_Some (read_record float_repr record).
Proof.
  unfold is_complete, read_record. destruct record as [|items]; [done|].
  unfold required_fields, has_field. cbn [forallb].
  destruct (record_get items "bfd_account"); [|done].
  destruct (record_get items "cheque_amount") as [v|]; [|done].
  destruct (record_get items "pay_bank_name"); [|done].
  destruct (record_get items "cheque_number"); [|done].
  cbn [andb fmap option_fmap option_map]. by destruct (float_of v).
Qed.

Lemma read_records_complete (float_repr : spec_float → string) (l : list pyrecord) :
  forallb is_complete l = true → is_Some (read_records float_repr l).
Proof.
  induction l as [|r l IH]; [by eexists|]. cbn [forallb read_records].
  intros [Hr Hl]%andb_true_iff.
  destruct (read_record_complete float_repr r Hr) as [x ->], (IH Hl) as [xs ->]. by eexists.
Qed.

Lemma read_records_cheques (float_repr : spec_float → string) (records : list cheque) :
  ∃ rs, read_records float_repr (map dict_of_cheque records) = Some rs ∧
        map debit_cells rs = map debit_cells records ∧
        ∀ acc br, map (credit_cells acc br) rs = map (credit_cells acc br) records.
Proof.
  induction records as [|r records (rs & Hrs & Hd & Hc)]; [by exists []|].
  cbn [map read_records]. rewrite Hrs.
  change (read_record float_repr (dict_of_cheque r)) with
    (Some {| bfd_account := bfd_account r; cheque_amount := cheque_amount r;
             pay_bank_name := pay_bank_name r; pay_account := pay_account r;
             cheque_number := cheque_number r; branch_code := EmptyString;
             reason := EmptyString |}).
  eexists. split; [reflexivity|]. cbn [map]. split.
  - by rewrite Hd.
  - intros acc br. by rewrite Hc.
Qed.

Lemma complete_dict_of_cheque (records : list cheque) :
  forallb is_complete (map dict_of_cheque records) = true.
Proof. induction records as [|r records IH]; [done|]. cbn [map forallb]. by rewrite IH. Qed.

(** X20. [generate_excel_batch_safe]: validation is enough for the
    generator, whose reads of the fields ([str], [float], indexing) all
    succeed on validated data, so that the answer is never the message of a
    failed generation: it is the batch, or the validation message starting
    with its heading. The function raises exactly when [validate_data]
    does. On the dictionaries of a non-empty list of extracted records its
    batch is the one [generate_excel_batch] writes for them. *)
Theorem safe_generation (float_repr : spec_float → string) (data : pydata)
    (acc br : string) :
  generate_excel_batch_safe float_repr data acc br ≠ Some SafeError ∧
  (generate_excel_batch_safe float_repr data acc br = None ↔ validate_data data = None) ∧
  (∀ errors, validate_data data = Some (false, errors) →
     generate_excel_batch_safe float_repr data acc br =
     Some (SafeInvalid ("Validation errors:" ++ String newline
                          (String.concat (String newline EmptyString) errors)))) ∧
  (∀ records, records ≠ [] → data = AList (map dict_of_cheque records) →
     generate_excel_batch_safe float_repr data acc br =
     Some (SafeBatch (generate_excel_batch records acc br))).
Proof.
  destruct (validate_data_cases data) as (_ & Htrue & _).
  unfold generate_excel_batch_safe.
  split; [|split; [|split]].
  - destruct (validate_data data) as [[[] errors]|] eqn:E; [|done|done].
    destruct (Htrue errors) as [H _].
    destruct (H eq_refl) as (_ & l & -> & _ & Hc).
    by destruct (read_records_complete float_repr l Hc) as [rs ->].
  - destruct (validate_data data) as [[[] errors]|] eqn:E; [|done|done].
    destruct (Htrue errors) as [H _].
    destruct (H eq_refl) as (_ & l & -> & _ & Hc).
    destruct (read_records_complete float_repr l Hc) as [rs ->]. done.
  - by intros errors ->.
  - intros records Hne ->.
    assert (validate_data (AList (map dict_of_cheque records)) = Some (true, [])) as ->.
    { apply Htrue. split; [done|]. eexists. split; [done|].
      split; [by destruct records|apply complete_dict_of_cheque]. }
    destruct (read_records_cheques float_repr records) as (rs & -> & Hd & Hc).
    do 2 f_equal. rewrite !generate_excel_batch_blocks.
    rewrite Hd, Hc. do 2 f_equal.
    by rewrite <- (length_map debit_cells rs), Hd, length_map.
Qed.

(** The validation and the safe generator raise on an integer amount too
    large for a float. *)
Example safe_generation_raises :
  validate_data (AList [huge_int_record]) = None ∧
  generate_excel_batch_safe no_repr (AList [huge_int_record]) "9313102000" "255" = None.
Proof. split; vm_compute; reflexivity. Qed.

(** ** The choice of the cheque number *)




(** ** The reason of a table record *)

Lemma upper_c_space (c : ascii) : isspace_c (upper_c c) = isspace_c c.
Proof.
  unfold upper_c. destruct (islower_c c) eqn:E; [|done].
  unfold islower_c, between in E. apply andb_true_iff in E as [H1 H2].
  apply Nat.leb_le in H1, H2.
  assert (code (ascii_of_nat (code c - 32)) = (code c - 32)%nat) as Hcode.
  { unfold code. apply nat_ascii_embedding. unfold code in H2. lia. }
  unfold isspace_c, between. rewrite Hcode.
  transitivity false; [|symmetry]; apply orb_false_iff;
    rewrite !andb_false_iff, !Nat.leb_gt; lia.
Qed.

Lemma upper_c_idem (c : ascii) : upper_c (upper_c c) = upper_c c.
Proof.
  unfold upper_c. destruct (islower_c c) eqn:E; [|by rewrite E].
  unfold islower_c, between in E. apply andb_true_iff in E as [H1 H2].
  apply Nat.leb_le in H1, H2.
  assert (code (ascii_of_nat (code c - 32)) = (code c - 32)%nat) as Hcode.
  { unfold code. apply nat_ascii_embedding. unfold code in H2. lia. }
  assert (islower_c (ascii_of_nat (code c - 32)) = false) as ->; [|done].
  unfold islower_c, between. rewrite Hcode.
  apply andb_false_iff. left. apply Nat.leb_gt. lia.
Qed.

Lemma upper_idem (s : string) : upper (upper s) = upper s.
Proof. induction s as [|c s IH]; [done|]. cbn [upper]. by rewrite upper_c_idem, IH. Qed.

Lemma lstrip_upper (s : string) : lstrip (upper s) = upper (lstrip s).
Proof.
  induction s as [|c s IH]; [done|]. cbn [upper lstrip].
  rewrite upper_c_space. by destruct (isspace_c c).
Qed.

Lemma rstrip_upper (s : string) : rstrip (upper s) = upper (rstrip s).
Proof.
  induction s as [|c s IH]; [done|]. cbn [upper rstrip].
  rewrite IH, upper_c_space.
  destruct (rstrip s) as [|d r]; cbn [upper]; [by destruct (isspace_c c)|done].
Qed.

Lemma strip_upper (s : string) : strip (upper s) = upper (strip s).
Proof. unfold strip. by rewrite rstrip_upper, lstrip_upper. Qed.

Lemma lstrip_idem (s : string) : lstrip (lstrip s) = lstrip s.
Proof.
  induction s as [|c s IH]; [done|]. cbn [lstrip].
  destruct (isspace_c c) eqn:E; [done|]. cbn [lstrip]. by rewrite E.
Qed.

Lemma rstrip_idem (s : string) : rstrip (rstrip s) = rstrip s.
Proof.
  induction s as [|c s IH]; [done|]. cbn [rstrip].
  destruct (rstrip s) as [|d r] eqn:E.
  - destruct (isspace_c c) eqn:Ec; [done|]. cbn [rstrip]. by rewrite Ec.
  - cbn [rstrip] in *. rewrite IH. done.
Qed.

(** Stripping on the left keeps a text free of trailing whitespace so. *)
Lemma rstrip_lstrip (s : string) : rstrip s = s → rstrip (lstrip s) = lstrip s.
Proof.
  induction s as [|c s IH]; [done|]. cbn [lstrip].
  destruct (isspace_c c) eqn:Ec; [|done].
  intros H. apply IH. cbn [rstrip] in H.
  destruct (rstrip s) as [|d r]; [by rewrite Ec in H|]. by injection H.
Qed.

Lemma strip_idem (s : string) : strip (strip s) = strip s.
Proof.
  unfold strip. rewrite (rstrip_lstrip (rstrip s)) by apply rstrip_idem.
  apply lstrip_idem.
Qed.

(** A reason cell as [_extract_reason] normalises it. *)
Lemma normal_reason (c : string) :
  upper (upper (strip c)) = upper (strip c) ∧
  strip (upper (strip c)) = upper (strip c).
Proof. split; [apply upper_idem|]. by rewrite strip_upper, strip_idem. Qed.

Lemma reason_scan_shape (c : cell) (s : string) :
  reason_scan c = Some s →
  (3 ≤ String.length s)%nat ∧ numeric_text s = false ∧
  ∃ t, text c = Some t ∧ s = upper (strip t).
Proof.
  unfold reason_scan. destruct (text c) as [t|]; [|done]. cbv zeta.
  destruct (numeric_text (upper (strip t))) eqn:En; [done|].
  destruct (String.length (upper (strip t)) <? 3)%nat eqn:El; [done|].
  apply Nat.ltb_ge in El.
  destruct (mem _ _); [done|].
  destruct (existsb _ _).
  - intros [= <-]. repeat split; [done..|]. by exists t.
  - destruct (has_char " " _ && any_c isalpha_c _); [|done].
    intros [= <-]. repeat split; [done..|]. by exists t.
Qed.

Lemma extract_reason_shape (row : list cell) (s : string) :
  _extract_reason row = Some s →
  (3 ≤ String.length s)%nat ∧ numeric_text s = false ∧
  ∃ c t, In c row ∧ text c = Some t ∧ s = upper (strip t).
Proof.
  unfold _extract_reason.
  destruct (text_at row 13) as [c13|] eqn:E13.
  - cbv zeta.
    destruct ((3 <=? String.length (upper (strip c13)))%nat
              && negb (numeric_text (upper (strip c13)))) eqn:E.
    + intros [= <-]. apply andb_true_iff in E as [El En].
      apply Nat.leb_le in El. apply negb_true_iff in En.
      repeat split; [done..|].
      unfold text_at in E13. destruct (row !! 13%nat) as [c|] eqn:Ec; [|done].
      exists c, c13. repeat split; [|done..]. by apply (lookup_In row 13).
    + intros (c & Hc & Hs)%first_map_Some.
      apply reason_scan_shape in Hs as (Hl & Hn & t & Ht & ->).
      repeat split; [done..|]. exists c, t. repeat split; [|done..].
      by apply in_rev.
  - intros (c & Hc & Hs)%first_map_Some.
    apply reason_scan_shape in Hs as (Hl & Hn & t & Ht & ->).
    repeat split; [done..|]. exists c, t. repeat split; [|done..].
    by apply in_rev.
Qed.

(** X22. The reason of a table-mode record is either empty (no reason was
    found) or the upper-cased, stripped text of a cell of its row, with at
    least three characters and not a number. It is stored in the form in
    which the views read it, so that a table record counts as accepted
    exactly when its stored reason contains ACCEPTED. *)
Theorem table_reason_normal (fixes : list (string * string))
    (tables : list (list (list cell))) (record : cheque) :
  In record (_extract_from_table tables fixes) →
  (reason record = EmptyString ∨
   (3 ≤ String.length (reason record))%nat ∧ numeric_text (reason record) = false ∧
   ∃ table row c t, In table tables ∧ In row table ∧ In c row ∧ text c = Some t ∧
                    reason record = upper (strip t)) ∧
  strip (upper (reason record)) = reason record ∧
  is_accepted record = contains "ACCEPTED" (reason record).
Proof.
  intros (table & row & Ht & Hr & Hrow)%extract_from_table_In.
  assert (reason record = or_default (_extract_reason row) EmptyString) as Hreason.
  { unfold table_row in Hrow.
    destruct (length row <? 9)%nat; [done|].
    destruct (mem _ header_labels); [done|].
    destruct (contains "TOTAL" _ || contains "END OF REPORT" _); [done|].
    destruct (_extract_bank_info row fixes) as [bank acc].
    by apply make_record_optional in Hrow as (_ & _ & _ & ?). }
  assert (reason record = EmptyString ∨
          (3 ≤ String.length (reason record))%nat ∧ numeric_text (reason record) = false ∧
          ∃ c t, In c row ∧ text c = Some t ∧ reason record = upper (strip t)) as Hshape.
  { rewrite Hreason. unfold or_default.
    destruct (_extract_reason row) as [s|] eqn:E; [|by left].
    destruct (nonempty s); [|by left]. right. by apply extract_reason_shape. }
  assert (strip (upper (reason record)) = reason record) as Hnormal.
  { destruct Hshape as [->|(_ & _ & c & t & _ & _ & ->)]; [done|].
    destruct (normal_reason t) as [-> ->]. done. }
  split; [|split; [done|]].
  - destruct Hshape as [?|(Hl & Hn & c & t & Hc & Htxt & Heq)]; [by left|].
    right. repeat split; [done..|]. exists table, row, c, t. done.
  - unfold is_accepted. by rewrite Hnormal.
Qed.

Lemma table_reason_normal_witness :
  reason report_record = "INSUFFICIENT FUNDS" ∧
  strip (upper (reason report_record)) = reason report_record.
Proof.
  split; [reflexivity|].
  destruct (table_reason_normal BANK_NAME_FIXES
              [[report_row "50,000.00" "INSUFFICIENT FUNDS"]] report_record)
    as (_ & H & _); [|exact H].
  vm_compute. by left.
Defined.

(** Text mode keeps the case of the words of the line. *)
Example text_reason_keeps_case :
  _extract_reason_from_parts ["1,000.00"; "Insufficient"; "Funds"] =
  Some "Insufficient Funds".
Proof. vm_compute; reflexivity. Qed.
